(** * KBUS messages: a shallow embedding of [python/kbus/messages.py]

    The Python module wraps the KBUS message header in [ctypes] structures.
    Here the structures are records over [Z] (every [c_uint32] store is
    written out as a reduction modulo 2^32), Python byte strings are lists
    of [ascii], dynamically typed arguments are values of [pyval], and
    every function that can raise returns a [result]. *)

From Stdlib Require Import String.
From Stdlib Require Import ZArith List Ascii Bool Lia.
Import ListNotations.
Open Scope Z_scope.

(** ** Byte strings and machine integers *)

Definition bytes := list ascii.

Definition NUL : ascii := Ascii.zero.

(** [len s] is Python's [len(s)]. *)
Definition len (s : bytes) : Z := Z.of_nat (length s).

(** Storing a Python integer in a [ctypes.c_uint32] keeps its low 32 bits. *)
Definition u32 (z : Z) : Z := z mod 2 ^ 32.

Definition is_u32 (z : Z) : Prop := 0 <= z < 2 ^ 32.

Definition _BIT (nr : Z) : Z := Z.shiftl 1 nr.

Definition _set_bit (value which : Z) : Z := Z.lor value which.

Definition _clear_bit (value which : Z) : Z :=
  if Z.land value which =? 0 then value
  else Z.land value (Z.lnot which).

(** ** Exceptions *)

Inductive reason :=
| NameDoesNotStart        (* Message name "..." does not start "$." *)
| NameTooShort            (* Message name is n long, minimum is 3 *)
| BadStartGuard           (* Message start guard is ..., not ... *)
| BadEndGuard             (* Message end guard is ..., not ... *)
| SequenceNot9            (* Sequence arg ... must have 9 values *)
| StringTooShort          (* Cannot form entire message from string of length n *)
| NoStartGuard            (* ... which does not start with message start guard *)
| ReplyNeedsInReplyTo     (* A Reply must specify in_reply_to *)
| CannotReply             (* Cannot form a reply to a message that does not have ... *)
| UnpackMismatch.         (* need more than n values to unpack *)

Inductive exn :=
| ValueError (r : reason)
| TypeError
| AttributeError
| StructError
| NotImplementedError.

Inductive result (A : Type) :=
| Ok (a : A)
| Raise (e : exn).
Arguments Ok {A} a.
Arguments Raise {A} e.

Definition bind {A B} (r : result A) (k : A -> result B) : result B :=
  match r with
  | Ok a => k a
  | Raise e => Raise e
  end.

Notation "x <- r ;; k" := (bind r (fun x => k))
  (at level 61, r at next level, right associativity).

Definition succeeds {A} (r : result A) : Prop := exists a, r = Ok a.
Definition fails {A} (r : result A) : Prop := exists e, r = Raise e.

(** ** MessageId and OrigFrom *)

Record MessageId := mkMessageId { network_id : Z; serial_num : Z }.

(** [of_network_id] is the [network_id] field of an OrigFrom. *)
Record OrigFrom := mkOrigFrom { of_network_id : Z; local_id : Z }.

(** [MessageId.__cmp__], for [other] a MessageId. *)
Definition MessageId_cmp (self other : MessageId) : Z :=
  if network_id self =? network_id other then
    if serial_num self =? serial_num other then 0
    else if serial_num self <? serial_num other then -1
    else 1
  else if network_id self <? network_id other then -1
  else 1.

(** Python 2 derives the rich comparisons from [__cmp__]. *)
Definition MessageId_lt (a b : MessageId) : bool := MessageId_cmp a b <? 0.
Definition MessageId_eq (a b : MessageId) : bool := MessageId_cmp a b =? 0.
Definition MessageId_gt (a b : MessageId) : bool := MessageId_cmp a b >? 0.
Definition MessageId_ne (a b : MessageId) : bool := negb (MessageId_cmp a b =? 0).

Definition OrigFrom_cmp (self other : OrigFrom) : Z :=
  if of_network_id self =? of_network_id other then
    if local_id self =? local_id other then 0
    else if local_id self <? local_id other then -1
    else 1
  else if of_network_id self <? of_network_id other then -1
  else 1.

Definition OrigFrom_ne (a b : OrigFrom) : bool := negb (OrigFrom_cmp a b =? 0).

(** Lexicographic order on the pair (network_id, serial_num). *)
Definition lex_lt (a b : MessageId) : Prop :=
  network_id a < network_id b \/
  (network_id a = network_id b /\ serial_num a < serial_num b).


(** ** Python values

    The constructors of [Message] take keyword arguments that may be [None],
    an integer, a string, a [MessageId] or an [OrigFrom]; [from_sequence]
    takes a sequence of such values. *)

Inductive pyval :=
| PNone
| PInt (z : Z)
| PStr (s : bytes)
| PMessageId (m : MessageId)
| POrigFrom (o : OrigFrom).

(** Truth value of [v] in [if v:]. The [ctypes] structures define neither
    [__nonzero__] nor [__len__], so an instance is always true. *)
Definition truthy (v : pyval) : bool :=
  match v with
  | PNone => false
  | PInt z => negb (z =? 0)
  | PStr [] => false
  | PStr (_ :: _) => true
  | PMessageId _ => true
  | POrigFrom _ => true
  end.

Definition is_None (v : pyval) : bool :=
  match v with PNone => true | _ => false end.

(** [len(v)] *)
Definition py_len (v : pyval) : result Z :=
  match v with
  | PStr s => Ok (len s)
  | _ => Raise TypeError
  end.

(** Conversion of a value stored in a [c_uint32] field. *)
Definition as_c_uint32 (v : pyval) : result Z :=
  match v with
  | PInt z => Ok (u32 z)
  | _ => Raise TypeError
  end.

Fixpoint startswith (s prefix : bytes) {struct prefix} : bool :=
  match prefix, s with
  | [], _ => true
  | p :: prefix', c :: s' => Ascii.eqb c p && startswith s' prefix'
  | _ :: _, [] => false
  end.

(** [v.startswith(prefix)] *)
Definition py_startswith (v : pyval) (prefix : bytes) : result bool :=
  match v with
  | PStr s => Ok (startswith s prefix)
  | _ => Raise AttributeError
  end.

Fixpoint bytes_eqb (a b : bytes) : bool :=
  match a, b with
  | [], [] => true
  | x :: a', y :: b' => Ascii.eqb x y && bytes_eqb a' b'
  | _, _ => false
  end.

(** The value of a C string: the bytes before the first NUL. *)
Fixpoint c_str (buf : bytes) : bytes :=
  match buf with
  | [] => []
  | c :: rest => if Ascii.eqb c NUL then [] else c :: c_str rest
  end.

(** [while len(s)%4: s += '\0'].  At most three bytes are added, so three
    rounds of the loop are enough. *)
Fixpoint pad_loop (rounds : nat) (s : bytes) : bytes :=
  if len s mod 4 =? 0 then s
  else match rounds with
       | O => s
       | S rounds' => pad_loop rounds' (s ++ [NUL])
       end.

Definition pad4 (s : bytes) : bytes := pad_loop 3 s.

(** ** Message lengths *)

Record platform := mkPlatform {
  bits64 : bool;        (* pointers are 8 bytes wide and 8-aligned *)
  big_endian : bool     (* native byte order *)
}.

Definition ptr_size (P : platform) : nat := if bits64 P then 8%nat else 4%nat.

(** Padding that aligns the two pointers of the header, and the same
    amount again after its end guard. *)
Definition hdr_pad (P : platform) : nat := if bits64 P then 4%nat else 0%nat.

(** [MSG_HEADER_LEN = ctypes.sizeof(_MessageHeaderStruct)]: fifteen
    32-bit words, the name and data pointers, the end guard. *)
Definition MSG_HEADER_LEN (P : platform) : Z :=
  Z.of_nat (15 * 4 + hdr_pad P + ptr_size P + ptr_size P + 4 + hdr_pad P).

Definition calc_padded_name_len (name_len : Z) : Z :=
  4 * ((name_len + 1 + 3) / 4).

Definition calc_padded_data_len (data_len : Z) : Z :=
  4 * ((data_len + 3) / 4).

Definition calc_entire_message_len (P : platform) (name_len data_len : Z) : Z :=
  MSG_HEADER_LEN P + calc_padded_name_len name_len +
  calc_padded_data_len data_len + 4.

(** ** Message structures *)

Definition START_GUARD : Z := 0x7375624B.
Definition END_GUARD : Z := 0x4B627573.

Definition WANT_A_REPLY : Z := _BIT 0.
Definition WANT_YOU_TO_REPLY : Z := _BIT 1.
Definition SYNTHETIC : Z := _BIT 2.
Definition URGENT : Z := _BIT 3.
Definition ALL_OR_WAIT : Z := _BIT 8.
Definition ALL_OR_FAIL : Z := _BIT 9.

(** The integer fields of [_MessageHeaderStruct]. *)
Record header := mkHeader {
  start_guard : Z;
  id : MessageId;
  in_reply_to : MessageId;
  to : Z;
  from_ : Z;
  orig_from : OrigFrom;
  final_to : OrigFrom;
  extra : Z;
  flags : Z;
  name_len : Z;
  data_len : Z;
  end_guard : Z
}.

(** A message structure is "pointy" (a header whose [name] points at a
    NUL-terminated buffer and whose [data] is [None] or points at an array
    of bytes) or "entire" (a header followed by the arrays [rest_name] and
    [rest_data] and by [rest_end_guard]; the two pointers of its header are
    never followed). *)
Inductive msg_struct :=
| Pointy (h : header) (name : bytes) (data : option bytes)
| Entire (h : header) (rest_name rest_data : bytes) (rest_end_guard : Z).

Definition hdr (m : msg_struct) : header :=
  match m with
  | Pointy h _ _ => h
  | Entire h _ _ _ => h
  end.

Definition is_pointy (m : msg_struct) : bool :=
  match m with
  | Pointy _ _ _ => true
  | Entire _ _ _ _ => false
  end.

Definition set_hdr (f : header -> header) (m : msg_struct) : msg_struct :=
  match m with
  | Pointy h n d => Pointy (f h) n d
  | Entire h rn rd g => Entire (f h) rn rd g
  end.

Definition set_in_reply_to (v : MessageId) (h : header) : header :=
  mkHeader (start_guard h) (id h) v (to h) (from_ h) (orig_from h)
           (final_to h) (extra h) (flags h) (name_len h) (data_len h)
           (end_guard h).

Definition set_orig_from (v : OrigFrom) (h : header) : header :=
  mkHeader (start_guard h) (id h) (in_reply_to h) (to h) (from_ h) v
           (final_to h) (extra h) (flags h) (name_len h) (data_len h)
           (end_guard h).

Definition set_final_to (v : OrigFrom) (h : header) : header :=
  mkHeader (start_guard h) (id h) (in_reply_to h) (to h) (from_ h)
           (orig_from h) v (extra h) (flags h) (name_len h) (data_len h)
           (end_guard h).

Definition set_flags (v : Z) (h : header) : header :=
  mkHeader (start_guard h) (id h) (in_reply_to h) (to h) (from_ h)
           (orig_from h) (final_to h) (extra h) (u32 v) (name_len h)
           (data_len h) (end_guard h).

(** The [name] attribute of a structure: the C string a pointy header
    points at; for an entire message, [rest_name[:name_len]], where reading
    the [c_char] array stops at its first NUL. *)
Definition struct_name (m : msg_struct) : bytes :=
  match m with
  | Pointy _ n _ => c_str n
  | Entire h rn _ _ => firstn (Z.to_nat (name_len h)) (c_str rn)
  end.

(** The [data] attribute: the pointer of a pointy header; for an entire
    message, [rest_data[:data_len]], or [None] when [data_len] is 0. *)
Definition struct_data (m : msg_struct) : option bytes :=
  match m with
  | Pointy _ _ d => d
  | Entire h _ rd _ =>
      if data_len h =? 0 then None
      else Some (firstn (Z.to_nat (data_len h)) rd)
  end.

(** [c_data_as_string(data, data_len)]: the first [data_len] bytes.  It is
    only called with [data_len] nonzero, when [data] is not [None]. *)
Definition c_data_as_string (data : option bytes) (data_len : Z) : bytes :=
  match data with
  | Some buf => firstn (Z.to_nat data_len) buf
  | None => []
  end.

Definition _same_message_struct (this that : msg_struct) : bool :=
  if MessageId_ne (id (hdr this)) (id (hdr that)) ||
     MessageId_ne (in_reply_to (hdr this)) (in_reply_to (hdr that)) ||
     negb (to (hdr this) =? to (hdr that)) ||
     negb (from_ (hdr this) =? from_ (hdr that)) ||
     OrigFrom_ne (orig_from (hdr this)) (orig_from (hdr that)) ||
     OrigFrom_ne (final_to (hdr this)) (final_to (hdr that)) ||
     negb (flags (hdr this) =? flags (hdr that)) ||
     negb (name_len (hdr this) =? name_len (hdr that)) ||
     negb (data_len (hdr this) =? data_len (hdr that)) ||
     negb (bytes_eqb (struct_name this) (struct_name that))
  then false
  else if negb (data_len (hdr this) =? 0) then
    bytes_eqb (c_data_as_string (struct_data this) (data_len (hdr this)))
              (c_data_as_string (struct_data that) (data_len (hdr that)))
  else true.

Definition _equivalent_message_struct (this that : msg_struct) : bool :=
  if negb (to (hdr this) =? to (hdr that)) ||
     negb (name_len (hdr this) =? name_len (hdr that)) ||
     negb (data_len (hdr this) =? data_len (hdr that)) ||
     negb (bytes_eqb (struct_name this) (struct_name that))
  then false
  else if negb (data_len (hdr this) =? 0) then
    bytes_eqb (c_data_as_string (struct_data this) (data_len (hdr this)))
              (c_data_as_string (struct_data that) (data_len (hdr that)))
  else true.

(** [message_from_parts]: a new pointy structure.  [id], [in_reply_to],
    [orig_from] and [final_to] are pairs of integers. *)
Definition message_from_parts (id in_reply_to : Z * Z) (to from_ : pyval)
    (orig_from final_to : Z * Z) (flags name data : pyval) : result msg_struct :=
  name_len <- py_len name ;;
  data_len <- (if truthy data then py_len data else Ok 0) ;;
  match name with
  | PStr name =>
      let name := pad4 (name ++ [NUL]) in
      let data_ptr :=
        match data with
        | PStr (c :: d) => Some (pad4 (c :: d))
        | _ => None
        end in
      to <- as_c_uint32 to ;;
      from_ <- as_c_uint32 from_ ;;
      flags <- as_c_uint32 flags ;;
      Ok (Pointy
            (mkHeader START_GUARD
               (mkMessageId (u32 (fst id)) (u32 (snd id)))
               (mkMessageId (u32 (fst in_reply_to)) (u32 (snd in_reply_to)))
               to from_
               (mkOrigFrom (u32 (fst orig_from)) (u32 (snd orig_from)))
               (mkOrigFrom (u32 (fst final_to)) (u32 (snd final_to)))
               0 flags (u32 name_len) (u32 data_len) END_GUARD)
            name data_ptr)
  | _ => Raise TypeError
  end.

(** ** Layout of the structures in memory *)

Definition byte_of (z : Z) : ascii := ascii_of_N (Z.to_N (z mod 256)).

Definition byte_val (c : ascii) : Z := Z.of_N (N_of_ascii c).

(** The four bytes of a [c_uint32], in native order. *)
Definition u32_bytes (P : platform) (z : Z) : bytes :=
  let b0 := byte_of z in
  let b1 := byte_of (z / 256) in
  let b2 := byte_of (z / 65536) in
  let b3 := byte_of (z / 16777216) in
  if big_endian P then [b3; b2; b1; b0] else [b0; b1; b2; b3].

Definition u32_of_bytes (P : platform) (s : bytes) : Z :=
  match s with
  | [c0; c1; c2; c3] =>
      if big_endian P
      then byte_val c3 + 256 * byte_val c2 + 65536 * byte_val c1 +
           16777216 * byte_val c0
      else byte_val c0 + 256 * byte_val c1 + 65536 * byte_val c2 +
           16777216 * byte_val c3
  | _ => 0
  end.

(** [struct.unpack('=L', s)[0]]; [struct.error] is raised unless [s] has
    exactly four bytes. *)
Definition struct_unpack_L (P : platform) (s : bytes) : result Z :=
  match s with
  | [_; _; _; _] => Ok (u32_of_bytes P s)
  | _ => Raise StructError
  end.

(** The [c_uint32] at byte offset [off] of a buffer. *)
Definition word_at (P : platform) (buf : bytes) (off : nat) : Z :=
  u32_of_bytes P (firstn 4 (skipn off buf)).

Definition zeros (n : nat) : bytes := repeat NUL n.

(** The bytes of a [_MessageHeaderStruct] whose [name] and [data] are
    [None] (null pointers), as is the header of an entire message built by
    [_entire_message_from_parts]. *)
Definition header_bytes (P : platform) (h : header) : bytes :=
  u32_bytes P (start_guard h) ++
  u32_bytes P (network_id (id h)) ++
  u32_bytes P (serial_num (id h)) ++
  u32_bytes P (network_id (in_reply_to h)) ++
  u32_bytes P (serial_num (in_reply_to h)) ++
  u32_bytes P (to h) ++
  u32_bytes P (from_ h) ++
  u32_bytes P (of_network_id (orig_from h)) ++
  u32_bytes P (local_id (orig_from h)) ++
  u32_bytes P (of_network_id (final_to h)) ++
  u32_bytes P (local_id (final_to h)) ++
  u32_bytes P (extra h) ++
  u32_bytes P (flags h) ++
  u32_bytes P (name_len h) ++
  u32_bytes P (data_len h) ++
  zeros (hdr_pad P) ++
  zeros (ptr_size P) ++
  zeros (ptr_size P) ++
  u32_bytes P (end_guard h) ++
  zeros (hdr_pad P).

(** Offset of [end_guard] in the header. *)
Definition end_guard_offset (P : platform) : nat :=
  (15 * 4 + hdr_pad P + ptr_size P + ptr_size P)%nat.

(** The integer fields of a [_MessageHeaderStruct] laid over [buf]. *)
Definition header_of_bytes (P : platform) (buf : bytes) : header :=
  mkHeader (word_at P buf 0)
           (mkMessageId (word_at P buf 4) (word_at P buf 8))
           (mkMessageId (word_at P buf 12) (word_at P buf 16))
           (word_at P buf 20)
           (word_at P buf 24)
           (mkOrigFrom (word_at P buf 28) (word_at P buf 32))
           (mkOrigFrom (word_at P buf 36) (word_at P buf 40))
           (word_at P buf 44)
           (word_at P buf 48)
           (word_at P buf 52)
           (word_at P buf 56)
           (word_at P buf (end_guard_offset P)).

(** Padding after [rest_end_guard]: the entire structure holds a header,
    so where pointers are 8-aligned its size is a multiple of 8. *)
Definition tail_pad (P : platform) (unpadded : nat) : nat :=
  if bits64 P then ((8 - unpadded mod 8) mod 8)%nat else 0%nat.

(** [ctypes.sizeof] of the entire structure made by
    [_specific_entire_message_struct(padded_name_len, padded_data_len)]. *)
Definition sizeof_entire (P : platform) (padded_name_len padded_data_len : nat) : nat :=
  let unpadded := (Z.to_nat (MSG_HEADER_LEN P) + padded_name_len +
                   padded_data_len + 4)%nat in
  (unpadded + tail_pad P unpadded)%nat.

(** [_struct_to_bytes].  The module only ever applies it to entire
    structures; the addresses held by a pointy header are not modelled and
    are written as null pointers. *)
Definition _struct_to_bytes (P : platform) (m : msg_struct) : bytes :=
  match m with
  | Entire h rest_name rest_data rest_end_guard =>
      let unpadded := header_bytes P h ++ rest_name ++ rest_data ++
                      u32_bytes P rest_end_guard in
      unpadded ++ zeros (tail_pad P (length unpadded))
  | Pointy h _ _ => header_bytes P h
  end.

(** [ctypes.memmove(dst, data, n)] reads [n] bytes starting at the buffer
    of the string [data], whatever its length: [beyond k] is the byte found
    [k] places after the end of the string. *)
Definition memmove_from (beyond : nat -> ascii) (data : bytes) (n : nat) : bytes :=
  firstn n (data ++ map beyond (seq 0 (n - length data))).

(** Storing a string in a [c_char] array field of [n] bytes copies it up
    to its first NUL; the rest of the (zeroed) array is left alone. *)
Definition c_char_array_store (n : nat) (s : bytes) : bytes :=
  c_str s ++ zeros (n - length (c_str s)).

(** [None], or the instance itself. *)
Definition MessageId_or_zero (v : pyval) : MessageId :=
  match v with
  | PMessageId m => m
  | _ => mkMessageId 0 0
  end.

Definition OrigFrom_or_zero (v : pyval) : OrigFrom :=
  match v with
  | POrigFrom o => o
  | _ => mkOrigFrom 0 0
  end.

Definition str_or_empty (v : pyval) : bytes :=
  match v with
  | PStr s => s
  | _ => []
  end.

(** [_entire_message_from_parts], on the values [extract] returns: [id]
    and [in_reply_to] are [None] or a MessageId, [orig_from] and [final_to]
    are [None] or an OrigFrom, [data] is [None] or a string. *)
Definition _entire_message_from_parts (id in_reply_to : pyval) (to from_ : Z)
    (orig_from final_to : pyval) (flags : Z) (name : bytes) (data : pyval)
    : msg_struct :=
  let id := MessageId_or_zero id in
  let in_reply_to := MessageId_or_zero in_reply_to in
  let orig_from := OrigFrom_or_zero orig_from in
  let final_to := OrigFrom_or_zero final_to in
  let name_len := len name in
  let data := str_or_empty data in
  let data_len := len data in
  let name := pad4 (name ++ [NUL]) in
  let padded_name_len := length name in
  let data := pad4 data in
  let header := mkHeader START_GUARD id in_reply_to (u32 to) (u32 from_)
                         orig_from final_to 0 (u32 flags)
                         (u32 name_len) (u32 data_len) END_GUARD in
  Entire header (c_char_array_store padded_name_len name) data END_GUARD.

(** [_entire_message_from_bytes].  After its two checks the code fills a
    header and then the whole structure with [_struct_from_bytes], which
    copies [sizeof] bytes from the buffer of the string without looking
    at its length.  Where the string is shorter than the structure that
    its header declares, the bytes that are missing are those that
    follow the string in memory, [beyond]: the source has no check for
    this, and whether such a copy returns, or a structure of the declared
    size can be made at all, is not something the source decides.  What
    is proved about the outcome of decoding is therefore stated for
    strings that hold the whole message, or for a decoding that has
    returned. *)
Definition _entire_message_from_bytes (P : platform) (beyond : nat -> ascii)
    (data : bytes) : result msg_struct :=
  if len data <? MSG_HEADER_LEN P then Raise (ValueError StringTooShort)
  else
    guard <- struct_unpack_L P (firstn 4 data) ;;
    if negb (guard =? START_GUARD) then Raise (ValueError NoStartGuard)
    else
      let h := header_of_bytes P
                 (memmove_from beyond data (Z.to_nat (MSG_HEADER_LEN P))) in
      let padded_name_len := Z.to_nat (calc_padded_name_len (name_len h)) in
      let padded_data_len := Z.to_nat (calc_padded_data_len (data_len h)) in
      let buf := memmove_from beyond data
                   (sizeof_entire P padded_name_len padded_data_len) in
      let name_offset := Z.to_nat (MSG_HEADER_LEN P) in
      let data_offset := (name_offset + padded_name_len)%nat in
      Ok (Entire (header_of_bytes P buf)
                 (firstn padded_name_len (skipn name_offset buf))
                 (firstn padded_data_len (skipn data_offset buf))
                 (word_at P buf (data_offset + padded_data_len))).

(** ** The Message class *)

Inductive msg_class := CMessage | CAnnouncement | CRequest | CReply | CStatus.

(** A Message object: its class and its [msg] datastructure. *)
Record Message := mkMessage { class_of : msg_class; msg : msg_struct }.

Definition dollar_dot : bytes := list_ascii_of_string "$.".

(** The pair taken from a MessageId argument in [_from_data]. *)
Definition id_pair (v : pyval) : result (Z * Z) :=
  if truthy v then
    match v with
    | PMessageId m => Ok (network_id m, serial_num m)
    | _ => Raise AttributeError
    end
  else Ok (0, 0).

(** The pair taken from an OrigFrom argument in [_from_data]. *)
Definition orig_from_pair (v : pyval) : result (Z * Z) :=
  if truthy v then
    match v with
    | POrigFrom o => Ok (of_network_id o, local_id o)
    | _ => Raise AttributeError
    end
  else Ok (0, 0).

Definition _from_data (name data to from_ orig_from final_to in_reply_to
                       flags id : pyval) : result msg_struct :=
  id_tuple <- id_pair id ;;
  in_reply_to_tuple <- id_pair in_reply_to ;;
  let to := if negb (truthy to) then PInt 0 else to in
  let from_ := if negb (truthy from_) then PInt 0 else from_ in
  orig_from_tuple <- orig_from_pair orig_from ;;
  final_to_tuple <- orig_from_pair final_to ;;
  let flags := if negb (truthy flags) then PInt 0 else flags in
  message_from_parts id_tuple in_reply_to_tuple to from_
                     orig_from_tuple final_to_tuple flags name data.

Definition _check (m : msg_struct) : result unit :=
  if negb (start_guard (hdr m) =? START_GUARD)
  then Raise (ValueError BadStartGuard)
  else if negb (end_guard (hdr m) =? END_GUARD)
  then Raise (ValueError BadEndGuard)
  else if name_len (hdr m) <? 3
  then Raise (ValueError NameTooShort)
  else Ok tt.

(** [Message.__init__], run on a new object of class [cls]. *)
Definition Message_init (cls : msg_class)
    (name data to from_ orig_from final_to in_reply_to flags id : pyval)
    : result Message :=
  starts <- py_startswith name dollar_dot ;;
  if negb starts then Raise (ValueError NameDoesNotStart)
  else
    m <- _from_data name data to from_ orig_from final_to in_reply_to flags id ;;
    _ <- _check m ;;
    Ok (mkMessage cls m).

(** *** Properties *)

Definition Message_id (m : Message) : pyval :=
  let i := id (hdr (msg m)) in
  if (network_id i =? 0) && (serial_num i =? 0) then PNone else PMessageId i.

Definition Message_in_reply_to (m : Message) : pyval :=
  let i := in_reply_to (hdr (msg m)) in
  if (network_id i =? 0) && (serial_num i =? 0) then PNone else PMessageId i.

Definition Message_to (m : Message) : Z := to (hdr (msg m)).

Definition Message_from_ (m : Message) : Z := from_ (hdr (msg m)).

Definition Message_orig_from (m : Message) : pyval :=
  let o := orig_from (hdr (msg m)) in
  if (of_network_id o =? 0) && (local_id o =? 0) then PNone else POrigFrom o.

Definition Message_final_to (m : Message) : pyval :=
  let o := final_to (hdr (msg m)) in
  if (of_network_id o =? 0) && (local_id o =? 0) then PNone else POrigFrom o.

Definition Message_flags (m : Message) : Z := flags (hdr (msg m)).

Definition Message_name (m : Message) : bytes :=
  firstn (Z.to_nat (name_len (hdr (msg m)))) (struct_name (msg m)).

Definition Message_data (m : Message) : pyval :=
  if data_len (hdr (msg m)) =? 0 then PNone
  else PStr (c_data_as_string (struct_data (msg m)) (data_len (hdr (msg m)))).

Definition extract (m : Message) : list pyval :=
  [ Message_id m; Message_in_reply_to m; PInt (Message_to m);
    PInt (Message_from_ m); Message_orig_from m; Message_final_to m;
    PInt (Message_flags m); PStr (Message_name m); Message_data m ].

Definition total_length (P : platform) (m : Message) : Z :=
  calc_entire_message_len P (name_len (hdr (msg m))) (data_len (hdr (msg m))).

Definition equivalent (self other : Message) : bool :=
  _equivalent_message_struct (msg self) (msg other).

Definition Message_eq (self other : Message) : bool :=
  _same_message_struct (msg self) (msg other).

Definition set_want_reply (value : bool) (m : Message) : Message :=
  let f := flags (hdr (msg m)) in
  mkMessage (class_of m)
    (set_hdr (set_flags (if value then _set_bit f WANT_A_REPLY
                         else _clear_bit f WANT_A_REPLY))
             (msg m)).

Definition wants_us_to_reply (m : Message) : bool :=
  negb (Z.land (flags (hdr (msg m))) WANT_YOU_TO_REPLY =? 0).

Definition is_reply (m : Message) : bool := truthy (Message_in_reply_to m).

Definition is_request (m : Message) : bool :=
  negb (Z.land (flags (hdr (msg m))) WANT_A_REPLY =? 0).

(** *** Other constructors *)

(** An argument overrides the extracted value unless it is [None]. *)
Definition override (this extracted : pyval) : pyval :=
  if negb (is_None this) then this else extracted.

Definition _merge_args (cls : msg_class) (extracted : list pyval)
    (this_data this_to this_from_ this_orig_from this_final_to
     this_in_reply_to this_flags this_id : pyval) : result Message :=
  match extracted with
  | [id; in_reply_to; to; from_; orig_from; final_to; flags; name; data] =>
      m <- _from_data name
             (override this_data data)
             (override this_to to)
             (override this_from_ from_)
             (override this_orig_from orig_from)
             (override this_final_to final_to)
             (override this_in_reply_to in_reply_to)
             (override this_flags flags)
             (override this_id id) ;;
      Ok (mkMessage cls m)
  | _ => Raise (ValueError UnpackMismatch)
  end.

Definition Message_from_message (msg : Message)
    (data to from_ orig_from final_to in_reply_to flags id : pyval)
    : result Message :=
  _merge_args CMessage (extract msg) data to from_ orig_from final_to
              in_reply_to flags id.

Definition Message_from_sequence (seq : list pyval)
    (data to from_ orig_from final_to in_reply_to flags id : pyval)
    : result Message :=
  if negb (Nat.eqb (length seq) 9) then Raise (ValueError SequenceNot9)
  else _merge_args CMessage seq data to from_ orig_from final_to
                   in_reply_to flags id.

Definition Message_from_bytes (P : platform) (beyond : nat -> ascii)
    (arg : bytes) : result Message :=
  m <- _entire_message_from_bytes P beyond arg ;;
  Ok (mkMessage CMessage m).

Definition to_bytes (P : platform) (m : Message) : bytes :=
  let name := Message_name m in
  let data := Message_data m in
  let tmp := _entire_message_from_parts
               (Message_id m) (Message_in_reply_to m) (Message_to m)
               (Message_from_ m) (Message_orig_from m) (Message_final_to m)
               (Message_flags m) name data in
  let b := _struct_to_bytes P tmp in
  let name_len := if truthy (PStr name) then len name else 0 in
  let data_len := if truthy data then len (str_or_empty data) else 0 in
  let actual_len := calc_entire_message_len P name_len data_len in
  firstn (Z.to_nat actual_len) b.

(** ** Announcement *)

(** The three assignments every Announcement constructor ends with:
    [msg.in_reply_to = MessageId(0, 0)], [msg.orig_from = OrigFrom(0,0)],
    [msg.final_to = OrigFrom(0,0)]. *)
Definition clear_reply_fields (m : Message) : Message :=
  let s := set_hdr (set_in_reply_to (mkMessageId 0 0)) (msg m) in
  let s := set_hdr (set_orig_from (mkOrigFrom 0 0)) s in
  let s := set_hdr (set_final_to (mkOrigFrom 0 0)) s in
  mkMessage (class_of m) s.

Definition Announcement_init (name data to from_ flags id : pyval)
    : result Message :=
  self <- Message_init CAnnouncement name data to from_ PNone PNone PNone
                       flags id ;;
  Ok (clear_reply_fields self).

Definition Announcement_from_message (msg : Message)
    (data to from_ flags id : pyval) : result Message :=
  message <- _merge_args CAnnouncement (extract msg) data to from_
                         PNone PNone PNone flags id ;;
  Ok (clear_reply_fields message).

Definition Announcement_from_sequence (seq : list pyval)
    (data to from_ flags id : pyval) : result Message :=
  if negb (Nat.eqb (length seq) 9) then Raise (ValueError SequenceNot9)
  else
    message <- _merge_args CAnnouncement seq data to from_
                           PNone PNone PNone flags id ;;
    Ok (clear_reply_fields message).

Definition Announcement_from_bytes (P : platform) (beyond : nat -> ascii)
    (arg : bytes) : result Message :=
  m <- _entire_message_from_bytes P beyond arg ;;
  Ok (clear_reply_fields (mkMessage CAnnouncement m)).

(** ** Request *)

Definition Request_init (name data to from_ final_to flags id : pyval)
    : result Message :=
  self <- Message_init CRequest name data to from_ PNone final_to PNone
                       flags id ;;
  Ok (set_want_reply true self).

Definition Request_from_message (msg : Message)
    (data to from_ final_to flags id : pyval) : result Message :=
  message <- _merge_args CRequest (extract msg) data to from_ PNone
                         final_to PNone flags id ;;
  Ok (set_want_reply true message).

Definition Request_from_sequence (seq : list pyval)
    (data to from_ final_to flags id : pyval) : result Message :=
  if negb (Nat.eqb (length seq) 9) then Raise (ValueError SequenceNot9)
  else
    message <- _merge_args CRequest seq data to from_ PNone
                           final_to PNone flags id ;;
    Ok (set_want_reply true message).

Definition Request_from_bytes (P : platform) (beyond : nat -> ascii)
    (arg : bytes) : result Message :=
  m <- _entire_message_from_bytes P beyond arg ;;
  Ok (set_want_reply true (mkMessage CRequest m)).

(** ** Reply *)

(** [if message.in_reply_to is None: raise ValueError(...)] *)
Definition require_in_reply_to (message : Message) : result Message :=
  if is_None (Message_in_reply_to message)
  then Raise (ValueError ReplyNeedsInReplyTo)
  else Ok message.

Definition Reply_init (name data to from_ orig_from in_reply_to flags id : pyval)
    : result Message :=
  self <- Message_init CReply name data to from_ orig_from PNone in_reply_to
                       flags id ;;
  require_in_reply_to self.

Definition Reply_from_message (msg : Message)
    (data to from_ orig_from in_reply_to flags id : pyval) : result Message :=
  message <- _merge_args CReply (extract msg) data to from_ orig_from
                         PNone in_reply_to flags id ;;
  require_in_reply_to message.

Definition Reply_from_sequence (seq : list pyval)
    (data to from_ orig_from in_reply_to flags id : pyval) : result Message :=
  if negb (Nat.eqb (length seq) 9) then Raise (ValueError SequenceNot9)
  else
    message <- _merge_args CReply seq data to from_ orig_from
                           PNone in_reply_to flags id ;;
    require_in_reply_to message.

Definition Reply_from_bytes (P : platform) (beyond : nat -> ascii)
    (arg : bytes) : result Message :=
  m <- _entire_message_from_bytes P beyond arg ;;
  require_in_reply_to (mkMessage CReply m).

(** ** Status *)

Definition Status_init (original : pyval) : result Message :=
  Raise NotImplementedError.

Definition Status_from_bytes (P : platform) (beyond : nat -> ascii)
    (arg : bytes) : result Message :=
  m <- _entire_message_from_bytes P beyond arg ;;
  Ok (mkMessage CStatus m).

(** ** reply_to *)

Definition both_reply_flags : Z := Z.lor WANT_A_REPLY WANT_YOU_TO_REPLY.

(** [reply_to(original, data, flags)]; the fields of [original.extract()]
    it uses are [id], [from_] and [name]. *)
Definition reply_to (original : Message) (data flags : pyval) : result Message :=
  if negb (Z.land (Message_flags original) both_reply_flags =? both_reply_flags)
  then Raise (ValueError CannotReply)
  else
    let id := Message_id original in
    let from_ := PInt (Message_from_ original) in
    let name := PStr (Message_name original) in
    Reply_init name data from_ PNone PNone id flags PNone.

(** ** How a Message of each subclass can come to be *)

Inductive Announcement_built (P : platform) : Message -> Prop :=
| Announcement_by_init name data to from_ flags id a :
    Announcement_init name data to from_ flags id = Ok a ->
    Announcement_built P a
| Announcement_by_from_message msg data to from_ flags id a :
    Announcement_from_message msg data to from_ flags id = Ok a ->
    Announcement_built P a
| Announcement_by_from_sequence seq data to from_ flags id a :
    Announcement_from_sequence seq data to from_ flags id = Ok a ->
    Announcement_built P a
| Announcement_by_from_bytes beyond arg a :
    Announcement_from_bytes P beyond arg = Ok a ->
    Announcement_built P a.

Inductive Request_built (P : platform) : Message -> Prop :=
| Request_by_init name data to from_ final_to flags id r :
    Request_init name data to from_ final_to flags id = Ok r ->
    Request_built P r
| Request_by_from_message msg data to from_ final_to flags id r :
    Request_from_message msg data to from_ final_to flags id = Ok r ->
    Request_built P r
| Request_by_from_sequence seq data to from_ final_to flags id r :
    Request_from_sequence seq data to from_ final_to flags id = Ok r ->
    Request_built P r
| Request_by_from_bytes beyond arg r :
    Request_from_bytes P beyond arg = Ok r ->
    Request_built P r.

Inductive Reply_built (P : platform) : Message -> Prop :=
| Reply_by_init name data to from_ orig_from in_reply_to flags id r :
    Reply_init name data to from_ orig_from in_reply_to flags id = Ok r ->
    Reply_built P r
| Reply_by_from_message msg data to from_ orig_from in_reply_to flags id r :
    Reply_from_message msg data to from_ orig_from in_reply_to flags id = Ok r ->
    Reply_built P r
| Reply_by_from_sequence seq data to from_ orig_from in_reply_to flags id r :
    Reply_from_sequence seq data to from_ orig_from in_reply_to flags id = Ok r ->
    Reply_built P r
| Reply_by_from_bytes beyond arg r :
    Reply_from_bytes P beyond arg = Ok r ->
    Reply_built P r.

(** ** Doctests of the module, replayed on the model *)

Definition b (s : string) : bytes := list_ascii_of_string s.

Definition Fred : pyval := PStr (b "$.Fred").

Definition le64 : platform := mkPlatform true false.
Definition le32 : platform := mkPlatform false false.

Definition no_memory : nat -> ascii := fun _ => NUL.

(** [Message('$.Fred', data='1234', from_=27, to=99, id=MessageId(0, 132),
    flags=Message.WANT_A_REPLY|Message.WANT_YOU_TO_REPLY)], the request of
    the doctest of [reply_to]. *)
Definition request_Fred : Message :=
  mkMessage CMessage
    (Pointy (mkHeader START_GUARD (mkMessageId 0 132) (mkMessageId 0 0) 99 27
                      (mkOrigFrom 0 0) (mkOrigFrom 0 0) 0 3 6 4 END_GUARD)
            (b "$.Fred" ++ [NUL; NUL]) (Some (b "1234"))).

(** [Message('$.Fred', to=9, from_=27, id=MessageId(0, 7),
    in_reply_to=MessageId(1, 2), orig_from=OrigFrom(3, 4),
    final_to=OrigFrom(5, 6), flags=3)]. *)
Definition reply_Fred : Message :=
  mkMessage CMessage
    (Pointy (mkHeader START_GUARD (mkMessageId 0 7) (mkMessageId 1 2) 9 27
                      (mkOrigFrom 3 4) (mkOrigFrom 5 6) 0 3 6 0 END_GUARD)
            (b "$.Fred" ++ [NUL; NUL]) None).

(** The bytes of a message named [$.Fred] in which both end guards have
    been overwritten with zeros. *)
Definition bytes_without_end_guards : bytes :=
  header_bytes le32
    (mkHeader START_GUARD (mkMessageId 0 0) (mkMessageId 0 0) 0 0
              (mkOrigFrom 0 0) (mkOrigFrom 0 0) 0 0 6 0 0) ++
  b "$.Fred" ++ [NUL; NUL] ++ u32_bytes le32 0.

(** ** Notions the properties are stated with *)

(** [r] is [n] rounded up to a multiple of 4. *)
Definition is_round_up_4 (n r : Z) : Prop := r mod 4 = 0 /\ n <= r < n + 4.

(** The header [h] with the fields that [equivalent] ignores replaced. *)
Definition replace_ignored (new_id new_in_reply_to : MessageId) (new_from : Z)
    (new_orig_from new_final_to : OrigFrom) (new_flags : Z) (h : header)
    : header :=
  mkHeader (start_guard h) new_id new_in_reply_to (to h) new_from
           new_orig_from new_final_to (extra h) new_flags
           (name_len h) (data_len h) (end_guard h).

(** The message data as a string: [data_len] bytes of [data]. *)
Definition data_string (m : msg_struct) : bytes :=
  c_data_as_string (struct_data m) (data_len (hdr m)).

Definition unset_id : MessageId := mkMessageId 0 0.
Definition unset_orig_from : OrigFrom := mkOrigFrom 0 0.

(** What [message_from_parts] stores for the [data] argument. *)
Definition data_pointer (data : pyval) : option bytes :=
  match data with
  | PStr (c :: d) => Some (pad4 (c :: d))
  | _ => None
  end.

(** The integer a flags-like argument stands for once [None] (or any false
    value) has been read as 0 and the result stored in a [c_uint32]. *)
Definition stored_int (v : pyval) : Z :=
  match v with
  | PInt z => u32 z
  | _ => 0
  end.

(** Every integer field of the header fits its [c_uint32]. *)
Definition header_in_range (h : header) : Prop :=
  is_u32 (start_guard h) /\
  is_u32 (network_id (id h)) /\ is_u32 (serial_num (id h)) /\
  is_u32 (network_id (in_reply_to h)) /\ is_u32 (serial_num (in_reply_to h)) /\
  is_u32 (to h) /\ is_u32 (from_ h) /\
  is_u32 (of_network_id (orig_from h)) /\ is_u32 (local_id (orig_from h)) /\
  is_u32 (of_network_id (final_to h)) /\ is_u32 (local_id (final_to h)) /\
  is_u32 (extra h) /\ is_u32 (flags h) /\
  is_u32 (name_len h) /\ is_u32 (data_len h) /\ is_u32 (end_guard h).

(** Modelled from the spec: the name invariant of section 3 (a name
    "starts with [$.], has no empty component, no leading/trailing/doubled
    separators, length at most an implementation-defined maximum, and
    contains only alphanumerics, [.], [*], [%] (the last two only as a
    final wildcard component)").  The check of names on sending is done by
    the KBUS kernel module, which is not among these sources. *)
Definition is_alnum (c : ascii) : bool :=
  let n := nat_of_ascii c in
  ((48 <=? n) && (n <=? 57) || (65 <=? n) && (n <=? 90) ||
   (97 <=? n) && (n <=? 122))%nat.

Fixpoint split_dots (s : bytes) : list bytes :=
  match s with
  | [] => [[]]
  | c :: rest =>
      if Ascii.eqb c "."%char then [] :: split_dots rest
      else match split_dots rest with
           | comp :: comps => (c :: comp) :: comps
           | [] => [[c]]
           end
  end.

Definition is_empty (s : bytes) : bool :=
  match s with [] => true | _ => false end.

Definition final_component_ok (c : bytes) : bool :=
  forallb is_alnum c || bytes_eqb c ["*"%char] || bytes_eqb c ["%"%char].

Definition name_well_formed (name : bytes) : bool :=
  startswith name dollar_dot &&
  (let components := split_dots (skipn 2 name) in
   forallb (fun c => negb (is_empty c)) components &&
   forallb (forallb is_alnum) (removelast components) &&
   final_component_ok (last components [])).

Definition name_invariant (max_len : nat) (name : bytes) : bool :=
  name_well_formed name && (length name <=? max_len)%nat.

(** The entire structure that [to_bytes] builds from the parts of [m]. *)
Definition entire_of (m : Message) : msg_struct :=
  _entire_message_from_parts
    (Message_id m) (Message_in_reply_to m) (Message_to m) (Message_from_ m)
    (Message_orig_from m) (Message_final_to m) (Message_flags m)
    (Message_name m) (Message_data m).

(** What holds of every structure the module builds: the integer fields
    fit their [c_uint32], the name is [name_len] long, and there are at
    least [data_len] bytes of data. *)
Definition well_formed (s : msg_struct) : Prop :=
  header_in_range (hdr s) /\
  len (struct_name s) = name_len (hdr s) /\
  (data_len (hdr s) = 0 \/
   exists buf, struct_data s = Some buf /\ data_len (hdr s) <= len buf).

(** The header of the entire structure built from [m]: the fields of [m]
    between fresh guards. *)
Definition fresh_header (h : header) : header :=
  mkHeader START_GUARD (id h) (in_reply_to h) (to h) (from_ h) (orig_from h)
           (final_to h) 0 (flags h) (name_len h) (data_len h) END_GUARD.


(** ** More of the module: identifiers *)

(** [MessageId.__add__], for [other] an int: a new
    [MessageId(self.network_id, self.serial_num+other)], whose fields are
    stored as [c_uint32]. *)
Definition MessageId_add (self : MessageId) (other : Z) : MessageId :=
  mkMessageId (u32 (network_id self)) (u32 (serial_num self + other)).

Definition OrigFrom_lt (a b : OrigFrom) : bool := OrigFrom_cmp a b <? 0.
Definition OrigFrom_eq (a b : OrigFrom) : bool := OrigFrom_cmp a b =? 0.
Definition OrigFrom_gt (a b : OrigFrom) : bool := OrigFrom_cmp a b >? 0.

Definition OrigFrom_lex_lt (a b : OrigFrom) : Prop :=
  of_network_id a < of_network_id b \/
  (of_network_id a = of_network_id b /\ local_id a < local_id b).

(** ** More of the module: flags *)

Definition set_urgent (value : bool) (m : Message) : Message :=
  let f := flags (hdr (msg m)) in
  mkMessage (class_of m)
    (set_hdr (set_flags (if value then _set_bit f URGENT
                         else _clear_bit f URGENT))
             (msg m)).

Definition is_synthetic (m : Message) : bool :=
  negb (Z.land (flags (hdr (msg m))) SYNTHETIC =? 0).

Definition is_urgent (m : Message) : bool :=
  negb (Z.land (flags (hdr (msg m))) URGENT =? 0).

(** [if self.msg.flags & Message.WANT_A_REPLY and self.to] *)
Definition is_stateful_request (m : Message) : bool :=
  negb (Z.land (flags (hdr (msg m))) WANT_A_REPLY =? 0) &&
  negb (Message_to m =? 0).

(** The [set_want_reply] method as an object of each class has it:
    Announcement and Request override it to raise TypeError. *)
Definition set_want_reply_method (value : bool) (m : Message) : result Message :=
  match class_of m with
  | CAnnouncement => Raise TypeError
  | CRequest => Raise TypeError
  | _ => Ok (set_want_reply value m)
  end.

(** ** More of the module: structures from bytes *)

(** The Python slice [s[start:stop]], for [start <= stop]. *)
Definition py_slice (s : bytes) (start stop : nat) : bytes :=
  firstn (stop - start) (skipn start s).

(** [_pointy_message_from_bytes].  The name pointer is set to the slice of
    the string that holds the name; the data array has [data_len] bytes,
    those of the slice and zeros where the string is too short. *)
Definition _pointy_message_from_bytes (P : platform) (beyond : nat -> ascii)
    (msg_data : bytes) : msg_struct :=
  let h := header_of_bytes P
             (memmove_from beyond msg_data (Z.to_nat (MSG_HEADER_LEN P))) in
  let padded_name_len := Z.to_nat (calc_padded_name_len (name_len h)) in
  let name_offset := Z.to_nat (MSG_HEADER_LEN P) in
  let name := py_slice msg_data name_offset
                       (name_offset + Z.to_nat (name_len h)) in
  let data_offset := (name_offset + padded_name_len)%nat in
  let data :=
    if data_len h =? 0 then None
    else
      let data := py_slice msg_data data_offset
                           (data_offset + Z.to_nat (data_len h)) in
      Some (data ++ zeros (Z.to_nat (data_len h) - length data)) in
  Pointy h name data.

(** [split_replier_bind_event_data]: the header is three [c_uint32]
    ([is_bind], [binder], [name_len]), laid over the start of [data]. *)
Definition split_replier_bind_event_data (P : platform) (beyond : nat -> ascii)
    (data : bytes) : Z * Z * bytes :=
  let hdr := memmove_from beyond data 12 in
  let offset := 12%nat in
  let name := py_slice data offset (offset + Z.to_nat (word_at P hdr 8)) in
  (word_at P hdr 0, word_at P hdr 4, name).

(** ** More of the module: casting and stateful requests *)

Definition KBUS_prefix : bytes := list_ascii_of_string "$.KBUS.".

Definition cast (P : platform) (beyond : nat -> ascii) (self : Message)
    : result Message :=
  if is_reply self then
    if startswith (struct_name (msg self)) KBUS_prefix
    then Status_from_bytes P beyond (to_bytes P self)
    else Reply_from_message self PNone PNone PNone PNone PNone PNone PNone
  else if is_request self then
    Request_from_message self PNone PNone PNone PNone PNone PNone
  else
    Announcement_from_message self PNone PNone PNone PNone PNone.

(** What [stateful_request] does: it raises its own ValueError ("The first
    argument of stateful_request() must be a Reply or a previous Stateful
    Request"), or it is whatever [Request(...)] does. *)
Inductive stateful_outcome :=
| NotReplyNorStatefulRequest
| FromRequest (r : result Message).

Definition stateful_request (earlier_msg : Message)
    (name data from_ flags id : pyval) : stateful_outcome :=
  if is_reply earlier_msg then
    let final_to := Message_orig_from earlier_msg in
    let to := PInt (Message_from_ earlier_msg) in
    FromRequest (Request_init name data to from_ final_to flags id)
  else if is_stateful_request earlier_msg then
    let final_to := Message_final_to earlier_msg in
    let to := PInt (Message_to earlier_msg) in
    FromRequest (Request_init name data to from_ final_to flags id)
  else NotReplyNorStatefulRequest.

(** ** More of the module: printable forms *)

Definition hex_digit (n : Z) : ascii :=
  nth (Z.to_nat n) (list_ascii_of_string "0123456789abcdef") "0"%char.

(** ['%02x' % ord(ch)] *)
Definition format_02x (ch : ascii) : bytes :=
  [hex_digit (byte_val ch / 16); hex_digit (byte_val ch mod 16)].

(** [sep.join(words)] *)
Fixpoint join (sep : bytes) (words : list bytes) : bytes :=
  match words with
  | [] => []
  | [w] => w
  | w :: rest => w ++ sep ++ join sep rest
  end.

Definition hexify (data : bytes) : bytes :=
  join [" "%char] (map format_02x data).

(** [string.letters], [string.digits] and [string.punctuation], in the C
    locale. *)
Definition string_letters : bytes :=
  list_ascii_of_string "abcdefghijklmnopqrstuvwxyzABCDEFGHIJKLMNOPQRSTUVWXYZ".

Definition string_digits : bytes := list_ascii_of_string "0123456789".

Definition string_punctuation : bytes :=
  list_ascii_of_string "!" ++ ["034"%char] ++
  list_ascii_of_string "#$%&'()*+,-./:;<=>?@[\]^_`{|}~".

Definition pretty : bytes := string_letters ++ string_digits ++ string_punctuation.

(** [ch in s] *)
Definition char_in (ch : ascii) (s : bytes) : bool :=
  existsb (Ascii.eqb ch) s.

Definition hexdata (data : bytes) : bytes :=
  join [] (map (fun ch => if char_in ch pretty then [ch]
                          else list_ascii_of_string "\x" ++ format_02x ch)
               data).

Definition known_flag_words (flags : Z) : list bytes :=
  (if negb (Z.land flags WANT_A_REPLY =? 0) then [list_ascii_of_string "REQ"] else []) ++
  (if negb (Z.land flags WANT_YOU_TO_REPLY =? 0) then [list_ascii_of_string "YOU"] else []) ++
  (if negb (Z.land flags SYNTHETIC =? 0) then [list_ascii_of_string "SYN"] else []) ++
  (if negb (Z.land flags URGENT =? 0) then [list_ascii_of_string "URG"] else []) ++
  (if negb (Z.land flags ALL_OR_FAIL =? 0) then [list_ascii_of_string "aFL"] else []) ++
  (if negb (Z.land flags ALL_OR_WAIT =? 0) then [list_ascii_of_string "aWT"] else []).

(** [Message._flag_text] *)
Definition _flag_text (flags : Z) : bytes :=
  let words := known_flag_words flags in
  if negb (Nat.eqb (length words) 0) then join [","%char] words else [].

(** ** Notions the further properties are stated with *)

(** The pointy structure that holds the parts of [m]. *)
Definition pointy_of (m : Message) : msg_struct :=
  Pointy (fresh_header (hdr (msg m))) (pad4 (Message_name m ++ [NUL]))
         (data_pointer (Message_data m)).


(** The bytes of a [_ReplierBindEventHeader]: three [c_uint32]. *)
Definition _ReplierBindEventHeader_bytes (P : platform)
    (is_bind binder name_len : Z) : bytes :=
  u32_bytes P is_bind ++ u32_bytes P binder ++ u32_bytes P name_len.

(** The pointy message that holds exactly what [m.extract()] returns:
    its header has the length of the name and of the data as they are
    read from [m]. *)
Definition as_extracted (m : Message) : Message :=
  let h := hdr (msg m) in
  mkMessage (class_of m)
    (Pointy (mkHeader START_GUARD (id h) (in_reply_to h) (to h) (from_ h)
                      (orig_from h) (final_to h) 0 (flags h)
                      (len (Message_name m))
                      (len (str_or_empty (Message_data m))) END_GUARD)
            (Message_name m)
            (match Message_data m with
             | PStr d => Some d
             | _ => None
             end)).

(** The number of bytes that [_entire_message_from_bytes] reads when the
    header it finds is [h]. *)
Definition bytes_read (P : platform) (h : header) : nat :=
  sizeof_entire P (Z.to_nat (calc_padded_name_len (name_len h)))
                  (Z.to_nat (calc_padded_data_len (data_len h))).

(** The entire structure laid over the bytes that [ctypes.memmove] copies
    from the string [data]. *)
Definition decoded_struct (P : platform) (beyond : nat -> ascii)
    (data : bytes) : msg_struct :=
  let hl := Z.to_nat (MSG_HEADER_LEN P) in
  let h := header_of_bytes P (memmove_from beyond data hl) in
  let padded_name_len := Z.to_nat (calc_padded_name_len (name_len h)) in
  let padded_data_len := Z.to_nat (calc_padded_data_len (data_len h)) in
  let buf := memmove_from beyond data (bytes_read P h) in
  Entire h (firstn padded_name_len (skipn hl buf))
         (firstn padded_data_len (skipn (hl + padded_name_len) buf))
         (word_at P buf (hl + padded_name_len + padded_data_len)).

(** * Properties *)

(** ** Byte strings *)

Lemma bytes_eqb_eq (a b : bytes) : bytes_eqb a b = true <-> a = b.
Proof.
  revert b; induction a as [| x a IH]; intros [| y b']; simpl;
    try (split; [discriminate | congruence]); try tauto.
  rewrite andb_true_iff, Ascii.eqb_eq, IH.
  split; [ intros [-> ->]; reflexivity | intros E; inversion E; auto ].
Qed.

Lemma bytes_eqb_refl (a : bytes) : bytes_eqb a a = true.
Proof. apply bytes_eqb_eq; reflexivity. Qed.

Lemma len_nonneg (s : bytes) : 0 <= len s.
Proof. unfold len; lia. Qed.

Lemma len_app (s t : bytes) : len (s ++ t) = len s + len t.
Proof. unfold len; rewrite length_app; lia. Qed.

Lemma u32_range (z : Z) : is_u32 (u32 z).
Proof. unfold is_u32, u32. apply Z.mod_pos_bound. reflexivity. Qed.

Lemma u32_small (z : Z) : is_u32 z -> u32 z = z.
Proof. unfold is_u32, u32. intros H. apply Z.mod_small. exact H. Qed.

(** *** Padding to a multiple of four *)

Lemma app_zeros_S (s : bytes) (k : nat) :
  s ++ zeros (S k) = (s ++ [NUL]) ++ zeros k.
Proof. rewrite <- app_assoc. reflexivity. Qed.

Lemma pad_loop_zeros (rounds : nat) (s : bytes) :
  exists k, (k <= rounds)%nat /\ pad_loop rounds s = s ++ zeros k /\
            (len (s ++ zeros k) mod 4 = 0 \/ k = rounds).
Proof.
  revert s; induction rounds as [| r IH]; intros s; simpl.
  - exists 0%nat. destruct (Z.eqb_spec (len s mod 4) 0);
      rewrite app_nil_r; auto.
  - destruct (Z.eqb_spec (len s mod 4) 0) as [E | E].
    + exists 0%nat. simpl. rewrite app_nil_r. repeat split; auto; lia.
    + destruct (IH (s ++ [NUL])) as (k & Hk & Hp & Hm).
      exists (S k). rewrite Hp, app_zeros_S.
      split; [lia |]. split; [reflexivity |].
      destruct Hm as [Hm | Hm]; [left; exact Hm | right; congruence].
Qed.

Lemma length_zeros (k : nat) : length (zeros k) = k.
Proof. apply repeat_length. Qed.

(** [pad4] adds the least number of NUL bytes that makes the length a
    multiple of four. *)
Lemma pad4_spec (s : bytes) :
  exists k, pad4 s = s ++ zeros k /\
            Z.of_nat k = 4 * ((len s + 3) / 4) - len s.
Proof.
  unfold pad4.
  destruct (pad_loop_zeros 3 s) as (k & Hk & Hp & Hm).
  exists k; split; [exact Hp |].
  assert (Hlen : len (s ++ zeros k) = len s + Z.of_nat k)
    by (rewrite len_app; unfold len; rewrite length_zeros; reflexivity).
  pose proof (len_nonneg s) as Hs.
  assert (Hmin : forall j, (j < k)%nat -> (len s + Z.of_nat j) mod 4 <> 0).
  { clear Hm Hlen Hk. revert Hp. generalize 3%nat as r. revert s Hs.
    induction k as [| k IHk]; intros s Hs r Hp j Hj; [lia |].
    destruct r as [| r]; simpl in Hp.
    - destruct (len s mod 4 =? 0);
        apply (f_equal (@length ascii)) in Hp;
        rewrite length_app, length_zeros in Hp; simpl in Hp; lia.
    - destruct (Z.eqb_spec (len s mod 4) 0) as [E | E].
      + apply (f_equal (@length ascii)) in Hp.
        rewrite length_app, length_zeros in Hp; simpl in Hp; lia.
      + destruct j as [| j]; [ rewrite Z.add_0_r; exact E |].
        assert (Hp' : pad_loop r (s ++ [NUL]) = (s ++ [NUL]) ++ zeros k).
        { rewrite Hp. apply app_zeros_S. }
        specialize (IHk (s ++ [NUL]) (len_nonneg _) r Hp' j ltac:(lia)).
        rewrite len_app in IHk. change (len [NUL]) with 1 in IHk.
        replace (len s + Z.of_nat (S j)) with (len s + 1 + Z.of_nat j) by lia.
        exact IHk. }
  rewrite Hlen in Hm.
  assert (Hk0 : (len s + Z.of_nat k) mod 4 = 0).
  { destruct Hm as [Hm | Hm]; [exact Hm |]. subst k.
    pose proof (Hmin 0%nat ltac:(lia)) as H0.
    pose proof (Hmin 1%nat ltac:(lia)) as H1.
    pose proof (Hmin 2%nat ltac:(lia)) as H2.
    change (Z.of_nat 0) with 0 in H0. change (Z.of_nat 1) with 1 in H1.
    change (Z.of_nat 2) with 2 in H2. change (Z.of_nat 3) with 3.
    rewrite Z.add_0_r in H0.
    Z.div_mod_to_equations. lia. }
  destruct k as [| [| [| [| k]]]]; try lia.
  - change (Z.of_nat 0) with 0 in *. Z.div_mod_to_equations. lia.
  - pose proof (Hmin 0%nat ltac:(lia)) as H0.
    change (Z.of_nat 0) with 0 in H0. rewrite Z.add_0_r in H0.
    change (Z.of_nat 1) with 1 in *. Z.div_mod_to_equations. lia.
  - pose proof (Hmin 0%nat ltac:(lia)) as H0.
    pose proof (Hmin 1%nat ltac:(lia)) as H1.
    change (Z.of_nat 0) with 0 in H0. rewrite Z.add_0_r in H0.
    change (Z.of_nat 1) with 1 in *. change (Z.of_nat 2) with 2 in *.
    Z.div_mod_to_equations. lia.
  - pose proof (Hmin 0%nat ltac:(lia)) as H0.
    pose proof (Hmin 1%nat ltac:(lia)) as H1.
    pose proof (Hmin 2%nat ltac:(lia)) as H2.
    change (Z.of_nat 0) with 0 in H0. rewrite Z.add_0_r in H0.
    change (Z.of_nat 1) with 1 in *. change (Z.of_nat 2) with 2 in *.
    change (Z.of_nat 3) with 3 in *.
    Z.div_mod_to_equations. lia.
Qed.

Lemma len_pad4 (s : bytes) : len (pad4 s) = 4 * ((len s + 3) / 4).
Proof.
  destruct (pad4_spec s) as (k & -> & Hk).
  rewrite len_app. unfold len at 2. rewrite length_zeros. lia.
Qed.

(** *** C strings *)

Lemma c_str_nul_free (s : bytes) : ~ In NUL (c_str s).
Proof.
  induction s as [| c s IH]; simpl; [ tauto |].
  destruct (Ascii.eqb_spec c NUL) as [E | E]; simpl; [ tauto |].
  intros [H | H]; [ congruence | tauto ].
Qed.

Lemma c_str_id (s : bytes) : ~ In NUL s -> c_str s = s.
Proof.
  induction s as [| c s IH]; simpl; intros H; [ reflexivity |].
  destruct (Ascii.eqb_spec c NUL) as [E | E]; [ exfalso; auto |].
  f_equal. apply IH. tauto.
Qed.

Lemma c_str_app_NUL (s t : bytes) : c_str (s ++ NUL :: t) = c_str s.
Proof.
  induction s as [| c s IH]; simpl; [ reflexivity |].
  destruct (Ascii.eqb c NUL); [ reflexivity | f_equal; exact IH ].
Qed.

Lemma c_str_idem (s : bytes) : c_str (c_str s) = c_str s.
Proof. apply c_str_id, c_str_nul_free. Qed.

Lemma firstn_nul_free (k : nat) (s : bytes) : ~ In NUL s -> ~ In NUL (firstn k s).
Proof.
  intros H Hin. apply H.
  rewrite <- (firstn_skipn k s). apply in_or_app. left. exact Hin.
Qed.

Lemma c_str_pad4_terminated (s : bytes) : c_str (pad4 (s ++ [NUL])) = c_str s.
Proof.
  destruct (pad4_spec (s ++ [NUL])) as (k & -> & _).
  rewrite <- app_assoc. simpl. apply c_str_app_NUL.
Qed.

Lemma to_nat_len (s : bytes) : Z.to_nat (len s) = length s.
Proof. unfold len. apply Nat2Z.id. Qed.

Lemma len_firstn_le (k : Z) (s : bytes) : 0 <= k -> len (firstn (Z.to_nat k) s) <= k.
Proof.
  intros Hk. unfold len. rewrite length_firstn. lia.
Qed.

Lemma startswith_dollar_dot (s : bytes) :
  startswith s dollar_dot = true <->
  exists rest, s = "$"%char :: "."%char :: rest.
Proof.
  unfold dollar_dot.
  change (list_ascii_of_string "$.") with ["$"%char; "."%char].
  destruct s as [| c0 [| c1 rest]]; cbn [startswith].
  - split; [ discriminate | intros [r H]; discriminate ].
  - rewrite andb_false_r. split; [ discriminate | intros [r H]; discriminate ].
  - rewrite !andb_true_iff, !Ascii.eqb_eq.
    split; [ intros (-> & -> & _); eauto |].
    intros [r H]; inversion H. auto.
Qed.

Lemma firstn_pad4 (s : bytes) : firstn (length s) (pad4 s) = s.
Proof.
  destruct (pad4_spec s) as (k & -> & _).
  rewrite firstn_app, Nat.sub_diag, firstn_all. simpl. apply app_nil_r.
Qed.

Lemma u32_len_small (s : bytes) : len s < 2 ^ 32 -> u32 (len s) = len s.
Proof. intros H. apply u32_small. split; [ apply len_nonneg | exact H ]. Qed.

Lemma c_str_zeros (k : nat) : c_str (zeros k) = [].
Proof. destruct k; reflexivity. Qed.

Lemma c_str_app_zeros (s : bytes) (k : nat) :
  ~ In NUL s -> c_str (s ++ zeros k) = s.
Proof.
  intros H. induction s as [| c s IH]; simpl.
  - apply c_str_zeros.
  - destruct (Ascii.eqb_spec c NUL) as [E | E]; [ exfalso; apply H; left; auto |].
    f_equal. apply IH. intros Hin. apply H. right. exact Hin.
Qed.

Lemma c_data_as_string_0 (d : option bytes) : c_data_as_string d 0 = [].
Proof. destruct d; reflexivity. Qed.


Lemma Message_name_nul_free (m : Message) : ~ In NUL (Message_name m).
Proof.
  unfold Message_name. apply firstn_nul_free.
  destruct (msg m) as [h n d | h rn rd g]; simpl.
  - apply c_str_nul_free.
  - apply firstn_nul_free, c_str_nul_free.
Qed.


(** ** Inversion of the constructors *)

Lemma bind_Ok {A B} (r : result A) (k : A -> result B) (y : B) :
  bind r k = Ok y -> exists x, r = Ok x /\ k x = Ok y.
Proof. destruct r as [x | e]; simpl; [ eauto | discriminate ]. Qed.

Lemma bind_fails {A B} (r : result A) (k : A -> result B) :
  fails (bind r k) <-> fails r \/ exists x, r = Ok x /\ fails (k x).
Proof.
  unfold fails. destruct r as [x | e]; simpl.
  - split; [ intros H; right; exists x; auto |].
    intros [[e H] | (x' & E & H)]; [ discriminate |].
    inversion E; subst x'; exact H.
  - split; [ intros _; left; eauto | intros _; eauto ].
Qed.

Lemma fails_not_succeeds {A} (r : result A) : fails r -> ~ succeeds r.
Proof. intros [e ->] [a H]; discriminate. Qed.

Lemma fails_or_succeeds {A} (r : result A) : fails r \/ succeeds r.
Proof. destruct r; [ right | left ]; eexists; reflexivity. Qed.

Ltac inv_bind H :=
  let x := fresh "x" in
  let E := fresh "E" in
  apply bind_Ok in H; destruct H as (x & E & H).

Lemma as_c_uint32_Ok (v : pyval) (z : Z) :
  as_c_uint32 v = Ok z -> exists i, v = PInt i /\ z = u32 i.
Proof. destruct v; simpl; intros H; inversion H; eauto. Qed.

(** An argument read by [if not v: v = 0] and stored in a [c_uint32]. *)
Lemma as_c_uint32_or_zero (v : pyval) (z : Z) :
  as_c_uint32 (if negb (truthy v) then PInt 0 else v) = Ok z ->
  z = stored_int v /\ is_u32 z.
Proof.
  destruct v as [| i | [| c s] | m | o]; simpl; intros H; inversion H;
    try (split; [ reflexivity | apply (u32_range 0) ]).
  destruct (Z.eqb_spec i 0) as [-> | Hi]; simpl in *; inversion H;
    split; try reflexivity; apply u32_range.
Qed.

Lemma data_len_Ok (data : pyval) (z : Z) :
  (if truthy data then py_len data else Ok 0) = Ok z ->
  z = len (str_or_empty data) /\
  (data = PNone \/ data = PInt 0 \/ exists s, data = PStr s).
Proof.
  destruct data as [| i | [| c s] | m | o]; simpl; intros H;
    try discriminate; inversion H; try (split; [ reflexivity | eauto ]).
  destruct (Z.eqb_spec i 0) as [-> | Hi]; simpl in *;
    [ inversion H; auto | discriminate ].
Qed.

Lemma message_from_parts_Ok i r to from_ o f flags name data s :
  message_from_parts i r to from_ o f flags name data = Ok s ->
  exists n tz fz gz,
    name = PStr n /\
    as_c_uint32 to = Ok tz /\ as_c_uint32 from_ = Ok fz /\
    as_c_uint32 flags = Ok gz /\
    (data = PNone \/ data = PInt 0 \/ exists d, data = PStr d) /\
    s = Pointy
          (mkHeader START_GUARD
             (mkMessageId (u32 (fst i)) (u32 (snd i)))
             (mkMessageId (u32 (fst r)) (u32 (snd r)))
             tz fz
             (mkOrigFrom (u32 (fst o)) (u32 (snd o)))
             (mkOrigFrom (u32 (fst f)) (u32 (snd f)))
             0 gz (u32 (len n)) (u32 (len (str_or_empty data))) END_GUARD)
          (pad4 (n ++ [NUL])) (data_pointer data).
Proof.
  unfold message_from_parts. intros H.
  inv_bind H. inv_bind H.
  destruct name as [| ? | n | ? | ?]; try discriminate.
  simpl in E. inversion E; subst x. clear E.
  apply data_len_Ok in E0. destruct E0 as [-> Hd].
  inv_bind H. inv_bind H. inv_bind H. inversion H; subst s.
  exists n, x, x0, x1. repeat split; auto.
Qed.

Lemma _from_data_Ok name data to from_ o f r flags i s :
  _from_data name data to from_ o f r flags i = Ok s ->
  exists n ip rp op fp,
    name = PStr n /\
    id_pair i = Ok ip /\ id_pair r = Ok rp /\
    orig_from_pair o = Ok op /\ orig_from_pair f = Ok fp /\
    (data = PNone \/ data = PInt 0 \/ exists d, data = PStr d) /\
    s = Pointy
          (mkHeader START_GUARD
             (mkMessageId (u32 (fst ip)) (u32 (snd ip)))
             (mkMessageId (u32 (fst rp)) (u32 (snd rp)))
             (stored_int to) (stored_int from_)
             (mkOrigFrom (u32 (fst op)) (u32 (snd op)))
             (mkOrigFrom (u32 (fst fp)) (u32 (snd fp)))
             0 (stored_int flags) (u32 (len n))
             (u32 (len (str_or_empty data))) END_GUARD)
          (pad4 (n ++ [NUL])) (data_pointer data).
Proof.
  unfold _from_data. intros H.
  inv_bind H. inv_bind H. inv_bind H. inv_bind H.
  apply message_from_parts_Ok in H.
  destruct H as (n & tz & fz & gz & -> & Ht & Hf & Hg & Hd & ->).
  apply as_c_uint32_or_zero in Ht, Hf, Hg.
  destruct Ht as [-> _], Hf as [-> _], Hg as [-> _].
  exists n, x, x0, x1, x2. repeat split; auto.
Qed.

Lemma Message_init_Ok cls name data to from_ o f r flags i m :
  Message_init cls name data to from_ o f r flags i = Ok m ->
  exists n,
    name = PStr n /\ startswith n dollar_dot = true /\
    _from_data name data to from_ o f r flags i = Ok (msg m) /\
    class_of m = cls /\ 3 <= name_len (hdr (msg m)).
Proof.
  unfold Message_init. intros H. inv_bind H.
  destruct name as [| ? | n | ? | ?]; try discriminate.
  unfold py_startswith in E.
  assert (Ex : x = startswith n dollar_dot) by congruence.
  subst x; clear E.
  destruct (startswith n dollar_dot) eqn:Es; cbn [negb] in H; [| discriminate ].
  inv_bind H. inv_bind H. inversion H; subst m; simpl.
  exists n. repeat split; auto.
  unfold _check in E0.
  destruct (negb (start_guard (hdr x) =? START_GUARD)); [ discriminate |].
  destruct (negb (end_guard (hdr x) =? END_GUARD)); [ discriminate |].
  destruct (Z.ltb_spec (name_len (hdr x)) 3); [ discriminate | lia ].
Qed.

Lemma _check_from_data name data to from_ o f r flags i s :
  _from_data name data to from_ o f r flags i = Ok s ->
  _check s = if name_len (hdr s) <? 3 then Raise (ValueError NameTooShort)
             else Ok tt.
Proof.
  intros H. apply _from_data_Ok in H.
  destruct H as (n & ip & rp & op & fp & _ & _ & _ & _ & _ & _ & ->).
  reflexivity.
Qed.

(** *** What the subclass constructors end with *)

Lemma clear_reply_fields_hdr (m : Message) :
  in_reply_to (hdr (msg (clear_reply_fields m))) = unset_id /\
  orig_from (hdr (msg (clear_reply_fields m))) = unset_orig_from /\
  final_to (hdr (msg (clear_reply_fields m))) = unset_orig_from /\
  flags (hdr (msg (clear_reply_fields m))) = flags (hdr (msg m)).
Proof. destruct m as [cls [h n d | h rn rd g]]; simpl; auto. Qed.

Lemma land_1_u32_lor_1 (f : Z) : Z.land (u32 (Z.lor f 1)) 1 = 1.
Proof.
  change 1 with (Z.ones 1) at 2. rewrite Z.land_ones by lia.
  unfold u32. change (2 ^ 1) with 2.
  rewrite Z.mod_mod_divide by (exists (2 ^ 31); reflexivity).
  rewrite <- Z.bit0_mod, Z.lor_spec. simpl Z.testbit at 2.
  rewrite orb_true_r. reflexivity.
Qed.

Lemma set_want_reply_true_flags (m : Message) :
  Z.land (Message_flags (set_want_reply true m)) WANT_A_REPLY = WANT_A_REPLY.
Proof.
  destruct m as [cls [h n d | h rn rd g]]; unfold Message_flags; simpl;
    apply land_1_u32_lor_1.
Qed.

Lemma require_in_reply_to_Ok (m r : Message) :
  require_in_reply_to m = Ok r ->
  r = m /\ in_reply_to (hdr (msg r)) <> unset_id /\
  Message_in_reply_to r <> PNone.
Proof.
  unfold require_in_reply_to.
  destruct (is_None (Message_in_reply_to m)) eqn:En; intros H;
    inversion H; subst r.
  split; [ reflexivity |].
  split; [| intros E; rewrite E in En; discriminate ].
  intros E. unfold Message_in_reply_to in En. rewrite E in En.
  discriminate.
Qed.

Lemma require_in_reply_to_cases (m : Message) :
  (in_reply_to (hdr (msg m)) = unset_id ->
   require_in_reply_to m = Raise (ValueError ReplyNeedsInReplyTo)) /\
  (in_reply_to (hdr (msg m)) <> unset_id -> require_in_reply_to m = Ok m).
Proof.
  unfold require_in_reply_to, Message_in_reply_to, unset_id.
  destruct (in_reply_to (hdr (msg m))) as [n s]; simpl.
  destruct (Z.eqb_spec n 0) as [-> | Hn]; simpl;
    [ destruct (Z.eqb_spec s 0) as [-> | Hs]; simpl |];
    split; intros H; try reflexivity; try congruence.
Qed.

Lemma unset_id_dec (i : MessageId) : {i = unset_id} + {i <> unset_id}.
Proof.
  destruct i as [n sn]. unfold unset_id.
  destruct (Z.eq_dec n 0) as [-> | Hn]; [| right; congruence ].
  destruct (Z.eq_dec sn 0) as [-> | Hs]; [ left; reflexivity | right; congruence ].
Qed.

Lemma require_in_reply_to_fails (m : Message) :
  fails (require_in_reply_to m) <-> in_reply_to (hdr (msg m)) = unset_id.
Proof.
  destruct (require_in_reply_to_cases m) as [Hu Hs].
  destruct (unset_id_dec (in_reply_to (hdr (msg m)))) as [E | E].
  - rewrite (Hu E). split; [ auto | intros _; eexists; reflexivity ].
  - rewrite (Hs E). split; [ intros [e H]; discriminate | contradiction ].
Qed.

(** ** The bytes of a word *)

Lemma byte_val_byte_of (z : Z) : byte_val (byte_of z) = z mod 256.
Proof.
  unfold byte_val, byte_of.
  assert (H : 0 <= z mod 256 < 256) by (apply Z.mod_pos_bound; lia).
  rewrite N_ascii_embedding by lia.
  rewrite Z2N.id by lia. reflexivity.
Qed.

Lemma length_u32_bytes (P : platform) (z : Z) : length (u32_bytes P z) = 4%nat.
Proof. unfold u32_bytes. destruct (big_endian P); reflexivity. Qed.

Lemma u32_of_bytes_u32_bytes (P : platform) (z : Z) :
  is_u32 z -> u32_of_bytes P (u32_bytes P z) = z.
Proof.
  unfold is_u32, u32_bytes, u32_of_bytes. intros Hz.
  destruct (big_endian P); rewrite !byte_val_byte_of;
    change (2 ^ 32) with 4294967296 in Hz;
    Z.div_mod_to_equations; lia.
Qed.

Lemma word_at_here (P : platform) (z : Z) (rest : bytes) :
  is_u32 z -> word_at P (u32_bytes P z ++ rest) 0 = z.
Proof.
  intros Hz. unfold word_at. rewrite skipn_0.
  rewrite firstn_app, length_u32_bytes. simpl (4 - 4)%nat. rewrite firstn_0, app_nil_r.
  rewrite <- (length_u32_bytes P z), firstn_all.
  apply u32_of_bytes_u32_bytes. exact Hz.
Qed.

Lemma word_at_next (P : platform) (z : Z) (rest : bytes) (off : nat) :
  word_at P (u32_bytes P z ++ rest) (S (S (S (S off)))) = word_at P rest off.
Proof.
  unfold word_at, u32_bytes. destruct (big_endian P); reflexivity.
Qed.

Lemma word_at_cons (P : platform) (c : ascii) (rest : bytes) (off : nat) :
  word_at P (c :: rest) (S off) = word_at P rest off.
Proof. reflexivity. Qed.

Lemma word_at_skip (P : platform) (pre rest : bytes) (off : nat) :
  word_at P (pre ++ rest) (length pre + off) = word_at P rest off.
Proof.
  unfold word_at. rewrite skipn_app.
  replace (length pre + off - length pre)%nat with off by lia.
  rewrite skipn_all2 by lia. reflexivity.
Qed.

Lemma length_header_bytes (P : platform) (h : header) :
  length (header_bytes P h) = Z.to_nat (MSG_HEADER_LEN P).
Proof.
  unfold header_bytes, MSG_HEADER_LEN.
  rewrite !length_app, !length_u32_bytes, !length_zeros. lia.
Qed.

Lemma header_of_bytes_header_bytes (P : platform) (h : header) (rest : bytes) :
  header_in_range h -> header_of_bytes P (header_bytes P h ++ rest) = h.
Proof.
  intros (H1 & H2 & H3 & H4 & H5 & H6 & H7 & H8 & H9 & H10 & H11 & H12 &
          H13 & H14 & H15 & H16).
  unfold header_of_bytes, header_bytes, end_guard_offset, hdr_pad, ptr_size.
  rewrite <- !app_assoc.
  destruct h as [sg [i1 i2] [r1 r2] t f [o1 o2] [f1 f2] ex fl nl dl eg].
  simpl in *.
  destruct (bits64 P); cbn [zeros repeat app Nat.add Nat.mul];
    repeat rewrite word_at_next; repeat rewrite word_at_cons;
    rewrite !word_at_here by assumption; reflexivity.
Qed.

(** ** Decoding the bytes of an entire structure *)

Lemma slice_middle (a b c : bytes) :
  firstn (length b) (skipn (length a) (a ++ b ++ c)) = b.
Proof.
  rewrite skipn_app, skipn_all, Nat.sub_diag, skipn_0. simpl.
  rewrite firstn_app, firstn_all, Nat.sub_diag, firstn_0. apply app_nil_r.
Qed.

Lemma firstn_exact (a c : bytes) : firstn (length a) (a ++ c) = a.
Proof. apply (slice_middle [] a c). Qed.

Lemma memmove_from_within (beyond : nat -> ascii) (a c : bytes) :
  memmove_from beyond (a ++ c) (length a) = a.
Proof.
  unfold memmove_from. rewrite <- app_assoc. apply firstn_exact.
Qed.

Lemma memmove_from_past (beyond : nat -> ascii) (data : bytes) (extra : nat) :
  memmove_from beyond data (length data + extra) =
  data ++ map beyond (seq 0 extra).
Proof.
  unfold memmove_from.
  replace (length data + extra - length data)%nat with extra by lia.
  apply firstn_all2. rewrite length_app, length_map, length_seq. lia.
Qed.

Lemma struct_unpack_L_u32_bytes (P : platform) (z : Z) :
  is_u32 z -> struct_unpack_L P (u32_bytes P z) = Ok z.
Proof.
  intros Hz. rewrite <- (u32_of_bytes_u32_bytes P z Hz) at 2.
  unfold u32_bytes. destruct (big_endian P); reflexivity.
Qed.

Lemma firstn_4_header_bytes (P : platform) (h : header) (rest : bytes) :
  firstn 4 (header_bytes P h ++ rest) = u32_bytes P (start_guard h).
Proof.
  unfold header_bytes. rewrite <- !app_assoc.
  rewrite <- (length_u32_bytes P (start_guard h)). apply firstn_exact.
Qed.

Lemma in_range_START_GUARD : is_u32 START_GUARD.
Proof. unfold is_u32, START_GUARD. lia. Qed.

Lemma in_range_END_GUARD : is_u32 END_GUARD.
Proof. unfold is_u32, END_GUARD. lia. Qed.

Lemma MSG_HEADER_LEN_pos (P : platform) : 0 <= MSG_HEADER_LEN P.
Proof. unfold MSG_HEADER_LEN. lia. Qed.

Lemma header_of_bytes_exact (P : platform) (h : header) :
  header_in_range h -> header_of_bytes P (header_bytes P h) = h.
Proof.
  intros Hh. rewrite <- (app_nil_r (header_bytes P h)).
  apply header_of_bytes_header_bytes. exact Hh.
Qed.

(** Decoding undoes the layout of an entire structure, whatever lies in
    memory after the string. *)
Lemma decode_entire_bytes (P : platform) (beyond : nat -> ascii)
    (h : header) (rn rd : bytes) (g : Z) :
  header_in_range h -> start_guard h = START_GUARD -> is_u32 g ->
  length rn = Z.to_nat (calc_padded_name_len (name_len h)) ->
  length rd = Z.to_nat (calc_padded_data_len (data_len h)) ->
  _entire_message_from_bytes P beyond
    (header_bytes P h ++ rn ++ rd ++ u32_bytes P g) = Ok (Entire h rn rd g).
Proof.
  intros Hh Hsg Hg Hrn Hrd.
  unfold _entire_message_from_bytes.
  set (data := header_bytes P h ++ rn ++ rd ++ u32_bytes P g).
  assert (Hlen : length data =
                 (Z.to_nat (MSG_HEADER_LEN P) + length rn + length rd + 4)%nat).
  { unfold data. rewrite !length_app, length_header_bytes, length_u32_bytes. lia. }
  pose proof (MSG_HEADER_LEN_pos P) as Hpos.
  destruct (Z.ltb_spec (len data) (MSG_HEADER_LEN P)) as [Hlt | _];
    [ unfold len in Hlt; lia |].
  unfold data at 1. rewrite firstn_4_header_bytes, Hsg.
  rewrite (struct_unpack_L_u32_bytes P _ in_range_START_GUARD). cbn [bind].
  rewrite Z.eqb_refl. cbn [negb].
  rewrite <- (length_header_bytes P h).
  assert (Hhead : memmove_from beyond data (length (header_bytes P h))
                  = header_bytes P h)
    by (unfold data; apply memmove_from_within).
  rewrite !Hhead, !(header_of_bytes_exact P h Hh).
  rewrite <- Hrn, <- Hrd.
  set (extra := tail_pad P (length (header_bytes P h) + length rn + length rd + 4)).
  assert (Hsize : sizeof_entire P (length rn) (length rd) = (length data + extra)%nat).
  { unfold sizeof_entire, extra. rewrite <- (length_header_bytes P h), Hlen.
    rewrite <- (length_header_bytes P h). reflexivity. }
  rewrite !Hsize, !memmove_from_past.
  set (junk := map beyond (seq 0 extra)).
  unfold data. rewrite <- !app_assoc.
  rewrite (header_of_bytes_header_bytes P h _ Hh).
  rewrite slice_middle.
  f_equal. f_equal.
  - rewrite <- length_app, app_assoc, slice_middle. reflexivity.
  - rewrite <- !length_app.
    rewrite (app_assoc (header_bytes P h) rn), (app_assoc _ rd).
    rewrite <- (Nat.add_0_r (length ((header_bytes P h ++ rn) ++ rd))).
    rewrite word_at_skip. apply word_at_here. exact Hg.
Qed.

(** ** The parts of a well-formed message *)

Lemma MessageId_or_zero_Message_id (m : Message) :
  MessageId_or_zero (Message_id m) = id (hdr (msg m)).
Proof.
  unfold Message_id. destruct (id (hdr (msg m))) as [a c]; simpl.
  destruct (Z.eqb_spec a 0) as [-> |]; [| reflexivity ].
  destruct (Z.eqb_spec c 0) as [-> |]; reflexivity.
Qed.

Lemma MessageId_or_zero_Message_in_reply_to (m : Message) :
  MessageId_or_zero (Message_in_reply_to m) = in_reply_to (hdr (msg m)).
Proof.
  unfold Message_in_reply_to. destruct (in_reply_to (hdr (msg m))) as [a c]; simpl.
  destruct (Z.eqb_spec a 0) as [-> |]; [| reflexivity ].
  destruct (Z.eqb_spec c 0) as [-> |]; reflexivity.
Qed.

Lemma OrigFrom_or_zero_Message_orig_from (m : Message) :
  OrigFrom_or_zero (Message_orig_from m) = orig_from (hdr (msg m)).
Proof.
  unfold Message_orig_from. destruct (orig_from (hdr (msg m))) as [a c]; simpl.
  destruct (Z.eqb_spec a 0) as [-> |]; [| reflexivity ].
  destruct (Z.eqb_spec c 0) as [-> |]; reflexivity.
Qed.

Lemma OrigFrom_or_zero_Message_final_to (m : Message) :
  OrigFrom_or_zero (Message_final_to m) = final_to (hdr (msg m)).
Proof.
  unfold Message_final_to. destruct (final_to (hdr (msg m))) as [a c]; simpl.
  destruct (Z.eqb_spec a 0) as [-> |]; [| reflexivity ].
  destruct (Z.eqb_spec c 0) as [-> |]; reflexivity.
Qed.

Lemma well_formed_name (m : Message) :
  well_formed (msg m) ->
  Message_name m = struct_name (msg m) /\
  len (Message_name m) = name_len (hdr (msg m)).
Proof.
  intros (_ & Hn & _). unfold Message_name. rewrite <- Hn, to_nat_len, firstn_all.
  auto.
Qed.

Lemma well_formed_data (m : Message) :
  well_formed (msg m) ->
  len (str_or_empty (Message_data m)) = data_len (hdr (msg m)) /\
  str_or_empty (Message_data m) = data_string (msg m) /\
  (if truthy (Message_data m) then len (str_or_empty (Message_data m)) else 0)
  = data_len (hdr (msg m)).
Proof.
  intros (Hh & _ & Hd). unfold Message_data, data_string.
  assert (H0 : 0 <= data_len (hdr (msg m))).
  { destruct Hh as (_ & _ & _ & _ & _ & _ & _ & _ & _ & _ & _ & _ & _ & _ & H & _).
    apply H. }
  destruct (Z.eqb_spec (data_len (hdr (msg m))) 0) as [E | E].
  - rewrite E, c_data_as_string_0. simpl. auto.
  - destruct Hd as [Hd | (buf & -> & Hle)]; [ contradiction |].
    simpl str_or_empty. unfold c_data_as_string.
    assert (Hl : len (firstn (Z.to_nat (data_len (hdr (msg m)))) buf)
                 = data_len (hdr (msg m))).
    { unfold len in *. rewrite length_firstn. lia. }
    split; [ exact Hl |]. split; [ reflexivity |].
    destruct (firstn (Z.to_nat (data_len (hdr (msg m)))) buf) eqn:Ef.
    + unfold len in Hl. simpl in Hl. lia.
    + exact Hl.
Qed.

Lemma length_pad4_terminated (n : bytes) :
  length (pad4 (n ++ [NUL])) = Z.to_nat (calc_padded_name_len (len n)).
Proof.
  rewrite <- to_nat_len, len_pad4, len_app. unfold calc_padded_name_len.
  change (len [NUL]) with 1. reflexivity.
Qed.

Lemma length_pad4 (d : bytes) :
  length (pad4 d) = Z.to_nat (calc_padded_data_len (len d)).
Proof. rewrite <- to_nat_len, len_pad4. reflexivity. Qed.

Lemma c_char_array_store_name (n : bytes) :
  ~ In NUL n ->
  let size := length (pad4 (n ++ [NUL])) in
  c_char_array_store size (pad4 (n ++ [NUL])) = n ++ zeros (size - length n) /\
  length (c_char_array_store size (pad4 (n ++ [NUL]))) = size.
Proof.
  intros Hn size. unfold c_char_array_store.
  rewrite c_str_pad4_terminated, (c_str_id n Hn).
  split; [ reflexivity |].
  rewrite length_app, length_zeros.
  assert (length n <= size)%nat; [| lia ].
  unfold size. destruct (pad4_spec (n ++ [NUL])) as (k & -> & _).
  rewrite !length_app. lia.
Qed.

Lemma fresh_header_in_range (h : header) :
  header_in_range h -> header_in_range (fresh_header h).
Proof.
  unfold header_in_range, fresh_header; simpl. intros H.
  repeat split; try apply H; try apply in_range_START_GUARD;
    try apply in_range_END_GUARD; unfold is_u32; lia.
Qed.

Lemma entire_of_well_formed (m : Message) :
  well_formed (msg m) ->
  exists rn,
    entire_of m = Entire (fresh_header (hdr (msg m))) rn
                         (pad4 (data_string (msg m))) END_GUARD /\
    length rn = Z.to_nat (calc_padded_name_len (name_len (hdr (msg m)))) /\
    c_str rn = struct_name (msg m).
Proof.
  intros Hwf.
  destruct (well_formed_name m Hwf) as [Hname Hnl].
  destruct (well_formed_data m Hwf) as (Hdl & Hds & _).
  destruct Hwf as (Hh & _ & _).
  destruct Hh as (_ & _ & _ & _ & _ & Hto & Hfrom & _ & _ & _ & _ & _ & Hfl &
                  Hnr & Hdr & _).
  pose proof (Message_name_nul_free m) as Hnf.
  destruct (c_char_array_store_name _ Hnf) as [Hrn Hlrn].
  eexists. split; [| split ].
  - unfold entire_of, _entire_message_from_parts.
    rewrite MessageId_or_zero_Message_id, MessageId_or_zero_Message_in_reply_to,
      OrigFrom_or_zero_Message_orig_from, OrigFrom_or_zero_Message_final_to.
    rewrite Hnl, Hdl, Hds.
    unfold Message_to, Message_from_, Message_flags.
    rewrite (u32_small _ Hto), (u32_small _ Hfrom), (u32_small _ Hfl),
      (u32_small _ Hnr), (u32_small _ Hdr).
    reflexivity.
  - rewrite Hlrn, length_pad4_terminated, Hnl. reflexivity.
  - unfold c_char_array_store. rewrite c_str_pad4_terminated.
    rewrite (c_str_id _ Hnf).
    rewrite c_str_app_zeros by exact Hnf. exact Hname.
Qed.
Ltac cmp_cases :=
  repeat match goal with
         | |- context [?x =? ?y] => destruct (Z.eqb_spec x y)
         | |- context [?x <? ?y] => destruct (Z.ltb_spec x y)
         | |- context [?x >? ?y] => rewrite (Z.gtb_ltb x y)
         end.

Lemma MessageId_cmp_range (a b : MessageId) :
  MessageId_cmp a b = -1 \/ MessageId_cmp a b = 0 \/ MessageId_cmp a b = 1.
Proof. unfold MessageId_cmp; cmp_cases; auto. Qed.

Lemma MessageId_lt_lex (a b : MessageId) :
  MessageId_lt a b = true <-> lex_lt a b.
Proof.
  unfold MessageId_lt, MessageId_cmp, lex_lt.
  destruct (Z.eqb_spec (network_id a) (network_id b));
    [ destruct (Z.eqb_spec (serial_num a) (serial_num b));
      [| destruct (Z.ltb_spec (serial_num a) (serial_num b)) ]
    | destruct (Z.ltb_spec (network_id a) (network_id b)) ];
    simpl; split; intros; try discriminate; try lia; auto.
Qed.

Lemma MessageId_eq_fields (a b : MessageId) :
  MessageId_eq a b = true <-> a = b.
Proof.
  unfold MessageId_eq, MessageId_cmp. destruct a as [an asn], b as [bn bs]; simpl.
  destruct (Z.eqb_spec an bn);
    [ destruct (Z.eqb_spec asn bs); [| destruct (Z.ltb_spec asn bs) ]
    | destruct (Z.ltb_spec an bn) ];
    simpl; split; intros Hab; try discriminate; try congruence;
    inversion Hab; lia.
Qed.

Lemma MessageId_gt_flip (a b : MessageId) :
  MessageId_gt a b = MessageId_lt b a.
Proof.
  unfold MessageId_gt, MessageId_lt, MessageId_cmp.
  rewrite Z.gtb_ltb.
  destruct (Z.eqb_spec (network_id a) (network_id b)) as [e|e];
    destruct (Z.eqb_spec (network_id b) (network_id a)); try congruence.
  - destruct (Z.eqb_spec (serial_num a) (serial_num b));
      destruct (Z.eqb_spec (serial_num b) (serial_num a)); try congruence; auto.
    destruct (Z.ltb_spec (serial_num a) (serial_num b));
      destruct (Z.ltb_spec (serial_num b) (serial_num a)); auto; lia.
  - destruct (Z.ltb_spec (network_id a) (network_id b));
      destruct (Z.ltb_spec (network_id b) (network_id a)); auto; lia.
Qed.

Lemma lex_lt_trans (a b c : MessageId) : lex_lt a b -> lex_lt b c -> lex_lt a c.
Proof. unfold lex_lt. lia. Qed.

(** C4: comparison of MessageId values is a total order: exactly one of
    a<b, a==b, a>b holds; a<b is the lexicographic order on
    (network_id, serial_num), a==b is equality of both fields, and a>b is
    b<a; the order is irreflexive and transitive. *)
Theorem MessageId_total_order (a b : MessageId) :
  ((MessageId_lt a b = true /\ MessageId_eq a b = false /\ MessageId_gt a b = false) \/
   (MessageId_lt a b = false /\ MessageId_eq a b = true /\ MessageId_gt a b = false) \/
   (MessageId_lt a b = false /\ MessageId_eq a b = false /\ MessageId_gt a b = true)) /\
  (MessageId_lt a b = true <-> lex_lt a b) /\
  (MessageId_eq a b = true <->
     network_id a = network_id b /\ serial_num a = serial_num b) /\
  (MessageId_gt a b = true <-> lex_lt b a) /\
  MessageId_lt a a = false /\
  (forall c, MessageId_lt a b = true -> MessageId_lt b c = true ->
             MessageId_lt a c = true).
Proof.
  split; [| split; [| split; [| split; [| split ] ] ] ].
  - unfold MessageId_lt, MessageId_eq, MessageId_gt.
    rewrite Z.gtb_ltb.
    destruct (MessageId_cmp_range a b) as [H | [H | H]]; rewrite H; simpl; auto.
  - apply MessageId_lt_lex.
  - rewrite MessageId_eq_fields. destruct a, b; simpl.
    split; [ intros H; inversion H; auto | intros [-> ->]; reflexivity ].
  - rewrite MessageId_gt_flip. apply MessageId_lt_lex.
  - destruct (MessageId_lt a a) eqn:E; [| reflexivity ].
    apply MessageId_lt_lex in E. unfold lex_lt in E. lia.
  - intros c Hab Hbc. apply MessageId_lt_lex.
    apply MessageId_lt_lex in Hab, Hbc. eapply lex_lt_trans; eauto.
Qed.

Lemma MessageId_total_order_witness :
  MessageId_lt (mkMessageId 0 2) (mkMessageId 1 3) = true.
Proof.
  apply (proj2 (proj2 (proj2 (proj2 (proj2
           (MessageId_total_order (mkMessageId 0 2) (mkMessageId 1 2))))))
           (mkMessageId 1 3));
    reflexivity.
Defined.

(** ** Total length *)

Lemma calc_padded_name_len_round_up (n : Z) :
  is_round_up_4 (n + 1) (calc_padded_name_len n).
Proof.
  unfold is_round_up_4, calc_padded_name_len.
  Z.div_mod_to_equations. lia.
Qed.

Lemma calc_padded_data_len_round_up (n : Z) :
  is_round_up_4 n (calc_padded_data_len n).
Proof.
  unfold is_round_up_4, calc_padded_data_len.
  Z.div_mod_to_equations. lia.
Qed.

Lemma MSG_HEADER_LEN_value (P : platform) :
  MSG_HEADER_LEN P = if bits64 P then 88 else 72.
Proof. destruct P as [[|] e]; reflexivity. Qed.

(** C3: [total_length] is arithmetic on the name length and the data
    length alone: it is the header size, plus name_len+1 rounded up to a
    multiple of 4, plus data_len rounded up to a multiple of 4, plus 4;
    messages with the same two lengths have the same total length, and so
    have the pointy and the entire representation of one header, and a
    message and the entire structure that [to_bytes] makes of it. *)
Theorem total_length_is_arithmetic (P : platform) (m : Message) :
  (exists padded_name padded_data,
      is_round_up_4 (name_len (hdr (msg m)) + 1) padded_name /\
      is_round_up_4 (data_len (hdr (msg m))) padded_data /\
      total_length P m = MSG_HEADER_LEN P + padded_name + padded_data + 4) /\
  (forall m' : Message,
      name_len (hdr (msg m')) = name_len (hdr (msg m)) ->
      data_len (hdr (msg m')) = data_len (hdr (msg m)) ->
      total_length P m' = total_length P m) /\
  (forall cls h name data rest_name rest_data rest_end_guard,
      total_length P (mkMessage cls (Pointy h name data)) =
      total_length P (mkMessage cls (Entire h rest_name rest_data rest_end_guard))) /\
  (forall cls, well_formed (msg m) ->
      total_length P (mkMessage cls (entire_of m)) = total_length P m).
Proof.
  split; [| split; [| split ] ].
  - exists (calc_padded_name_len (name_len (hdr (msg m)))),
           (calc_padded_data_len (data_len (hdr (msg m)))).
    split; [ apply calc_padded_name_len_round_up |].
    split; [ apply calc_padded_data_len_round_up | reflexivity ].
  - intros m' Hn Hd. unfold total_length. rewrite Hn, Hd. reflexivity.
  - reflexivity.
  - intros cls Hwf.
    destruct (entire_of_well_formed m Hwf) as (rn & Hent & _).
    unfold total_length. simpl msg. rewrite Hent. reflexivity.
Qed.

Lemma total_length_is_arithmetic_witness :
  total_length le64 (mkMessage CMessage (entire_of request_Fred))
  = total_length le64 request_Fred.
Proof.
  apply (proj1 (proj2 (total_length_is_arithmetic le64 request_Fred)));
    reflexivity.
Defined.

(** ** Equivalence of messages *)

Lemma equivalent_struct_iff (a b : msg_struct) :
  _equivalent_message_struct a b = true <->
  to (hdr a) = to (hdr b) /\
  name_len (hdr a) = name_len (hdr b) /\
  data_len (hdr a) = data_len (hdr b) /\
  struct_name a = struct_name b /\
  data_string a = data_string b.
Proof.
  unfold _equivalent_message_struct, data_string.
  destruct (Z.eqb_spec (to (hdr a)) (to (hdr b))) as [Et | Et]; simpl;
    [| split; [discriminate | tauto] ].
  destruct (Z.eqb_spec (name_len (hdr a)) (name_len (hdr b))) as [En | En];
    simpl; [| split; [discriminate | tauto] ].
  destruct (Z.eqb_spec (data_len (hdr a)) (data_len (hdr b))) as [Ed | Ed];
    simpl; [| split; [discriminate | tauto] ].
  destruct (bytes_eqb (struct_name a) (struct_name b)) eqn:Es; simpl.
  - apply bytes_eqb_eq in Es.
    destruct (Z.eqb_spec (data_len (hdr a)) 0) as [E0 | E0]; simpl.
    + split; [ intros _ | reflexivity ].
      repeat split; auto.
      rewrite <- Ed, E0, !c_data_as_string_0. reflexivity.
    + rewrite bytes_eqb_eq. tauto.
  - split; [discriminate |].
    intros (_ & _ & _ & E & _). apply bytes_eqb_eq in E. congruence.
Qed.

Lemma struct_name_set_hdr (f : header -> header) (m : msg_struct) :
  name_len (f (hdr m)) = name_len (hdr m) ->
  struct_name (set_hdr f m) = struct_name m.
Proof. destruct m; simpl; intros E; rewrite ?E; reflexivity. Qed.

Lemma struct_data_set_hdr (f : header -> header) (m : msg_struct) :
  data_len (f (hdr m)) = data_len (hdr m) ->
  struct_data (set_hdr f m) = struct_data m.
Proof. destruct m; simpl; intros E; rewrite ?E; reflexivity. Qed.

Lemma hdr_set_hdr (f : header -> header) (m : msg_struct) :
  hdr (set_hdr f m) = f (hdr m).
Proof. destruct m; reflexivity. Qed.

(** C5: [equivalent] is true exactly when the two messages agree on [to],
    on the name with its length and on the data with its length; it is
    blind to [id], [in_reply_to], [from_], [orig_from], [final_to] and
    [flags]: replacing them, in either message, leaves the result as it
    was.  Equivalent messages show the same [to], [name] and [data]. *)
Theorem equivalent_ignores_fields (a b : Message) :
  (equivalent a b = true <->
     to (hdr (msg a)) = to (hdr (msg b)) /\
     name_len (hdr (msg a)) = name_len (hdr (msg b)) /\
     data_len (hdr (msg a)) = data_len (hdr (msg b)) /\
     struct_name (msg a) = struct_name (msg b) /\
     data_string (msg a) = data_string (msg b)) /\
  (forall i1 r1 f1 o1 t1 g1 i2 r2 f2 o2 t2 g2 cls1 cls2,
     equivalent
       (mkMessage cls1 (set_hdr (replace_ignored i1 r1 f1 o1 t1 g1) (msg a)))
       (mkMessage cls2 (set_hdr (replace_ignored i2 r2 f2 o2 t2 g2) (msg b)))
     = equivalent a b) /\
  (equivalent a b = true ->
     Message_to a = Message_to b /\
     Message_name a = Message_name b /\
     Message_data a = Message_data b).
Proof.
  split; [| split ].
  - apply equivalent_struct_iff.
  - intros. unfold equivalent, _equivalent_message_struct; simpl.
    rewrite !hdr_set_hdr.
    rewrite !struct_name_set_hdr, !struct_data_set_hdr by reflexivity.
    reflexivity.
  - intros H. apply equivalent_struct_iff in H.
    destruct H as (Et & En & Ed & Es & Ec).
    unfold Message_to, Message_name, Message_data.
    rewrite Et, En, Ed, Es. repeat split.
    unfold data_string in Ec. rewrite Ed in Ec. rewrite Ec. reflexivity.
Qed.

Lemma equivalent_ignores_fields_witness :
  Message_to request_Fred =
  Message_to (mkMessage CReply
                (set_hdr (replace_ignored (mkMessageId 7 8) (mkMessageId 0 132)
                                          5 (mkOrigFrom 1 2) (mkOrigFrom 3 4) 256)
                         (entire_of request_Fred))) /\
  Message_name request_Fred =
  Message_name (mkMessage CReply
                  (set_hdr (replace_ignored (mkMessageId 7 8) (mkMessageId 0 132)
                                            5 (mkOrigFrom 1 2) (mkOrigFrom 3 4) 256)
                           (entire_of request_Fred))) /\
  Message_data request_Fred =
  Message_data (mkMessage CReply
                  (set_hdr (replace_ignored (mkMessageId 7 8) (mkMessageId 0 132)
                                            5 (mkOrigFrom 1 2) (mkOrigFrom 3 4) 256)
                           (entire_of request_Fred))).
Proof.
  apply (proj2 (proj2 (equivalent_ignores_fields request_Fred _))).
  reflexivity.
Defined.

(** ** Announcement *)

Lemma Announcement_built_cleared (P : platform) (a : Message) :
  Announcement_built P a -> exists m, a = clear_reply_fields m.
Proof.
  intros [name data to from_ flags id a' H
         | msg0 data to from_ flags id a' H
         | seq data to from_ flags id a' H
         | beyond arg a' H].
  - unfold Announcement_init in H. inv_bind H. inversion H. eauto.
  - unfold Announcement_from_message in H. inv_bind H. inversion H. eauto.
  - unfold Announcement_from_sequence in H.
    destruct (negb (length seq =? 9)%nat); [ discriminate |].
    inv_bind H. inversion H. eauto.
  - unfold Announcement_from_bytes in H. inv_bind H. inversion H. eauto.
Qed.

Lemma _merge_args_flags cls e d t f o ft r fl i m :
  _merge_args cls e d t f o ft r fl i = Ok m ->
  Message_flags m = stored_int (override fl (nth 6 e PNone)).
Proof.
  unfold _merge_args. intros H.
  do 10 (destruct e as [| ? e]; try discriminate).
  inv_bind H. inversion H; subst m. cbn [nth].
  apply _from_data_Ok in E.
  destruct E as (n' & ip & rp & op & fp & _ & _ & _ & _ & _ & _ & ->).
  reflexivity.
Qed.

(** C6, as the code has it: every Announcement, whichever constructor
    made it, has [in_reply_to] unset (and [orig_from] and [final_to] too),
    whatever the source message or bytes held.  Its flags are not touched
    by any of the constructors: an Announcement made directly carries the
    flags argument (0 for [None]); one made from a message or from a
    sequence carries the flags argument if there is one and the flags of
    the message or sequence otherwise; and one made from bytes carries
    the flags found in the bytes. *)
Theorem Announcement_in_reply_to_unset (P : platform) :
  (forall a, Announcement_built P a ->
     in_reply_to (hdr (msg a)) = unset_id /\
     Message_in_reply_to a = PNone /\
     Message_orig_from a = PNone /\
     Message_final_to a = PNone) /\
  (forall name data to from_ f id a,
     Announcement_init name data to from_ (PInt f) id = Ok a ->
     Message_flags a = u32 f) /\
  (forall msg0 data to from_ id a,
     Announcement_from_message msg0 data to from_ PNone id = Ok a ->
     Message_flags a = u32 (Message_flags msg0)) /\
  (forall beyond arg m,
     Message_from_bytes P beyond arg = Ok m ->
     exists a, Announcement_from_bytes P beyond arg = Ok a /\
               Message_flags a = Message_flags m) /\
  (forall name data to from_ flags_arg id a,
     Announcement_init name data to from_ flags_arg id = Ok a ->
     Message_flags a = stored_int flags_arg /\
     exists m, Message_init CAnnouncement name data to from_ PNone PNone PNone
                            flags_arg id = Ok m /\
               Message_flags a = Message_flags m) /\
  (forall msg0 data to from_ flags_arg id a,
     Announcement_from_message msg0 data to from_ flags_arg id = Ok a ->
     Message_flags a = (if is_None flags_arg then u32 (Message_flags msg0)
                        else stored_int flags_arg)) /\
  (forall seq data to from_ flags_arg id a,
     Announcement_from_sequence seq data to from_ flags_arg id = Ok a ->
     length seq = 9%nat /\
     Message_flags a = (if is_None flags_arg then stored_int (nth 6 seq PNone)
                        else stored_int flags_arg)) /\
  (forall beyond arg a,
     Announcement_from_bytes P beyond arg = Ok a ->
     exists m, Message_from_bytes P beyond arg = Ok m /\
               Message_flags a = Message_flags m) /\
  (forall beyond h rest_name rest_data rest_end_guard,
     header_in_range h -> start_guard h = START_GUARD ->
     is_u32 rest_end_guard ->
     length rest_name = Z.to_nat (calc_padded_name_len (name_len h)) ->
     length rest_data = Z.to_nat (calc_padded_data_len (data_len h)) ->
     exists a,
       Announcement_from_bytes P beyond
         (header_bytes P h ++ rest_name ++ rest_data ++
          u32_bytes P rest_end_guard) = Ok a /\
       Message_flags a = flags h).
Proof.
  assert (Hinit : forall name data to from_ flags_arg id a,
     Announcement_init name data to from_ flags_arg id = Ok a ->
     Message_flags a = stored_int flags_arg /\
     exists m, Message_init CAnnouncement name data to from_ PNone PNone PNone
                            flags_arg id = Ok m /\
               Message_flags a = Message_flags m).
  { intros name data to from_ fl id a H.
    unfold Announcement_init in H. inv_bind H. inversion H; subst a.
    assert (Hkeep : Message_flags (clear_reply_fields x) = Message_flags x).
    { unfold Message_flags.
      destruct (clear_reply_fields_hdr x) as (_ & _ & _ & ->). reflexivity. }
    split; [| exists x; split; [ exact E | exact Hkeep ] ].
    rewrite Hkeep. unfold Message_flags.
    apply Message_init_Ok in E. destruct E as (n & -> & _ & E & _).
    apply _from_data_Ok in E.
    destruct E as (n' & ip & rp & op & fp & _ & _ & _ & _ & _ & _ & ->).
    reflexivity. }
  assert (Hmsg : forall msg0 data to from_ flags_arg id a,
     Announcement_from_message msg0 data to from_ flags_arg id = Ok a ->
     Message_flags a = (if is_None flags_arg then u32 (Message_flags msg0)
                        else stored_int flags_arg)).
  { intros msg0 data to from_ fl id a H.
    unfold Announcement_from_message in H. inv_bind H. inversion H; subst a.
    apply _merge_args_flags in E.
    unfold Message_flags at 1.
    destruct (clear_reply_fields_hdr x) as (_ & _ & _ & ->).
    fold (Message_flags x). rewrite E. unfold extract, override. cbn [nth].
    destruct (is_None fl); reflexivity. }
  split; [| split; [| split; [| split; [| split; [ exact Hinit |
    split; [ exact Hmsg | split; [| split ] ] ] ] ] ] ].
  - intros a Ha. apply Announcement_built_cleared in Ha. destruct Ha as [m ->].
    destruct (clear_reply_fields_hdr m) as (Hi & Ho & Hf & _).
    unfold Message_in_reply_to, Message_orig_from, Message_final_to.
    rewrite Hi, Ho, Hf. simpl. auto.
  - intros name data to from_ f id a H.
    apply (proj1 (Hinit _ _ _ _ _ _ _ H)).
  - intros msg0 data to from_ id a H. apply (Hmsg _ _ _ _ _ _ _ H).
  - intros beyond arg m H. unfold Message_from_bytes in H. inv_bind H.
    inversion H; subst m. unfold Announcement_from_bytes. rewrite E. simpl.
    eexists; split; [ reflexivity |].
    unfold Message_flags.
    destruct (clear_reply_fields_hdr (mkMessage CAnnouncement x))
      as (_ & _ & _ & ->).
    reflexivity.
  - intros seq data to from_ fl id a H.
    unfold Announcement_from_sequence in H.
    destruct (Nat.eqb_spec (length seq) 9) as [Hlen | Hlen];
      cbn [negb] in H; [| discriminate ].
    split; [ exact Hlen |].
    inv_bind H. inversion H; subst a.
    apply _merge_args_flags in E.
    unfold Message_flags at 1.
    destruct (clear_reply_fields_hdr x) as (_ & _ & _ & ->).
    fold (Message_flags x). rewrite E. unfold override.
    destruct (is_None fl); reflexivity.
  - intros beyond arg a H. unfold Announcement_from_bytes in H. inv_bind H.
    inversion H; subst a. unfold Message_from_bytes. rewrite E. cbn [bind].
    eexists; split; [ reflexivity |].
    unfold Message_flags.
    destruct (clear_reply_fields_hdr (mkMessage CAnnouncement x))
      as (_ & _ & _ & ->).
    reflexivity.
  - intros beyond h rn rd g Hh Hsg Hg Hrn Hrd.
    unfold Announcement_from_bytes.
    rewrite (decode_entire_bytes P beyond h rn rd g Hh Hsg Hg Hrn Hrd).
    cbn [bind]. eexists; split; [ reflexivity |].
    unfold Message_flags.
    destruct (clear_reply_fields_hdr
                (mkMessage CAnnouncement (Entire h rn rd g)))
      as (_ & _ & _ & ->).
    reflexivity.
Qed.

(** C6 as stated fails: [Announcement('$.Fred', flags=1)] is built, and it
    has WANT_A_REPLY set. *)
Lemma Announcement_keeps_WANT_A_REPLY :
  exists a,
    Announcement_init Fred PNone PNone PNone (PInt 1) PNone = Ok a /\
    Announcement_built le32 a /\
    Z.land (Message_flags a) WANT_A_REPLY = WANT_A_REPLY /\
    is_request a = true.
Proof.
  eexists. split; [ reflexivity |]. split; [| split; reflexivity ].
  apply (Announcement_by_init le32 Fred PNone PNone PNone (PInt 1) PNone).
  reflexivity.
Qed.

Lemma Announcement_in_reply_to_unset_witness :
  exists a,
    Announcement_from_message reply_Fred PNone PNone PNone PNone PNone = Ok a /\
    in_reply_to (hdr (msg a)) = unset_id /\
    Message_in_reply_to a = PNone /\
    Message_orig_from a = PNone /\
    Message_final_to a = PNone.
Proof.
  eexists. split; [ reflexivity |].
  apply (proj1 (Announcement_in_reply_to_unset le32)).
  apply (Announcement_by_from_message le32 reply_Fred
           PNone PNone PNone PNone PNone).
  reflexivity.
Defined.

(** ** Request *)

Lemma Request_built_want_reply (P : platform) (r : Message) :
  Request_built P r -> exists m, r = set_want_reply true m.
Proof.
  intros [name data to from_ final_to flags id r' H
         | msg0 data to from_ final_to flags id r' H
         | seq data to from_ final_to flags id r' H
         | beyond arg r' H].
  - unfold Request_init in H. inv_bind H. inversion H. eauto.
  - unfold Request_from_message in H. inv_bind H. inversion H. eauto.
  - unfold Request_from_sequence in H.
    destruct (negb (length seq =? 9)%nat); [ discriminate |].
    inv_bind H. inversion H. eauto.
  - unfold Request_from_bytes in H. inv_bind H. inversion H. eauto.
Qed.

(** C7: every Request, whichever constructor made it (direct construction,
    from_message, from_sequence, from_bytes), has the WANT_A_REPLY flag
    set, whatever flags were given or found in the source. *)
Theorem Request_has_WANT_A_REPLY (P : platform) (r : Message) :
  Request_built P r ->
  Z.land (Message_flags r) WANT_A_REPLY = WANT_A_REPLY /\
  is_request r = true.
Proof.
  intros H. apply Request_built_want_reply in H. destruct H as [m ->].
  pose proof (set_want_reply_true_flags m) as Hf.
  split; [ exact Hf |].
  unfold is_request. unfold Message_flags in Hf. rewrite Hf. reflexivity.
Qed.

Lemma Request_has_WANT_A_REPLY_witness :
  exists r,
    Request_init Fred (PStr (b "1234")) PNone PNone PNone (PInt 2) PNone = Ok r /\
    Z.land (Message_flags r) WANT_A_REPLY = WANT_A_REPLY /\
    is_request r = true.
Proof.
  eexists. split; [ reflexivity |].
  apply (Request_has_WANT_A_REPLY le32).
  apply (Request_by_init le32 Fred (PStr (b "1234")) PNone PNone PNone
                         (PInt 2) PNone).
  reflexivity.
Defined.

(** ** Reply *)

Lemma Reply_built_required (P : platform) (r : Message) :
  Reply_built P r -> exists m, require_in_reply_to m = Ok r.
Proof.
  intros [name data to from_ orig_from in_reply_to flags id r' H
         | msg0 data to from_ orig_from in_reply_to flags id r' H
         | seq data to from_ orig_from in_reply_to flags id r' H
         | beyond arg r' H].
  - unfold Reply_init in H. inv_bind H. eauto.
  - unfold Reply_from_message in H. inv_bind H. eauto.
  - unfold Reply_from_sequence in H.
    destruct (negb (length seq =? 9)%nat); [ discriminate |].
    inv_bind H. eauto.
  - unfold Reply_from_bytes in H. inv_bind H. eauto.
Qed.

Lemma fails_require (r : result Message) :
  fails (bind r require_in_reply_to) <->
  fails r \/ exists m, r = Ok m /\ in_reply_to (hdr (msg m)) = unset_id.
Proof.
  rewrite bind_fails. apply or_iff_compat_l.
  split; intros (m & E & H); exists m; (split; [ exact E |]);
    apply require_in_reply_to_fails; exact H.
Qed.

(** C8, as the code has it: a Reply constructor first builds the message
    as the Message constructor of the same name does, and fails when that
    fails (a name that does not start [$.] or is shorter than 3, a sequence
    that has not 9 values, an argument of the wrong type, bytes too short
    or without the start guard); otherwise it fails exactly when the
    resulting [in_reply_to] is unset, that is (0,0).  Every Reply that is
    built has [in_reply_to] set, and a failed construction yields no
    Reply. *)
Theorem Reply_requires_in_reply_to (P : platform) :
  (forall r, Reply_built P r ->
     in_reply_to (hdr (msg r)) <> unset_id /\ Message_in_reply_to r <> PNone) /\
  (forall name data to from_ orig_from in_reply_to_ flags id,
     let built := Message_init CReply name data to from_ orig_from PNone
                               in_reply_to_ flags id in
     let reply := Reply_init name data to from_ orig_from in_reply_to_ flags id in
     (fails reply <->
      fails built \/
      exists m, built = Ok m /\ in_reply_to (hdr (msg m)) = unset_id) /\
     (fails reply -> ~ succeeds reply)) /\
  (forall msg0 data to from_ orig_from in_reply_to_ flags id,
     let built := _merge_args CReply (extract msg0) data to from_ orig_from
                              PNone in_reply_to_ flags id in
     let reply := Reply_from_message msg0 data to from_ orig_from in_reply_to_
                                     flags id in
     (fails reply <->
      fails built \/
      exists m, built = Ok m /\ in_reply_to (hdr (msg m)) = unset_id) /\
     (fails reply -> ~ succeeds reply)) /\
  (forall seq data to from_ orig_from in_reply_to_ flags id,
     let built := _merge_args CReply seq data to from_ orig_from
                              PNone in_reply_to_ flags id in
     let reply := Reply_from_sequence seq data to from_ orig_from in_reply_to_
                                      flags id in
     (fails reply <->
      length seq <> 9%nat \/ fails built \/
      exists m, built = Ok m /\ in_reply_to (hdr (msg m)) = unset_id) /\
     (fails reply -> ~ succeeds reply)) /\
  (forall beyond arg,
     let built := _entire_message_from_bytes P beyond arg in
     let reply := Reply_from_bytes P beyond arg in
     (fails reply <->
      fails built \/
      exists s, built = Ok s /\ in_reply_to (hdr s) = unset_id) /\
     (fails reply -> ~ succeeds reply)).
Proof.
  split; [| split; [| split; [| split ] ] ].
  - intros r H. apply Reply_built_required in H. destruct H as [m H].
    apply require_in_reply_to_Ok in H. tauto.
  - intros. split; [ apply fails_require | apply fails_not_succeeds ].
  - intros. split; [ apply fails_require | apply fails_not_succeeds ].
  - intros. split; [| apply fails_not_succeeds ].
    subst reply. unfold Reply_from_sequence.
    destruct (Nat.eqb_spec (length seq) 9) as [E | E]; simpl.
    + fold built. rewrite fails_require. tauto.
    + split; [ auto | intros _; eexists; reflexivity ].
  - intros. split; [| apply fails_not_succeeds ].
    subst reply built. unfold Reply_from_bytes.
    destruct (_entire_message_from_bytes P beyond arg) as [s | e]; simpl.
    + rewrite (require_in_reply_to_fails (mkMessage CReply s)). simpl.
      split.
      * intros H. right. exists s. auto.
      * intros [[e H] | (s' & E & H)]; [ discriminate |].
        inversion E; subst s'. exact H.
    + split; [ intros _; left |]; eexists; reflexivity.
Qed.

(** C8 as stated fails: [Reply('Fred', in_reply_to=MessageId(0, 5))] is
    given an [in_reply_to] that is set, and construction still fails, on
    the name. *)
Lemma Reply_fails_with_in_reply_to_set :
  Reply_init (PStr (b "Fred")) PNone PNone PNone PNone
             (PMessageId (mkMessageId 0 5)) PNone PNone
    = Raise (ValueError NameDoesNotStart) /\
  mkMessageId 0 5 <> unset_id /\
  exists r, Reply_init Fred PNone PNone PNone PNone
                       (PMessageId (mkMessageId 0 5)) PNone PNone = Ok r /\
            in_reply_to (hdr (msg r)) = mkMessageId 0 5.
Proof.
  split; [ reflexivity |]. split; [ discriminate |].
  eexists; split; reflexivity.
Qed.

Lemma Reply_requires_in_reply_to_witness :
  exists r,
    Reply_init Fred PNone (PInt 27) PNone PNone
               (PMessageId (mkMessageId 0 132)) PNone PNone = Ok r /\
    in_reply_to (hdr (msg r)) <> unset_id /\ Message_in_reply_to r <> PNone.
Proof.
  eexists. split; [ reflexivity |].
  apply (proj1 (Reply_requires_in_reply_to le32)).
  apply (Reply_by_init le32 Fred PNone (PInt 27) PNone PNone
                       (PMessageId (mkMessageId 0 132)) PNone PNone).
  reflexivity.
Defined.

(** ** The name check of the constructor *)

Lemma _from_data_name n data to from_ o f r flags i s :
  _from_data (PStr n) data to from_ o f r flags i = Ok s ->
  name_len (hdr s) = u32 (len n) /\ struct_name s = c_str n.
Proof.
  intros H. apply _from_data_Ok in H.
  destruct H as (n' & ip & rp & op & fp & En & _ & _ & _ & _ & _ & ->).
  inversion En; subst n'. simpl. split; [ reflexivity |].
  apply c_str_pad4_terminated.
Qed.

Lemma _from_data_no_arguments (n : bytes) :
  exists s, _from_data (PStr n) PNone PNone PNone PNone PNone PNone PNone PNone
            = Ok s /\
            _check s = if u32 (len n) <? 3 then Raise (ValueError NameTooShort)
                       else Ok tt.
Proof. eexists. split; reflexivity. Qed.

(** C9, as the code has it: [Message(name, ...)] checks two things about
    the name, that it starts with [$.] and that it is at least 3 long.
    Every Message it builds has a name that starts [$.] and a [name_len] of
    at least 3; construction fails for a name that does not start [$.] or
    is shorter than 3; and any name that passes these two checks is
    accepted, whatever its components, separators or characters. *)
Theorem Message_init_checks_prefix_and_length
    (cls : msg_class) (n : bytes)
    (data to from_ orig_from final_to in_reply_to_ flags id_ : pyval) :
  (forall m,
     Message_init cls (PStr n) data to from_ orig_from final_to in_reply_to_
                  flags id_ = Ok m ->
     startswith n dollar_dot = true /\
     name_len (hdr (msg m)) = u32 (len n) /\
     3 <= name_len (hdr (msg m)) /\
     startswith (Message_name m) dollar_dot = true) /\
  (startswith n dollar_dot = false ->
     Message_init cls (PStr n) data to from_ orig_from final_to in_reply_to_
                  flags id_ = Raise (ValueError NameDoesNotStart)) /\
  (u32 (len n) < 3 ->
     fails (Message_init cls (PStr n) data to from_ orig_from final_to
                         in_reply_to_ flags id_)) /\
  (startswith n dollar_dot = true -> 3 <= u32 (len n) ->
     succeeds (Message_init cls (PStr n) PNone PNone PNone PNone PNone PNone
                            PNone PNone)).
Proof.
  assert (Hinv : forall m,
     Message_init cls (PStr n) data to from_ orig_from final_to in_reply_to_
                  flags id_ = Ok m ->
     startswith n dollar_dot = true /\
     name_len (hdr (msg m)) = u32 (len n) /\
     3 <= name_len (hdr (msg m)) /\
     struct_name (msg m) = c_str n).
  { intros m H. apply Message_init_Ok in H.
    destruct H as (n' & En & Hs & Hd & _ & H3). inversion En; subst n'.
    apply _from_data_name in Hd. tauto. }
  split; [| split; [| split ] ].
  - intros m H. destruct (Hinv m H) as (Hs & Hl & H3 & Hn).
    repeat split; auto.
    unfold Message_name. rewrite Hn.
    apply startswith_dollar_dot in Hs. destruct Hs as [rest ->].
    destruct (Z.to_nat (name_len (hdr (msg m)))) as [| [| k]] eqn:Ek;
      try lia.
    reflexivity.
  - intros Hs. unfold Message_init, py_startswith. cbn [bind].
    rewrite Hs. reflexivity.
  - intros Hlt.
    destruct (Message_init cls (PStr n) data to from_ orig_from final_to
                           in_reply_to_ flags id_) as [m | e] eqn:E.
    + destruct (Hinv m eq_refl) as (_ & Hl & H3 & _). lia.
    + exists e. reflexivity.
  - intros Hs H3. unfold succeeds, Message_init, py_startswith.
    cbn [bind]. rewrite Hs. cbn [negb].
    destruct (_from_data_no_arguments n) as (s & E1 & E2).
    rewrite E1. cbn [bind]. rewrite E2.
    destruct (Z.ltb_spec (u32 (len n)) 3); [ lia |].
    eexists; reflexivity.
Qed.

(** C9 as stated fails: [Message('$..')] is built, and its name has empty
    components and a trailing separator. *)
Lemma Message_accepts_empty_component :
  (exists m,
     Message_init CMessage (PStr (b "$..")) PNone PNone PNone PNone PNone
                  PNone PNone PNone = Ok m /\
     Message_name m = b "$..") /\
  name_well_formed (b "$..") = false /\
  name_invariant 1000 (b "$..") = false.
Proof.
  split; [ eexists; split; reflexivity | split; reflexivity ].
Qed.

Lemma Message_init_checks_prefix_and_length_witness :
  exists m,
    Message_init CMessage Fred (PStr (b "1234")) (PInt 9) PNone PNone PNone
                 PNone (PInt 1) PNone = Ok m /\
    startswith (b "$.Fred") dollar_dot = true /\
    name_len (hdr (msg m)) = u32 (len (b "$.Fred")) /\
    3 <= name_len (hdr (msg m)) /\
    startswith (Message_name m) dollar_dot = true.
Proof.
  eexists. split; [ reflexivity |].
  apply (proj1 (Message_init_checks_prefix_and_length CMessage (b "$.Fred")
                  (PStr (b "1234")) (PInt 9) PNone PNone PNone PNone (PInt 1)
                  PNone)).
  reflexivity.
Defined.

(** ** reply_to *)

Lemma len_Message_name (m : Message) :
  is_u32 (name_len (hdr (msg m))) ->
  len (Message_name m) <= name_len (hdr (msg m)) /\
  len (Message_name m) < 2 ^ 32.
Proof.
  intros [H0 H1].
  pose proof (len_firstn_le (name_len (hdr (msg m))) (struct_name (msg m)) H0).
  unfold Message_name. lia.
Qed.

Lemma id_pair_Message_id (m : Message) (p : Z * Z) :
  id_pair (Message_id m) = Ok p ->
  (Message_id m = PNone /\ p = (0, 0)) \/
  (Message_id m = PMessageId (id (hdr (msg m))) /\
   p = (network_id (id (hdr (msg m))), serial_num (id (hdr (msg m))))).
Proof.
  unfold Message_id.
  destruct ((network_id (id (hdr (msg m))) =? 0) &&
            (serial_num (id (hdr (msg m))) =? 0)); simpl;
    intros H; inversion H; auto.
Qed.

Lemma stored_data_string (data : pyval) :
  data = PNone \/ data = PInt 0 \/ (exists d, data = PStr d) ->
  len (str_or_empty data) < 2 ^ 32 ->
  (if u32 (len (str_or_empty data)) =? 0 then PNone
   else PStr (c_data_as_string (data_pointer data)
                               (u32 (len (str_or_empty data)))))
  = if truthy data then data else PNone.
Proof.
  intros [-> | [-> | [[| c d] ->]]] Hlen; try reflexivity.
  simpl str_or_empty in *. rewrite (u32_len_small _ Hlen).
  assert (Hpos : len (c :: d) <> 0) by (unfold len; simpl length; lia).
  destruct (Z.eqb_spec (len (c :: d)) 0) as [E | _]; [ contradiction |].
  cbn [truthy data_pointer c_data_as_string].
  rewrite to_nat_len, firstn_pad4. reflexivity.
Qed.

Lemma reply_to_Ok (original : Message) (data flags : pyval) (r : Message) :
  reply_to original data flags = Ok r ->
  Z.land (Message_flags original) both_reply_flags = both_reply_flags /\
  Message_init CReply (PStr (Message_name original)) data
               (PInt (Message_from_ original)) PNone PNone PNone
               (Message_id original) flags PNone = Ok r /\
  in_reply_to (hdr (msg r)) <> unset_id.
Proof.
  unfold reply_to. intros H.
  destruct (Z.eqb_spec (Z.land (Message_flags original) both_reply_flags)
                       both_reply_flags) as [Ef | Ef];
    cbn [negb] in H; [| discriminate ].
  unfold Reply_init in H. inv_bind H.
  apply require_in_reply_to_Ok in H. destruct H as (-> & Hset & _).
  auto.
Qed.

Lemma _from_data_of_reply_succeeds (n : bytes) (data : pyval) (to_id : Z)
    (flags_arg i : pyval) :
  data = PNone \/ (exists s, data = PStr s) ->
  flags_arg = PNone \/ (exists z, flags_arg = PInt z) ->
  i = PNone \/ (exists x, i = PMessageId x) ->
  succeeds (_from_data (PStr n) data (PInt to_id) PNone PNone PNone i
                       flags_arg PNone).
Proof.
  intros [-> | [[| c s] ->]] [-> | [z ->]] [-> | [x ->]];
    destruct to_id as [| p | p]; try destruct z as [| q | q];
    eexists; reflexivity.
Qed.

(** What [reply_to] does, check by check, for [data] that is [None] or a
    string and [flags] that is [None] or an integer. *)
Lemma reply_to_outcome (original : Message) (data flags_arg : pyval) :
  header_in_range (hdr (msg original)) ->
  data = PNone \/ (exists s, data = PStr s) ->
  flags_arg = PNone \/ (exists z, flags_arg = PInt z) ->
  exists r,
    reply_to original data flags_arg
    = if negb (Z.land (Message_flags original) both_reply_flags
               =? both_reply_flags)
      then Raise (ValueError CannotReply)
      else if negb (startswith (Message_name original) dollar_dot)
      then Raise (ValueError NameDoesNotStart)
      else if len (Message_name original) <? 3
      then Raise (ValueError NameTooShort)
      else if is_None (Message_id original)
      then Raise (ValueError ReplyNeedsInReplyTo)
      else Ok r.
Proof.
  intros Hrange Hdata Hflags. unfold reply_to.
  destruct (negb (Z.land (Message_flags original) both_reply_flags
                  =? both_reply_flags));
    [ exists original; reflexivity |].
  unfold Reply_init, Message_init, py_startswith. cbn [bind].
  destruct (startswith (Message_name original) dollar_dot) eqn:Es;
    cbn [negb]; [| exists original; reflexivity ].
  assert (Hid : Message_id original = PNone \/
                exists x, Message_id original = PMessageId x).
  { unfold Message_id. destruct (_ && _); eauto. }
  destruct (_from_data_of_reply_succeeds (Message_name original) data
              (Message_from_ original) flags_arg (Message_id original)
              Hdata Hflags Hid) as [s Hs].
  rewrite Hs. cbn [bind].
  rewrite (_check_from_data _ _ _ _ _ _ _ _ _ _ Hs).
  destruct (_from_data_name _ _ _ _ _ _ _ _ _ _ Hs) as [Hnl _].
  pose proof Hrange as (_ & Hi1 & Hi2 & _ & _ & _ & _ & _ & _ & _ & _ &
                        _ & _ & Hnr & _).
  destruct (len_Message_name original Hnr) as [_ Hlen].
  rewrite Hnl, (u32_len_small _ Hlen).
  destruct (len (Message_name original) <? 3);
    [ exists original; reflexivity |].
  cbn [bind].
  apply _from_data_Ok in Hs.
  destruct Hs as (n' & ip & rp & op & fp & _ & _ & Hrp & _ & _ & _ & Hm).
  destruct (require_in_reply_to_cases (mkMessage CReply s)) as [Hu Hset].
  cbn [msg] in Hu, Hset.
  assert (Hir : in_reply_to (hdr s) = id (hdr (msg original))).
  { rewrite Hm. cbn [hdr in_reply_to].
    apply id_pair_Message_id in Hrp.
    destruct Hrp as [[Hnone ->] | [_ ->]]; cbn [fst snd].
    - unfold Message_id in Hnone.
      destruct (id (hdr (msg original))) as [a c].
      cbn [network_id serial_num] in Hnone.
      destruct (Z.eqb_spec a 0) as [Ha |]; [| discriminate ].
      destruct (Z.eqb_spec c 0) as [Hc |]; [| discriminate ].
      rewrite Ha, Hc. reflexivity.
    - rewrite (u32_small _ Hi1), (u32_small _ Hi2).
      destruct (id (hdr (msg original))); reflexivity. }
  unfold Message_id.
  destruct (id (hdr (msg original))) as [a c] eqn:Eid; cbn [network_id serial_num].
  destruct (Z.eqb_spec a 0) as [-> | Ha]; cbn [andb];
    [ destruct (Z.eqb_spec c 0) as [-> | Hc] |]; cbn [is_None].
  - exists original. apply Hu. rewrite Hir. reflexivity.
  - exists (mkMessage CReply s). apply Hset. rewrite Hir.
    unfold unset_id. congruence.
  - exists (mkMessage CReply s). apply Hset. rewrite Hir.
    unfold unset_id. congruence.
Qed.

(** C10, as the code has it: [reply_to] raises when [original] lacks
    WANT_A_REPLY or WANT_YOU_TO_REPLY, and it raises as well when
    [original] has no id (a Reply must have its [in_reply_to] set) or has a
    name the Message constructor refuses (one that does not start [$.] or
    is shorter than 3).  For [data] that is [None] or a string and [flags]
    that is [None] or an integer these are the only cases: it raises
    exactly then, and returns a Reply otherwise.  When it succeeds, the
    Reply has the name of [original], [to] equal to its [from_],
    [in_reply_to] equal to its id, the flags argument as its flags and the
    data argument as its data (an empty string reads back as no data);
    nothing else is taken from [original]. *)
Theorem reply_to_spec (original : Message) (data flags : pyval) :
  header_in_range (hdr (msg original)) ->
  (Z.land (Message_flags original) both_reply_flags <> both_reply_flags ->
   reply_to original data flags = Raise (ValueError CannotReply)) /\
  (Message_id original = PNone -> fails (reply_to original data flags)) /\
  (forall r, reply_to original data flags = Ok r ->
     Z.land (Message_flags original) both_reply_flags = both_reply_flags /\
     Message_id original <> PNone /\
     startswith (Message_name original) dollar_dot = true /\
     3 <= len (Message_name original) /\
     class_of r = CReply /\
     Message_name r = Message_name original /\
     Message_to r = Message_from_ original /\
     Message_in_reply_to r = Message_id original /\
     Message_flags r = stored_int flags /\
     Message_from_ r = 0 /\ Message_id r = PNone /\
     Message_orig_from r = PNone /\ Message_final_to r = PNone /\
     (len (str_or_empty data) < 2 ^ 32 ->
      Message_data r = if truthy data then data else PNone)) /\
  (data = PNone \/ (exists s, data = PStr s) ->
   flags = PNone \/ (exists z, flags = PInt z) ->
   (fails (reply_to original data flags) <->
    Z.land (Message_flags original) both_reply_flags <> both_reply_flags \/
    Message_id original = PNone \/
    startswith (Message_name original) dollar_dot = false \/
    len (Message_name original) < 3) /\
   (Z.land (Message_flags original) both_reply_flags = both_reply_flags ->
    Message_id original <> PNone ->
    startswith (Message_name original) dollar_dot = true ->
    3 <= len (Message_name original) ->
    succeeds (reply_to original data flags)) /\
   (Z.land (Message_flags original) both_reply_flags = both_reply_flags ->
    startswith (Message_name original) dollar_dot = false ->
    reply_to original data flags = Raise (ValueError NameDoesNotStart)) /\
   (Z.land (Message_flags original) both_reply_flags = both_reply_flags ->
    startswith (Message_name original) dollar_dot = true ->
    len (Message_name original) < 3 ->
    reply_to original data flags = Raise (ValueError NameTooShort)) /\
   (Z.land (Message_flags original) both_reply_flags = both_reply_flags ->
    startswith (Message_name original) dollar_dot = true ->
    3 <= len (Message_name original) ->
    Message_id original = PNone ->
    reply_to original data flags
    = Raise (ValueError ReplyNeedsInReplyTo))).
Proof.
  intros Hrange.
  assert (Hok : forall r, reply_to original data flags = Ok r ->
     Z.land (Message_flags original) both_reply_flags = both_reply_flags /\
     Message_id original <> PNone /\
     startswith (Message_name original) dollar_dot = true /\
     3 <= len (Message_name original) /\
     class_of r = CReply /\
     Message_name r = Message_name original /\
     Message_to r = Message_from_ original /\
     Message_in_reply_to r = Message_id original /\
     Message_flags r = stored_int flags /\
     Message_from_ r = 0 /\ Message_id r = PNone /\
     Message_orig_from r = PNone /\ Message_final_to r = PNone /\
     (len (str_or_empty data) < 2 ^ 32 ->
      Message_data r = if truthy data then data else PNone)).
  { intros r H. apply reply_to_Ok in H. destruct H as (Ef & Hinit & Hset).
    apply Message_init_Ok in Hinit.
    destruct Hinit as (n & En & Hs & Hd & Hc & H3).
    inversion En; subst n; clear En.
    apply _from_data_Ok in Hd.
    destruct Hd as (n & ip & rp & op & fp & En & Hip & Hrp & Hop & Hfp & Hdat & Hm).
    inversion En; subst n; clear En.
    simpl in Hip, Hop, Hfp. inversion Hip; subst ip. inversion Hop; subst op.
    inversion Hfp; subst fp. clear Hip Hop Hfp.
    destruct Hrange as (_ & Hi1 & Hi2 & _ & _ & _ & Hfrom & _ & _ & _ & _ &
                        _ & _ & Hnl & _).
    destruct (len_Message_name original Hnl) as [_ Hlen].
    destruct r as [cls s]. simpl in Hm, Hc, H3, Hset. subst s cls.
    simpl in H3, Hset. rewrite (u32_len_small _ Hlen) in H3.
    apply id_pair_Message_id in Hrp.
    destruct Hrp as [[Hid ->] | [Hid ->]].
    { exfalso. apply Hset. reflexivity. }
    simpl fst in *. simpl snd in *.
    rewrite (u32_small _ Hi1), (u32_small _ Hi2) in Hset.
    assert (Hnz : (network_id (id (hdr (msg original))) =? 0) &&
                  (serial_num (id (hdr (msg original))) =? 0) = false).
    { destruct (id (hdr (msg original))) as [a c]; simpl in *.
      destruct (Z.eqb_spec a 0) as [-> |]; [| reflexivity ].
      destruct (Z.eqb_spec c 0) as [-> |]; [| reflexivity ].
      exfalso. apply Hset. reflexivity. }
    split; [ exact Ef |].
    split; [ rewrite Hid; discriminate |].
    split; [ exact Hs |].
    split; [ exact H3 |].
    split; [ reflexivity |].
    split.
    { unfold Message_name at 1. simpl.
      rewrite c_str_pad4_terminated, (u32_len_small _ Hlen), to_nat_len.
      rewrite (c_str_id _ (Message_name_nul_free original)).
      apply firstn_all. }
    split; [ unfold Message_to; simpl; apply u32_small; exact Hfrom |].
    split.
    { unfold Message_in_reply_to. simpl.
      rewrite (u32_small _ Hi1), (u32_small _ Hi2), Hnz, Hid.
      destruct (id (hdr (msg original))); reflexivity. }
    split; [ reflexivity |].
    split; [ reflexivity |].
    split; [ reflexivity |].
    split; [ reflexivity |].
    split; [ reflexivity |].
    intros Hdl. unfold Message_data. simpl.
    apply stored_data_string; assumption. }
  assert (Hflags : Z.land (Message_flags original) both_reply_flags
                   <> both_reply_flags ->
                   reply_to original data flags
                   = Raise (ValueError CannotReply)).
  { intros Hf. unfold reply_to.
    destruct (Z.eqb_spec (Z.land (Message_flags original) both_reply_flags)
                         both_reply_flags); [ contradiction | reflexivity ]. }
  assert (Hnoid : Message_id original = PNone ->
                  fails (reply_to original data flags)).
  { intros Hid.
    destruct (reply_to original data flags) as [r | e] eqn:E.
    + destruct (Hok r eq_refl) as (_ & Hn & _). contradiction.
    + exists e. reflexivity. }
  split; [ exact Hflags |]. split; [ exact Hnoid |]. split; [ exact Hok |].
  intros Hdata Hfl.
  destruct (reply_to_outcome original data flags Hrange Hdata Hfl)
    as [r0 Hout].
  assert (Hfail : forall e, reply_to original data flags = Raise e ->
                            fails (reply_to original data flags))
    by (intros e He; exists e; exact He).
  destruct (Z.eqb_spec (Z.land (Message_flags original) both_reply_flags)
                       both_reply_flags) as [Eb | Eb]; cbn [negb] in Hout.
  2: { split; [ split; [ intros _; left; exact Eb
                       | intros _; exact (Hfail _ Hout) ] |].
       repeat split; intros; contradiction. }
  destruct (startswith (Message_name original) dollar_dot) eqn:Es;
    cbn [negb] in Hout.
  2: { split; [ split; [ intros _; right; right; left; reflexivity
                       | intros _; exact (Hfail _ Hout) ] |].
       repeat split; intros; first [ exact Hout | discriminate ]. }
  destruct (Z.ltb_spec (len (Message_name original)) 3) as [Hshort | Hlong].
  { split; [ split; [ intros _; right; right; right; exact Hshort
                    | intros _; exact (Hfail _ Hout) ] |].
    repeat split; intros; first [ exact Hout | discriminate | lia ]. }
  destruct (Message_id original) eqn:Eid; cbn [is_None] in Hout.
  1: { split; [ split; [ intros _; right; left; reflexivity
                       | intros _; exact (Hfail _ Hout) ] |].
       repeat split; intros;
         first [ exact Hout | discriminate | lia | congruence ]. }
  all: split;
    [ split;
      [ intros Hf; exfalso;
        apply (fails_not_succeeds _ Hf); exists r0; exact Hout
      | intros [H | [H | [H | H]]];
        [ contradiction | discriminate | discriminate | lia ] ]
    | repeat split; intros;
      first [ exists r0; exact Hout | discriminate | lia ] ].
Qed.

(** C10 as stated fails: [Message('$.Fred', flags=3)] has both flags set
    and no id, and [reply_to] raises on it. *)
Lemma reply_to_raises_without_id :
  exists original,
    Message_init CMessage Fred PNone PNone (PInt 27) PNone PNone PNone
                 (PInt 3) PNone = Ok original /\
    Z.land (Message_flags original) both_reply_flags = both_reply_flags /\
    reply_to original PNone (PInt 0) = Raise (ValueError ReplyNeedsInReplyTo).
Proof. eexists. split; [ reflexivity | split; reflexivity ]. Qed.

Lemma request_Fred_in_range : header_in_range (hdr (msg request_Fred)).
Proof.
  unfold header_in_range, is_u32.
  repeat match goal with |- _ /\ _ => split end;
    first [ apply Z.leb_le; reflexivity | apply Z.ltb_lt; reflexivity ].
Defined.

Lemma reply_to_spec_witness :
  exists r,
    reply_to request_Fred (PStr (b "1234")) (PInt 256) = Ok r /\
    Message_name r = Message_name request_Fred /\
    Message_to r = Message_from_ request_Fred /\
    Message_in_reply_to r = Message_id request_Fred /\
    Message_flags r = 256 /\
    Message_data r = PStr (b "1234").
Proof.
  eexists. split; [ reflexivity |].
  destruct (proj1 (proj2 (proj2 (reply_to_spec request_Fred (PStr (b "1234"))
                                   (PInt 256) request_Fred_in_range)))
              _ eq_refl)
    as (_ & _ & _ & _ & _ & Hn & Ht & Hi & Hf & _ & _ & _ & _ & Hd).
  split; [ exact Hn |]. split; [ exact Ht |]. split; [ exact Hi |].
  split; [ exact Hf |].
  apply Hd. reflexivity.
Defined.

(** ** Encoding and decoding *)

Lemma truthy_len (n : bytes) : (if truthy (PStr n) then len n else 0) = len n.
Proof. destruct n; reflexivity. Qed.

Lemma calc_padded_name_len_nonneg (n : Z) : 0 <= n -> 0 <= calc_padded_name_len n.
Proof. unfold calc_padded_name_len. intros H. Z.div_mod_to_equations. lia. Qed.

Lemma calc_padded_data_len_nonneg (n : Z) : 0 <= n -> 0 <= calc_padded_data_len n.
Proof. unfold calc_padded_data_len. intros H. Z.div_mod_to_equations. lia. Qed.

Lemma header_in_range_lengths (h : header) :
  header_in_range h -> 0 <= name_len h /\ 0 <= data_len h.
Proof.
  intros (_ & _ & _ & _ & _ & _ & _ & _ & _ & _ & _ & _ & _ & Hn & Hd & _).
  unfold is_u32 in *. lia.
Qed.

(** The bytes of a well-formed message are the layout of its entire
    structure up to the end guard, without the padding that may follow. *)
Lemma to_bytes_well_formed (P : platform) (m : Message) :
  well_formed (msg m) ->
  exists rn,
    entire_of m = Entire (fresh_header (hdr (msg m))) rn
                         (pad4 (data_string (msg m))) END_GUARD /\
    length rn = Z.to_nat (calc_padded_name_len (name_len (hdr (msg m)))) /\
    c_str rn = struct_name (msg m) /\
    to_bytes P m = header_bytes P (fresh_header (hdr (msg m))) ++ rn ++
                   pad4 (data_string (msg m)) ++ u32_bytes P END_GUARD /\
    len (to_bytes P m) = total_length P m.
Proof.
  intros Hwf.
  destruct (entire_of_well_formed m Hwf) as (rn & Hent & Hlrn & Hcrn).
  destruct (well_formed_name m Hwf) as [_ Hnl].
  destruct (well_formed_data m Hwf) as (Hdl & Hds & Hdt).
  destruct (header_in_range_lengths _ (proj1 Hwf)) as [Hn0 Hd0].
  pose proof (calc_padded_name_len_nonneg _ Hn0) as Hpn.
  pose proof (calc_padded_data_len_nonneg _ Hd0) as Hpd.
  pose proof (MSG_HEADER_LEN_pos P) as Hpos.
  assert (Hlrd : length (pad4 (data_string (msg m)))
                 = Z.to_nat (calc_padded_data_len (data_len (hdr (msg m))))).
  { rewrite length_pad4, <- Hds, Hdl. reflexivity. }
  assert (Hbytes : to_bytes P m =
                   header_bytes P (fresh_header (hdr (msg m))) ++ rn ++
                   pad4 (data_string (msg m)) ++ u32_bytes P END_GUARD).
  { unfold to_bytes. cbv zeta.
    change (_entire_message_from_parts _ _ _ _ _ _ _ _ _) with (entire_of m).
    rewrite Hent, truthy_len, Hdt, Hnl. cbn [_struct_to_bytes]. cbv zeta.
    set (body := header_bytes P (fresh_header (hdr (msg m))) ++ rn ++
                 pad4 (data_string (msg m)) ++ u32_bytes P END_GUARD).
    replace (Z.to_nat (calc_entire_message_len P (name_len (hdr (msg m)))
                                               (data_len (hdr (msg m)))))
      with (length body); [ apply firstn_exact |].
    unfold body, calc_entire_message_len.
    rewrite !length_app, length_header_bytes, length_u32_bytes, Hlrn, Hlrd.
    lia. }
  exists rn. repeat split; auto.
  rewrite Hbytes. unfold len, total_length, calc_entire_message_len.
  rewrite !length_app, length_header_bytes, length_u32_bytes, Hlrn, Hlrd.
  lia.
Qed.

Lemma equivalent_entire_of (cls : msg_class) (m : Message) :
  well_formed (msg m) -> equivalent (mkMessage cls (entire_of m)) m = true.
Proof.
  intros Hwf.
  destruct (entire_of_well_formed m Hwf) as (rn & Hent & Hlrn & Hcrn).
  destruct (well_formed_name m Hwf) as [Hname Hnl].
  destruct (well_formed_data m Hwf) as (Hdl & Hds & _).
  destruct (header_in_range_lengths _ (proj1 Hwf)) as [Hn0 Hd0].
  unfold equivalent. apply equivalent_struct_iff. simpl msg. rewrite Hent.
  cbn [hdr fresh_header to name_len data_len].
  repeat split.
  - cbn [struct_name name_len fresh_header]. rewrite Hcrn.
    rewrite <- Hname. apply firstn_all2.
    unfold len in Hnl. lia.
  - unfold data_string at 1.
    cbn [struct_data hdr fresh_header data_len].
    destruct (Z.eqb_spec (data_len (hdr (msg m))) 0) as [E | E].
    + unfold data_string. rewrite E, !c_data_as_string_0. reflexivity.
    + cbn [c_data_as_string]. rewrite firstn_firstn, Nat.min_id.
      rewrite <- Hdl at 1. rewrite Hds, to_nat_len. apply firstn_pad4.
Qed.

(** Decoding the bytes of a well-formed message gives back its entire
    structure. *)
Lemma from_bytes_to_bytes (P : platform) (beyond : nat -> ascii) (m : Message) :
  well_formed (msg m) ->
  Message_from_bytes P beyond (to_bytes P m)
  = Ok (mkMessage CMessage (entire_of m)).
Proof.
  intros Hwf.
  destruct (to_bytes_well_formed P m Hwf) as (rn & Hent & Hlrn & _ & Hb & _).
  destruct (well_formed_data m Hwf) as (Hdl & Hds & _).
  unfold Message_from_bytes. rewrite Hb, Hent.
  rewrite decode_entire_bytes; [ reflexivity | | | | | ].
  - apply fresh_header_in_range, Hwf.
  - reflexivity.
  - apply in_range_END_GUARD.
  - exact Hlrn.
  - cbn [fresh_header data_len]. rewrite length_pad4, <- Hds, Hdl. reflexivity.
Qed.

Lemma stored_int_range (v : pyval) : is_u32 (stored_int v).
Proof.
  destruct v; simpl; try apply u32_range; unfold is_u32; lia.
Qed.

Lemma Message_init_well_formed cls n data to from_ o f r flags i m :
  Message_init cls (PStr n) data to from_ o f r flags i = Ok m ->
  ~ In NUL n -> len n < 2 ^ 32 -> len (str_or_empty data) < 2 ^ 32 ->
  well_formed (msg m) /\
  name_len (hdr (msg m)) = len n /\
  data_len (hdr (msg m)) = len (str_or_empty data).
Proof.
  intros H Hnf Hln Hld. apply Message_init_Ok in H.
  destruct H as (n' & En & _ & Hd & _ & _). inversion En; subst n'; clear En.
  apply _from_data_Ok in Hd.
  destruct Hd as (n' & ip & rp & op & fp & En & _ & _ & _ & _ & Hdat & Hm).
  inversion En; subst n'; clear En.
  rewrite Hm. cbn [hdr name_len data_len].
  rewrite (u32_len_small _ Hln), (u32_len_small _ Hld).
  split; [| split; reflexivity ].
  unfold well_formed. cbn [hdr name_len data_len struct_name struct_data].
  split; [| split ].
  - unfold header_in_range; simpl.
    repeat split; try apply u32_range; try apply stored_int_range;
      try apply in_range_START_GUARD; try apply in_range_END_GUARD;
      try apply len_nonneg; try assumption; unfold is_u32; lia.
  - rewrite c_str_pad4_terminated, (c_str_id n Hnf). reflexivity.
  - destruct Hdat as [-> | [-> | [[| c d] ->]]]; try (left; reflexivity).
    right. exists (pad4 (c :: d)). split; [ reflexivity |].
    simpl str_or_empty. rewrite len_pad4.
    pose proof (len_nonneg (c :: d)). Z.div_mod_to_equations. lia.
Qed.

(** C1: for a Message built from a name without NUL bytes (as every valid
    name is) and optional data, both short enough for their 32-bit length
    fields, decoding its encoding succeeds and gives a message equivalent
    to it, and the encoding is exactly [total_length] long, which is
    [calc_entire_message_len] of the length of the name and of the data. *)
Theorem decode_encode_equivalent (P : platform) (beyond : nat -> ascii)
    (cls : msg_class) (n : bytes)
    (data to from_ orig_from final_to in_reply_to_ flags id_ : pyval)
    (m : Message) :
  Message_init cls (PStr n) data to from_ orig_from final_to in_reply_to_
               flags id_ = Ok m ->
  ~ In NUL n -> len n < 2 ^ 32 -> len (str_or_empty data) < 2 ^ 32 ->
  (exists m', Message_from_bytes P beyond (to_bytes P m) = Ok m' /\
              equivalent m' m = true) /\
  len (to_bytes P m) = total_length P m /\
  len (to_bytes P m)
  = calc_entire_message_len P (len n) (len (str_or_empty data)).
Proof.
  intros H Hnf Hln Hld.
  destruct (Message_init_well_formed _ _ _ _ _ _ _ _ _ _ _ H Hnf Hln Hld)
    as (Hwf & Hnl & Hdl).
  destruct (to_bytes_well_formed P m Hwf) as (_ & _ & _ & _ & _ & Hlen).
  split; [| split ].
  - exists (mkMessage CMessage (entire_of m)).
    split; [ apply from_bytes_to_bytes; exact Hwf
           | apply equivalent_entire_of; exact Hwf ].
  - exact Hlen.
  - rewrite Hlen. unfold total_length. rewrite Hnl, Hdl. reflexivity.
Qed.

Lemma decode_encode_equivalent_witness :
  exists m,
    Message_init CMessage Fred (PStr (b "1234")) PNone PNone PNone PNone
                 PNone PNone PNone = Ok m /\
    (exists m', Message_from_bytes le64 no_memory (to_bytes le64 m) = Ok m' /\
                equivalent m' m = true) /\
    len (to_bytes le64 m) = total_length le64 m /\
    len (to_bytes le64 m)
    = calc_entire_message_len le64 (len (b "$.Fred"))
                              (len (str_or_empty (PStr (b "1234")))).
Proof.
  eexists. split; [ reflexivity |].
  apply (decode_encode_equivalent le64 no_memory CMessage (b "$.Fred")
           (PStr (b "1234")) PNone PNone PNone PNone PNone PNone PNone).
  - reflexivity.
  - simpl. intros H. repeat (destruct H as [H | H]; [ discriminate H |]).
    exact H.
  - reflexivity.
  - reflexivity.
Defined.

(** ** When decoding fails *)

Lemma MSG_HEADER_LEN_at_least_4 (P : platform) : 4 <= MSG_HEADER_LEN P.
Proof. rewrite MSG_HEADER_LEN_value. destruct (bits64 P); lia. Qed.

Lemma struct_unpack_L_firstn_4 (P : platform) (data : bytes) :
  4 <= len data ->
  struct_unpack_L P (firstn 4 data) = Ok (u32_of_bytes P (firstn 4 data)).
Proof.
  unfold len. intros H.
  destruct data as [| c0 [| c1 [| c2 [| c3 rest]]]]; simpl in H; try lia.
  reflexivity.
Qed.

Lemma _entire_message_from_bytes_cases (P : platform) (beyond : nat -> ascii)
    (data : bytes) :
  (len data < MSG_HEADER_LEN P ->
   _entire_message_from_bytes P beyond data = Raise (ValueError StringTooShort)) /\
  (MSG_HEADER_LEN P <= len data ->
   u32_of_bytes P (firstn 4 data) <> START_GUARD ->
   _entire_message_from_bytes P beyond data = Raise (ValueError NoStartGuard)).
Proof.
  pose proof (MSG_HEADER_LEN_at_least_4 P) as H4.
  unfold _entire_message_from_bytes.
  destruct (Z.ltb_spec (len data) (MSG_HEADER_LEN P)) as [Hlt | Hge].
  - split; [ reflexivity | intros; lia ].
  - rewrite struct_unpack_L_firstn_4 by lia. cbn [bind].
    destruct (Z.eqb_spec (u32_of_bytes P (firstn 4 data)) START_GUARD)
      as [Eg | Eg]; cbn [negb].
    + split; [ intros; lia | intros; contradiction ].
    + split; [ intros; lia | reflexivity ].
Qed.

Lemma from_bytes_ignores_end_guards :
  exists m,
    Message_from_bytes le32 no_memory bytes_without_end_guards = Ok m /\
    end_guard (hdr (msg m)) = 0 /\ Message_name m = b "$.Fred".
Proof. eexists. split; [ reflexivity | split; reflexivity ]. Qed.

(** ** Valid names have no NUL byte *)

Lemma split_dots_nonempty (s : bytes) : split_dots s <> [].
Proof.
  induction s as [| c s IH]; simpl; [ discriminate |].
  destruct (Ascii.eqb c "."%char); [ discriminate |].
  destruct (split_dots s); discriminate.
Qed.

Lemma in_split_dots (s : bytes) (c : ascii) :
  In c s -> c = "."%char \/ exists comp, In comp (split_dots s) /\ In c comp.
Proof.
  induction s as [| x s IH]; simpl; [ tauto |].
  intros [-> | Hin].
  - destruct (Ascii.eqb_spec c "."%char) as [E | E]; [ left; exact E |].
    right. destruct (split_dots s) as [| comp comps].
    + exists [c]. split; left; reflexivity.
    + exists (c :: comp). split; left; reflexivity.
  - destruct (IH Hin) as [E | (comp & Hc & Hin')]; [ left; exact E |].
    right. destruct (Ascii.eqb x "."%char).
    + exists comp. split; [ right; exact Hc | exact Hin' ].
    + destruct (split_dots s) as [| comp0 comps]; [ contradiction |].
      destruct Hc as [<- | Hc].
      * exists (x :: comp0). split; [ left; reflexivity | right; exact Hin' ].
      * exists comp. split; [ right; exact Hc | exact Hin' ].
Qed.

Lemma final_component_nul_free (c : bytes) :
  final_component_ok c = true -> ~ In NUL c.
Proof.
  unfold final_component_ok. rewrite !orb_true_iff, !bytes_eqb_eq.
  intros [[H | ->] | ->] Hin.
  - rewrite forallb_forall in H. apply H in Hin. discriminate.
  - destruct Hin as [E | []]; discriminate.
  - destruct Hin as [E | []]; discriminate.
Qed.

Lemma name_well_formed_nul_free (name : bytes) :
  name_well_formed name = true -> ~ In NUL name.
Proof.
  unfold name_well_formed. rewrite !andb_true_iff.
  intros (Hs & (_ & Hinit) & Hlast) Hin.
  apply startswith_dollar_dot in Hs. destruct Hs as [rest ->].
  simpl skipn in *.
  destruct Hin as [E | [E | Hin]]; try discriminate.
  apply in_split_dots in Hin. destruct Hin as [E | (comp & Hc & Hin)];
    [ discriminate |].
  rewrite (app_removelast_last [] (split_dots_nonempty rest)) in Hc.
  apply in_app_or in Hc. destruct Hc as [Hc | [<- | []]].
  - rewrite forallb_forall in Hinit. apply Hinit in Hc.
    rewrite forallb_forall in Hc. apply Hc in Hin. discriminate.
  - exact (final_component_nul_free _ Hlast Hin).
Qed.

(** ** The doctests of the module *)

Example doctest_Message_round_trip :
  exists msg1 msg4,
    Message_init CMessage Fred (PStr (b "1234")) PNone PNone PNone PNone
                 PNone PNone PNone = Ok msg1 /\
    Message_from_bytes le32 no_memory (to_bytes le32 msg1) = Ok msg4 /\
    Message_eq msg4 msg1 = true /\
    firstn 4 (to_bytes le32 msg1) = b "Kbus".
Proof. do 2 eexists. repeat split; reflexivity. Qed.

Example doctest_Message_name :
  Message_init CMessage (PStr (b "Fred")) PNone PNone PNone PNone PNone PNone
               PNone PNone = Raise (ValueError NameDoesNotStart).
Proof. reflexivity. Qed.

Example doctest_from_bytes_short :
  exists msg1,
    Message_init CMessage Fred (PStr (b "1234")) PNone PNone PNone PNone
                 PNone PNone PNone = Ok msg1 /\
    Message_from_bytes le32 no_memory (firstn 8 (to_bytes le32 msg1))
    = Raise (ValueError StringTooShort) /\
    Message_from_bytes le32 no_memory (b "1234" ++ to_bytes le32 msg1)
    = Raise (ValueError NoStartGuard).
Proof. eexists. repeat split; reflexivity. Qed.

Example doctest_Request_from_message :
  exists msg1 msg2,
    Message_init CMessage Fred (PStr (b "12345678")) PNone PNone PNone PNone
                 PNone PNone PNone = Ok msg1 /\
    Request_from_message msg1 PNone PNone PNone PNone (PInt 2) PNone = Ok msg2 /\
    Message_flags msg2 = 3.
Proof. do 2 eexists. repeat split; reflexivity. Qed.

Example doctest_Announcement_from_message :
  exists msg ann,
    Message_init CMessage Fred (PStr (b "1234")) PNone PNone PNone PNone
                 (PMessageId (mkMessageId 1 2)) PNone PNone = Ok msg /\
    Announcement_from_message msg PNone PNone PNone PNone PNone = Ok ann /\
    Message_in_reply_to ann = PNone /\
    Message_data ann = PStr (b "1234").
Proof. do 2 eexists. repeat split; reflexivity. Qed.

Example doctest_Announcement_flags :
  exists msg1 msg2,
    Message_init CMessage Fred (PStr (b "12345678")) PNone PNone PNone PNone
                 PNone PNone PNone = Ok msg1 /\
    Announcement_from_message msg1 PNone PNone PNone (PInt 1) PNone = Ok msg2 /\
    Message_flags msg2 = 1.
Proof. do 2 eexists. repeat split; reflexivity. Qed.

Example doctest_Reply_from_message :
  exists msg reply,
    Message_init CMessage Fred (PStr (b "1234")) (PInt 99) (PInt 27) PNone
                 PNone PNone (PInt 1) (PMessageId (mkMessageId 0 132)) = Ok msg /\
    Reply_from_message msg PNone PNone PNone PNone PNone PNone PNone
    = Raise (ValueError ReplyNeedsInReplyTo) /\
    Reply_from_message msg PNone PNone PNone PNone
                       (PMessageId (mkMessageId 0 5)) PNone PNone = Ok reply /\
    Message_in_reply_to reply = PMessageId (mkMessageId 0 5) /\
    Message_flags reply = 1 /\ Message_to reply = 99.
Proof. do 2 eexists. repeat split; reflexivity. Qed.

Example doctest_reply_to :
  exists reply rep4,
    reply_to request_Fred PNone (PInt 0) = Ok reply /\
    Message_to reply = 27 /\
    Message_in_reply_to reply = PMessageId (mkMessageId 0 132) /\
    Message_data reply = PNone /\ Message_flags reply = 0 /\
    reply_to request_Fred (PStr (b "1234")) (PInt ALL_OR_WAIT) = Ok rep4 /\
    Message_data rep4 = PStr (b "1234") /\ Message_flags rep4 = 256.
Proof. do 2 eexists. repeat split; reflexivity. Qed.

Example doctest_MessageId :
  MessageId_lt (mkMessageId 1 2) (mkMessageId 2 2) = true /\
  MessageId_lt (mkMessageId 1 2) (mkMessageId 1 3) = true /\
  MessageId_eq (mkMessageId 1 2) (mkMessageId 1 2) = true /\
  MessageId_gt (mkMessageId 1 2) (mkMessageId 0 2) = true /\
  MessageId_gt (mkMessageId 1 2) (mkMessageId 1 1) = true.
Proof. repeat split; reflexivity. Qed.

Example request_Fred_built :
  Message_init CMessage Fred (PStr (b "1234")) (PInt 99) (PInt 27) PNone PNone
               PNone (PInt 3) (PMessageId (mkMessageId 0 132))
  = Ok request_Fred.
Proof. reflexivity. Qed.

Example reply_Fred_built :
  Message_init CMessage Fred PNone (PInt 9) (PInt 27)
               (POrigFrom (mkOrigFrom 3 4)) (POrigFrom (mkOrigFrom 5 6))
               (PMessageId (mkMessageId 1 2)) (PInt 3)
               (PMessageId (mkMessageId 0 7))
  = Ok reply_Fred.
Proof. reflexivity. Qed.

Example bytes_without_end_guards_differ :
  exists m,
    Message_init CMessage Fred PNone PNone PNone PNone PNone PNone PNone PNone
    = Ok m /\
    firstn 68 bytes_without_end_guards = firstn 68 (to_bytes le32 m) /\
    skipn 72 (firstn 80 bytes_without_end_guards)
    = skipn 72 (firstn 80 (to_bytes le32 m)) /\
    bytes_without_end_guards <> to_bytes le32 m.
Proof.
  eexists. split; [ reflexivity |]. split; [ reflexivity |].
  split; [ reflexivity | discriminate ].
Qed.

(** * Further properties of the module *)

(** ** OrigFrom and MessageId arithmetic *)

Lemma OrigFrom_cmp_range (a b : OrigFrom) :
  OrigFrom_cmp a b = -1 \/ OrigFrom_cmp a b = 0 \/ OrigFrom_cmp a b = 1.
Proof. unfold OrigFrom_cmp; cmp_cases; auto. Qed.

Lemma OrigFrom_lt_lex (a b : OrigFrom) :
  OrigFrom_lt a b = true <-> OrigFrom_lex_lt a b.
Proof.
  unfold OrigFrom_lt, OrigFrom_cmp, OrigFrom_lex_lt.
  destruct (Z.eqb_spec (of_network_id a) (of_network_id b));
    [ destruct (Z.eqb_spec (local_id a) (local_id b));
      [| destruct (Z.ltb_spec (local_id a) (local_id b)) ]
    | destruct (Z.ltb_spec (of_network_id a) (of_network_id b)) ];
    simpl; split; intros; try discriminate; try lia; auto.
Qed.

Lemma OrigFrom_eq_fields (a b : OrigFrom) : OrigFrom_eq a b = true <-> a = b.
Proof.
  unfold OrigFrom_eq, OrigFrom_cmp. destruct a as [an al], b as [bn bl]; simpl.
  destruct (Z.eqb_spec an bn);
    [ destruct (Z.eqb_spec al bl); [| destruct (Z.ltb_spec al bl) ]
    | destruct (Z.ltb_spec an bn) ];
    simpl; split; intros Hab; try discriminate; try congruence;
    inversion Hab; lia.
Qed.

(** X1: comparison of OrigFrom values is the lexicographic order on
    (network_id, local_id): exactly one of a<b, a==b, a>b holds, a==b
    means both fields agree, and a>b is b<a. *)
Theorem OrigFrom_total_order (a b : OrigFrom) :
  ((OrigFrom_lt a b = true /\ OrigFrom_eq a b = false /\ OrigFrom_gt a b = false) \/
   (OrigFrom_lt a b = false /\ OrigFrom_eq a b = true /\ OrigFrom_gt a b = false) \/
   (OrigFrom_lt a b = false /\ OrigFrom_eq a b = false /\ OrigFrom_gt a b = true)) /\
  (OrigFrom_lt a b = true <-> OrigFrom_lex_lt a b) /\
  (OrigFrom_eq a b = true <-> a = b) /\
  (OrigFrom_gt a b = true <-> OrigFrom_lex_lt b a).
Proof.
  split; [| split; [| split ] ].
  - unfold OrigFrom_lt, OrigFrom_eq, OrigFrom_gt. rewrite Z.gtb_ltb.
    destruct (OrigFrom_cmp_range a b) as [H | [H | H]]; rewrite H; simpl; auto.
  - apply OrigFrom_lt_lex.
  - apply OrigFrom_eq_fields.
  - unfold OrigFrom_gt, OrigFrom_lex_lt, OrigFrom_cmp. rewrite Z.gtb_ltb.
    destruct (Z.eqb_spec (of_network_id a) (of_network_id b));
      [ destruct (Z.eqb_spec (local_id a) (local_id b));
        [| destruct (Z.ltb_spec (local_id a) (local_id b)) ]
      | destruct (Z.ltb_spec (of_network_id a) (of_network_id b)) ];
      simpl; split; intros; try discriminate; try lia; auto.
Qed.

Lemma u32_wrap (z : Z) : 2 ^ 32 <= z < 2 ^ 33 -> u32 z = z - 2 ^ 32.
Proof.
  unfold u32. change (2 ^ 33) with 8589934592.
  change (2 ^ 32) with 4294967296. intros H.
  Z.div_mod_to_equations. lia.
Qed.

(** X2: adding an int to a MessageId keeps the network id and adds to the
    serial number modulo 2^32.  For 0 < n < 2^31 the new id is greater
    than the old one as long as the serial number does not pass 2^32, and
    smaller than the old one when it does; adding n and then k is adding
    n+k, for ints k and n+k. *)
Theorem MessageId_add_order (a : MessageId) (n : Z) :
  is_u32 (network_id a) -> is_u32 (serial_num a) -> 0 < n < 2 ^ 31 ->
  network_id (MessageId_add a n) = network_id a /\
  (serial_num a + n < 2 ^ 32 ->
   serial_num (MessageId_add a n) = serial_num a + n /\
   MessageId_lt a (MessageId_add a n) = true) /\
  (2 ^ 32 <= serial_num a + n ->
   serial_num (MessageId_add a n) = serial_num a + n - 2 ^ 32 /\
   MessageId_lt (MessageId_add a n) a = true) /\
  (forall k, - 2 ^ 31 <= k < 2 ^ 31 -> - 2 ^ 31 <= n + k < 2 ^ 31 ->
     MessageId_add (MessageId_add a n) k = MessageId_add a (n + k)).
Proof.
  intros Hn Hs Hpos. unfold MessageId_add; simpl.
  rewrite (u32_small _ Hn).
  split; [ reflexivity |]. split; [| split ].
  - intros Hlt.
    assert (E : u32 (serial_num a + n) = serial_num a + n)
      by (apply u32_small; unfold is_u32 in *; lia).
    split; [ exact E |].
    apply MessageId_lt_lex. unfold lex_lt; simpl. rewrite E. lia.
  - intros Hge.
    assert (E : u32 (serial_num a + n) = serial_num a + n - 2 ^ 32).
    { apply u32_wrap. unfold is_u32 in *.
      change (2 ^ 33) with (2 ^ 32 + 2 ^ 32).
      change (2 ^ 31) with 2147483648 in Hpos.
      change (2 ^ 32) with 4294967296 in *. lia. }
    split; [ exact E |].
    apply MessageId_lt_lex. unfold lex_lt; simpl. rewrite E.
    change (2 ^ 31) with 2147483648 in Hpos.
    change (2 ^ 32) with 4294967296 in *. unfold is_u32 in Hs.
    change (2 ^ 32) with 4294967296 in Hs. lia.
  - intros k _ _. f_equal.
    + apply u32_small, Hn.
    + unfold u32. rewrite Z.add_mod_idemp_l by discriminate.
      f_equal. lia.
Qed.

Lemma MessageId_add_order_witness :
  serial_num (MessageId_add (mkMessageId 1 2) 3) = 2 + 3 /\
  MessageId_lt (mkMessageId 1 2) (MessageId_add (mkMessageId 1 2) 3) = true.
Proof.
  apply (proj1 (proj2 (MessageId_add_order (mkMessageId 1 2) 3
                         ltac:(unfold is_u32; simpl; lia)
                         ltac:(unfold is_u32; simpl; lia)
                         ltac:(simpl; lia)))).
  reflexivity.
Defined.

(** ** Flags *)

Lemma land_pow2 (x k : Z) :
  0 <= k -> Z.land x (2 ^ k) = if Z.testbit x k then 2 ^ k else 0.
Proof.
  intros Hk. apply Z.bits_inj'. intros i Hi.
  rewrite Z.land_spec, Z.pow2_bits_eqb by exact Hk.
  destruct (Z.eqb_spec k i) as [<- | Hne].
  - destruct (Z.testbit x k); simpl.
    + rewrite Z.pow2_bits_eqb, Z.eqb_refl by exact Hk. reflexivity.
    + rewrite Z.bits_0. reflexivity.
  - rewrite andb_false_r.
    destruct (Z.testbit x k).
    + rewrite Z.pow2_bits_eqb by exact Hk.
      destruct (Z.eqb_spec k i); [ contradiction | reflexivity ].
    + rewrite Z.bits_0. reflexivity.
Qed.

Lemma land_pow2_eqb0 (x k : Z) :
  0 <= k -> (Z.land x (2 ^ k) =? 0) = negb (Z.testbit x k).
Proof.
  intros Hk. rewrite land_pow2 by exact Hk.
  destruct (Z.testbit x k); simpl; [| reflexivity ].
  apply Z.eqb_neq. pose proof (Z.pow_pos_nonneg 2 k). lia.
Qed.

(** Setting or clearing bit [k] of a flags word and storing the result. *)
Lemma stored_bit (f k : Z) (value : bool) (i : Z) :
  0 <= k < 32 -> 0 <= i < 32 ->
  Z.testbit (u32 (if value then _set_bit f (2 ^ k) else _clear_bit f (2 ^ k))) i
  = if i =? k then value else Z.testbit f i.
Proof.
  intros Hk Hi. unfold u32. rewrite Z.mod_pow2_bits_low by lia.
  destruct value.
  - unfold _set_bit. rewrite Z.lor_spec, Z.pow2_bits_eqb by lia.
    rewrite (Z.eqb_sym k i).
    destruct (Z.eqb_spec i k); [ apply orb_true_r | apply orb_false_r ].
  - unfold _clear_bit. rewrite land_pow2_eqb0 by lia.
    destruct (Z.testbit f k) eqn:Ek; simpl.
    + rewrite Z.land_spec, Z.lnot_spec, Z.pow2_bits_eqb by lia.
      rewrite (Z.eqb_sym k i).
      destruct (Z.eqb_spec i k); simpl;
        [ apply andb_false_r | apply andb_true_r ].
    + destruct (Z.eqb_spec i k) as [-> |]; [ exact Ek | reflexivity ].
Qed.

Lemma set_hdr_set_flags_others (v : Z) (s : msg_struct) :
  replace_ignored (id (hdr s)) (in_reply_to (hdr s)) (from_ (hdr s))
                  (orig_from (hdr s)) (final_to (hdr s)) (u32 v) (hdr s)
  = hdr (set_hdr (set_flags v) s) /\
  struct_name (set_hdr (set_flags v) s) = struct_name s /\
  struct_data (set_hdr (set_flags v) s) = struct_data s.
Proof. destruct s; simpl; repeat split; reflexivity. Qed.

(** X3: [set_urgent(value)] makes [is_urgent()] equal to [value] and
    [set_want_reply(value)] makes [is_request()] equal to [value]; each
    changes the one bit it names (bit 3, bit 0) among the 32 flag bits and
    leaves the name, the data and every other header field as they were. *)
Theorem set_flag_changes_one_bit (m : Message) (value : bool) :
  is_urgent (set_urgent value m) = value /\
  is_request (set_want_reply value m) = value /\
  (forall i, 0 <= i < 32 ->
     Z.testbit (Message_flags (set_urgent value m)) i
     = if i =? 3 then value else Z.testbit (Message_flags m) i) /\
  (forall i, 0 <= i < 32 ->
     Z.testbit (Message_flags (set_want_reply value m)) i
     = if i =? 0 then value else Z.testbit (Message_flags m) i) /\
  (forall m', m' = set_urgent value m \/ m' = set_want_reply value m ->
     class_of m' = class_of m /\
     Message_name m' = Message_name m /\ Message_data m' = Message_data m /\
     Message_id m' = Message_id m /\
     Message_in_reply_to m' = Message_in_reply_to m /\
     Message_to m' = Message_to m /\ Message_from_ m' = Message_from_ m /\
     Message_orig_from m' = Message_orig_from m /\
     Message_final_to m' = Message_final_to m).
Proof.
  assert (Hu : forall i, 0 <= i < 32 ->
     Z.testbit (Message_flags (set_urgent value m)) i
     = if i =? 3 then value else Z.testbit (Message_flags m) i).
  { intros i Hi. unfold Message_flags, set_urgent. cbn [msg].
    rewrite hdr_set_hdr. cbn [set_flags flags].
    apply (stored_bit _ 3 value i); lia. }
  assert (Hw : forall i, 0 <= i < 32 ->
     Z.testbit (Message_flags (set_want_reply value m)) i
     = if i =? 0 then value else Z.testbit (Message_flags m) i).
  { intros i Hi. unfold Message_flags, set_want_reply. cbn [msg].
    rewrite hdr_set_hdr. cbn [set_flags flags].
    apply (stored_bit _ 0 value i); lia. }
  split; [| split; [| split; [ exact Hu | split; [ exact Hw |] ] ] ].
  - unfold is_urgent. change URGENT with (2 ^ 3).
    rewrite land_pow2_eqb0 by lia. rewrite negb_involutive.
    apply (Hu 3). lia.
  - unfold is_request. change WANT_A_REPLY with (2 ^ 0).
    rewrite land_pow2_eqb0 by lia. rewrite negb_involutive.
    apply (Hw 0). lia.
  - intros m' [-> | ->]; destruct m as [cls [h n d | h rn rd g]];
      repeat split; reflexivity.
Qed.

Lemma set_flag_changes_one_bit_witness :
  Z.testbit (Message_flags (set_urgent true request_Fred)) 1
  = Z.testbit (Message_flags request_Fred) 1.
Proof.
  apply (proj1 (proj2 (proj2 (set_flag_changes_one_bit request_Fred true))) 1).
  lia.
Defined.

Lemma _merge_args_class cls e d t f o ft r fl i m :
  _merge_args cls e d t f o ft r fl i = Ok m -> class_of m = cls.
Proof.
  unfold _merge_args. intros H.
  do 10 (destruct e as [| ? e]; try discriminate).
  inv_bind H. inversion H. reflexivity.
Qed.

Lemma Request_built_class (P : platform) (r : Message) :
  Request_built P r ->
  exists m, r = set_want_reply true m /\ class_of m = CRequest.
Proof.
  intros [name data to from_ final_to flags id r' H
         | msg0 data to from_ final_to flags id r' H
         | seq data to from_ final_to flags id r' H
         | beyond arg r' H].
  - unfold Request_init in H. inv_bind H. inversion H; subst r'.
    exists x. split; [ reflexivity |].
    apply Message_init_Ok in E. destruct E as (n & _ & _ & _ & Hc & _).
    exact Hc.
  - unfold Request_from_message in H. inv_bind H. inversion H; subst r'.
    exists x. split; [ reflexivity |]. eapply _merge_args_class; eauto.
  - unfold Request_from_sequence in H.
    destruct (negb (length seq =? 9)%nat); [ discriminate |].
    inv_bind H. inversion H; subst r'.
    exists x. split; [ reflexivity |]. eapply _merge_args_class; eauto.
  - unfold Request_from_bytes in H. inv_bind H. inversion H.
    eexists. split; reflexivity.
Qed.

(** X4: a Request cannot lose WANT_A_REPLY through the methods of the
    class: [set_want_reply] raises TypeError on it, and any sequence of
    [set_urgent] calls leaves it a Request with WANT_A_REPLY set. *)
Theorem Request_stays_request (P : platform) (r : Message) (values : list bool) :
  Request_built P r ->
  (forall value, set_want_reply_method value r = Raise TypeError) /\
  is_request (fold_right set_urgent r values) = true /\
  class_of (fold_right set_urgent r values) = CRequest /\
  (forall value,
     set_want_reply_method value (fold_right set_urgent r values)
     = Raise TypeError).
Proof.
  intros Hb. destruct (Request_built_class P r Hb) as (m0 & -> & Hc0).
  set (r := set_want_reply true m0).
  assert (Hc : class_of r = CRequest) by exact Hc0.
  assert (Hreq : is_request r = true).
  { unfold is_request. fold (Message_flags r). unfold r.
    rewrite set_want_reply_true_flags. reflexivity. }
  assert (Hfold : is_request (fold_right set_urgent r values) = true /\
                  class_of (fold_right set_urgent r values) = CRequest).
  { induction values as [| v vs [IHr IHc]]; simpl; [ auto |].
    split; [| exact IHc ].
    unfold is_request in *. change WANT_A_REPLY with (2 ^ 0) in *.
    rewrite land_pow2_eqb0 in * by lia. rewrite negb_involutive in *.
    unfold set_urgent at 1. cbn [msg]. rewrite hdr_set_hdr.
    cbn [set_flags flags].
    rewrite (stored_bit _ 3 v 0) by lia. exact IHr. }
  destruct Hfold as [Hr Hcl].
  split; [ intros value; unfold set_want_reply_method; rewrite Hc; reflexivity |].
  split; [ exact Hr |]. split; [ exact Hcl |].
  intros value. unfold set_want_reply_method. rewrite Hcl. reflexivity.
Qed.

Lemma Request_stays_request_witness :
  exists r,
    Request_init Fred (PStr (b "1234")) PNone PNone PNone (PInt 2) PNone = Ok r /\
    is_request (fold_right set_urgent r [true; false]) = true.
Proof.
  eexists. split; [ reflexivity |].
  exact (proj1 (proj2 (Request_stays_request le32 _ [true; false]
           (Request_by_init le32 Fred (PStr (b "1234")) PNone PNone PNone
                            (PInt 2) PNone _ eq_refl)))).
Defined.

(** ** Equality of messages *)

Lemma MessageId_ne_false (a b : MessageId) : MessageId_ne a b = false <-> a = b.
Proof.
  unfold MessageId_ne. rewrite negb_false_iff. apply MessageId_eq_fields.
Qed.

Lemma OrigFrom_ne_false (a b : OrigFrom) : OrigFrom_ne a b = false <-> a = b.
Proof.
  unfold OrigFrom_ne. rewrite negb_false_iff. apply OrigFrom_eq_fields.
Qed.

Lemma fresh_header_eq (h k : header) :
  fresh_header h = fresh_header k <->
  id h = id k /\ in_reply_to h = in_reply_to k /\ to h = to k /\
  from_ h = from_ k /\ orig_from h = orig_from k /\ final_to h = final_to k /\
  flags h = flags k /\ name_len h = name_len k /\ data_len h = data_len k.
Proof.
  unfold fresh_header. split.
  - intros H. inversion H. repeat split; assumption.
  - intros (-> & -> & -> & -> & -> & -> & -> & -> & ->). reflexivity.
Qed.

Lemma same_struct_iff (a b : msg_struct) :
  _same_message_struct a b = true <->
  fresh_header (hdr a) = fresh_header (hdr b) /\
  struct_name a = struct_name b /\
  data_string a = data_string b.
Proof.
  rewrite fresh_header_eq. unfold _same_message_struct, data_string.
  pose proof (MessageId_ne_false (id (hdr a)) (id (hdr b))) as R1.
  destruct (MessageId_ne (id (hdr a)) (id (hdr b))); simpl;
    [ intuition discriminate |].
  pose proof (MessageId_ne_false (in_reply_to (hdr a)) (in_reply_to (hdr b))) as R2.
  destruct (MessageId_ne (in_reply_to (hdr a)) (in_reply_to (hdr b))); simpl;
    [ intuition discriminate |].
  destruct (Z.eqb_spec (to (hdr a)) (to (hdr b))) as [Et | Et]; simpl;
    [| split; [ discriminate | tauto ] ].
  destruct (Z.eqb_spec (from_ (hdr a)) (from_ (hdr b))) as [Ef | Ef]; simpl;
    [| split; [ discriminate | tauto ] ].
  pose proof (OrigFrom_ne_false (orig_from (hdr a)) (orig_from (hdr b))) as R3.
  destruct (OrigFrom_ne (orig_from (hdr a)) (orig_from (hdr b))); simpl;
    [ intuition discriminate |].
  pose proof (OrigFrom_ne_false (final_to (hdr a)) (final_to (hdr b))) as R4.
  destruct (OrigFrom_ne (final_to (hdr a)) (final_to (hdr b))); simpl;
    [ intuition discriminate |].
  destruct (Z.eqb_spec (flags (hdr a)) (flags (hdr b))) as [Eg | Eg]; simpl;
    [| split; [ discriminate | tauto ] ].
  destruct (Z.eqb_spec (name_len (hdr a)) (name_len (hdr b))) as [En | En];
    simpl; [| split; [ discriminate | tauto ] ].
  destruct (Z.eqb_spec (data_len (hdr a)) (data_len (hdr b))) as [Ed | Ed];
    simpl; [| split; [ discriminate | tauto ] ].
  pose proof (proj1 R1 eq_refl). pose proof (proj1 R2 eq_refl).
  pose proof (proj1 R3 eq_refl). pose proof (proj1 R4 eq_refl).
  destruct (bytes_eqb (struct_name a) (struct_name b)) eqn:Es; simpl.
  - apply bytes_eqb_eq in Es.
    destruct (Z.eqb_spec (data_len (hdr a)) 0) as [E0 | E0]; simpl.
    + split; [ intros _ | reflexivity ].
      repeat split; auto.
      rewrite <- Ed, E0, !c_data_as_string_0. reflexivity.
    + rewrite bytes_eqb_eq. tauto.
  - split; [ discriminate |].
    intros (_ & E & _). apply bytes_eqb_eq in E. congruence.
Qed.

(** [extract] reads nothing but the fields that [==] compares. *)
Lemma extract_of_same (a b : Message) :
  fresh_header (hdr (msg a)) = fresh_header (hdr (msg b)) ->
  struct_name (msg a) = struct_name (msg b) ->
  data_string (msg a) = data_string (msg b) ->
  extract a = extract b.
Proof.
  intros Hh Hn Hd. apply fresh_header_eq in Hh.
  destruct Hh as (Hi & Hr & Ht & Hf & Ho & Hft & Hg & Hnl & Hdl).
  unfold extract, Message_id, Message_in_reply_to, Message_to, Message_from_,
    Message_orig_from, Message_final_to, Message_flags, Message_name,
    Message_data.
  unfold data_string in Hd.
  rewrite Hd, Hi, Hr, Ht, Hf, Ho, Hft, Hg, Hnl, Hdl, Hn. reflexivity.
Qed.

Lemma same_of_extract (a b : Message) :
  well_formed (msg a) -> well_formed (msg b) ->
  extract a = extract b ->
  fresh_header (hdr (msg a)) = fresh_header (hdr (msg b)) /\
  struct_name (msg a) = struct_name (msg b) /\
  data_string (msg a) = data_string (msg b).
Proof.
  intros Ha Hb He. unfold extract in He.
  injection He as Hi Hr Ht Hf Ho Hft Hg Hn Hd.
  destruct (well_formed_name a Ha) as [Hna Hla].
  destruct (well_formed_name b Hb) as [Hnb Hlb].
  destruct (well_formed_data a Ha) as (Hda & Hsa & _).
  destruct (well_formed_data b Hb) as (Hdb & Hsb & _).
  split; [| split ].
  - apply fresh_header_eq.
    rewrite <- !MessageId_or_zero_Message_id,
      <- !MessageId_or_zero_Message_in_reply_to,
      <- !OrigFrom_or_zero_Message_orig_from,
      <- !OrigFrom_or_zero_Message_final_to.
    rewrite Hi, Hr, Ho, Hft. rewrite <- Hla, <- Hlb, <- Hda, <- Hdb, Hn, Hd.
    unfold Message_to, Message_from_, Message_flags in *.
    repeat split; assumption.
  - rewrite <- Hna, <- Hnb. exact Hn.
  - rewrite <- Hsa, <- Hsb, Hd. reflexivity.
Qed.

(** X5: [a == b] compares id, in_reply_to, to, from_, orig_from,
    final_to, flags, name_len, data_len, the name and the data, and
    neither the class, the guards nor [extra].  It is reflexive,
    symmetric and transitive; it implies [a.equivalent(b)] and that
    [a.extract()] and [b.extract()] are equal, and for well-formed
    messages equal [extract()] values imply [a == b]. *)
Theorem Message_eq_iff (a b : Message) :
  (Message_eq a b = true <->
   fresh_header (hdr (msg a)) = fresh_header (hdr (msg b)) /\
   struct_name (msg a) = struct_name (msg b) /\
   data_string (msg a) = data_string (msg b)) /\
  Message_eq a a = true /\
  Message_eq a b = Message_eq b a /\
  (forall c, Message_eq a b = true -> Message_eq b c = true ->
             Message_eq a c = true) /\
  (Message_eq a b = true -> equivalent a b = true) /\
  (Message_eq a b = true -> extract a = extract b) /\
  (well_formed (msg a) -> well_formed (msg b) ->
   extract a = extract b -> Message_eq a b = true).
Proof.
  split; [ apply same_struct_iff |].
  split; [ apply same_struct_iff; repeat split; reflexivity |].
  split.
  { unfold Message_eq.
    destruct (_same_message_struct (msg a) (msg b)) eqn:Eab;
      destruct (_same_message_struct (msg b) (msg a)) eqn:Eba;
      try reflexivity.
    - apply same_struct_iff in Eab. destruct Eab as (H1 & H2 & H3).
      assert (Hba : _same_message_struct (msg b) (msg a) = true)
        by (apply same_struct_iff; repeat split; congruence).
      congruence.
    - apply same_struct_iff in Eba. destruct Eba as (H1 & H2 & H3).
      assert (Hab : _same_message_struct (msg a) (msg b) = true)
        by (apply same_struct_iff; repeat split; congruence).
      congruence. }
  split.
  { intros c Hab Hbc. apply same_struct_iff in Hab, Hbc.
    destruct Hab as (A1 & A2 & A3), Hbc as (B1 & B2 & B3).
    apply same_struct_iff. repeat split; congruence. }
  split; [| split ].
  - intros H. apply same_struct_iff in H. destruct H as (Hh & Hn & Hd).
    apply fresh_header_eq in Hh. apply equivalent_struct_iff. tauto.
  - intros H. apply same_struct_iff in H. destruct H as (Hh & Hn & Hd).
    apply extract_of_same; assumption.
  - intros Ha Hb He. apply same_struct_iff.
    apply same_of_extract; assumption.
Qed.

(** ** Encoding and decoding again *)

Lemma to_bytes_of_extract (P : platform) (a b : Message) :
  extract a = extract b -> to_bytes P a = to_bytes P b.
Proof.
  unfold extract. intros He. injection He as Hi Hr Ht Hf Ho Hft Hg Hn Hd.
  unfold to_bytes. rewrite Hi, Hr, Ht, Hf, Ho, Hft, Hg, Hn, Hd. reflexivity.
Qed.

Lemma entire_of_same (m : Message) :
  well_formed (msg m) ->
  well_formed (entire_of m) /\
  _same_message_struct (entire_of m) (msg m) = true.
Proof.
  intros Hwf.
  pose proof (equivalent_entire_of CMessage m Hwf) as Heq.
  apply equivalent_struct_iff in Heq. cbn [msg] in Heq.
  destruct Heq as (_ & _ & _ & Hn & Hd).
  destruct (entire_of_well_formed m Hwf) as (rn & Hent & Hlrn & Hcrn).
  destruct (well_formed_name m Hwf) as [_ Hnl].
  destruct (well_formed_data m Hwf) as (Hdl & Hds & _).
  assert (Hh : hdr (entire_of m) = fresh_header (hdr (msg m)))
    by (rewrite Hent; reflexivity).
  split.
  - split; [| split ].
    + rewrite Hh. apply fresh_header_in_range. apply Hwf.
    + rewrite Hn, Hh. apply Hwf.
    + rewrite Hh. cbn [fresh_header data_len].
      destruct (Z.eqb_spec (data_len (hdr (msg m))) 0) as [E0 | E0];
        [ left; exact E0 | right ].
      rewrite Hent. cbn [struct_data hdr fresh_header data_len].
      destruct (Z.eqb_spec (data_len (hdr (msg m))) 0); [ contradiction |].
      eexists. split; [ reflexivity |].
      rewrite <- Hdl at 2. rewrite Hds, to_nat_len, firstn_pad4.
      rewrite <- Hds, Hdl. lia.
  - apply same_struct_iff. rewrite Hh.
    split; [ reflexivity | split; assumption ].
Qed.

(** X6: for a well-formed message m, [Message.from_bytes(m.to_bytes())]
    returns a well-formed "entire" message that is [==] m, has the same
    [extract()] and gives the same bytes again. *)
Theorem from_bytes_to_bytes_same (P : platform) (beyond : nat -> ascii)
    (m : Message) :
  well_formed (msg m) ->
  exists m',
    Message_from_bytes P beyond (to_bytes P m) = Ok m' /\
    Message_eq m' m = true /\
    extract m' = extract m /\
    to_bytes P m' = to_bytes P m /\
    well_formed (msg m') /\
    is_pointy (msg m') = false /\ class_of m' = CMessage.
Proof.
  intros Hwf. exists (mkMessage CMessage (entire_of m)).
  destruct (entire_of_same m Hwf) as [Hwe Hsame].
  assert (He : extract (mkMessage CMessage (entire_of m)) = extract m).
  { apply same_struct_iff in Hsame. destruct Hsame as (Hh & Hn & Hd).
    apply extract_of_same; assumption. }
  split; [ apply from_bytes_to_bytes; exact Hwf |].
  split; [ exact Hsame |]. split; [ exact He |].
  split; [ apply to_bytes_of_extract; exact He |].
  split; [ exact Hwe |].
  split; [| reflexivity ].
  destruct (entire_of_well_formed m Hwf) as (rn & Hent & _).
  cbn [msg]. rewrite Hent. reflexivity.
Qed.

(** X7: two well-formed messages have the same bytes exactly when they
    are [==]. *)
Theorem to_bytes_eq_iff (P : platform) (a b : Message) :
  well_formed (msg a) -> well_formed (msg b) ->
  (to_bytes P a = to_bytes P b <-> Message_eq a b = true).
Proof.
  intros Ha Hb. split.
  - intros Hbytes.
    pose proof (from_bytes_to_bytes P no_memory a Ha) as Da.
    pose proof (from_bytes_to_bytes P no_memory b Hb) as Db.
    rewrite Hbytes, Db in Da.
    assert (Hent : entire_of b = entire_of a) by congruence.
    destruct (entire_of_same a Ha) as [_ Sa].
    destruct (entire_of_same b Hb) as [_ Sb].
    rewrite <- Hent in Sa.
    apply same_struct_iff in Sa, Sb. apply same_struct_iff.
    destruct Sa as (Ah & An & Ad), Sb as (Bh & Bn & Bd).
    repeat split; congruence.
  - intros H. apply same_struct_iff in H. destruct H as (Hh & Hn & Hd).
    apply to_bytes_of_extract, extract_of_same; assumption.
Qed.

Ltac compute_in_range :=
  unfold header_in_range, is_u32;
  repeat match goal with |- _ /\ _ => split end;
  first [ apply Z.leb_le; reflexivity | apply Z.ltb_lt; reflexivity ].

Lemma request_Fred_well_formed : well_formed (msg request_Fred).
Proof.
  split; [ compute_in_range | split; [ reflexivity | right ] ].
  eexists. split; [ reflexivity |]. apply Z.leb_le. reflexivity.
Defined.

Lemma reply_Fred_well_formed : well_formed (msg reply_Fred).
Proof.
  split; [ compute_in_range | split; [ reflexivity | left; reflexivity ] ].
Defined.

Lemma from_bytes_to_bytes_same_witness :
  exists m',
    Message_from_bytes le64 no_memory (to_bytes le64 request_Fred) = Ok m' /\
    Message_eq m' request_Fred = true /\
    extract m' = extract request_Fred /\
    to_bytes le64 m' = to_bytes le64 request_Fred /\
    well_formed (msg m') /\
    is_pointy (msg m') = false /\ class_of m' = CMessage.
Proof.
  exact (from_bytes_to_bytes_same le64 no_memory request_Fred
           request_Fred_well_formed).
Defined.

Lemma to_bytes_eq_iff_witness :
  to_bytes le32 request_Fred = to_bytes le32 reply_Fred <->
  Message_eq request_Fred reply_Fred = true.
Proof.
  exact (to_bytes_eq_iff le32 request_Fred reply_Fred
           request_Fred_well_formed reply_Fred_well_formed).
Defined.

(** ** Copies of a message *)

Lemma as_c_uint32_int_or_zero (z : Z) :
  as_c_uint32 (if negb (truthy (PInt z)) then PInt 0 else PInt z) = Ok (u32 z).
Proof. simpl. destruct (Z.eqb_spec z 0) as [-> |]; reflexivity. Qed.

Lemma id_pair_MessageId_or_zero (v : pyval) :
  v = PNone \/ (exists i, v = PMessageId i) ->
  id_pair v = Ok (network_id (MessageId_or_zero v),
                  serial_num (MessageId_or_zero v)).
Proof. intros [-> | [i ->]]; reflexivity. Qed.

Lemma orig_from_pair_OrigFrom_or_zero (v : pyval) :
  v = PNone \/ (exists o, v = POrigFrom o) ->
  orig_from_pair v = Ok (of_network_id (OrigFrom_or_zero v),
                         local_id (OrigFrom_or_zero v)).
Proof. intros [-> | [o ->]]; reflexivity. Qed.

Lemma Message_id_cases (m : Message) :
  Message_id m = PNone \/ exists i, Message_id m = PMessageId i.
Proof. unfold Message_id. destruct (_ && _); eauto. Qed.

Lemma Message_in_reply_to_cases (m : Message) :
  Message_in_reply_to m = PNone \/ exists i, Message_in_reply_to m = PMessageId i.
Proof. unfold Message_in_reply_to. destruct (_ && _); eauto. Qed.

Lemma Message_orig_from_cases (m : Message) :
  Message_orig_from m = PNone \/ exists o, Message_orig_from m = POrigFrom o.
Proof. unfold Message_orig_from. destruct (_ && _); eauto. Qed.

Lemma Message_final_to_cases (m : Message) :
  Message_final_to m = PNone \/ exists o, Message_final_to m = POrigFrom o.
Proof. unfold Message_final_to. destruct (_ && _); eauto. Qed.

Lemma Message_data_cases (m : Message) :
  Message_data m = PNone \/ exists d, Message_data m = PStr d.
Proof. unfold Message_data. destruct (_ =? _); eauto. Qed.

Lemma data_len_of_data (data : pyval) :
  data = PNone \/ (exists d, data = PStr d) ->
  (if truthy data then py_len data else Ok 0) = Ok (len (str_or_empty data)).
Proof. intros [-> | [[| c d] ->]]; reflexivity. Qed.

(** [_from_data] on a name, integers, and values that are [None] or of
    the type each argument asks for. *)
Lemma _from_data_values (n : bytes) (data : pyval) (to from_ : Z)
    (o f r : pyval) (flags : Z) (i : pyval) :
  data = PNone \/ (exists d, data = PStr d) ->
  o = PNone \/ (exists x, o = POrigFrom x) ->
  f = PNone \/ (exists x, f = POrigFrom x) ->
  r = PNone \/ (exists x, r = PMessageId x) ->
  i = PNone \/ (exists x, i = PMessageId x) ->
  _from_data (PStr n) data (PInt to) (PInt from_) o f r (PInt flags) i
  = Ok (Pointy
          (mkHeader START_GUARD
             (mkMessageId (u32 (network_id (MessageId_or_zero i)))
                          (u32 (serial_num (MessageId_or_zero i))))
             (mkMessageId (u32 (network_id (MessageId_or_zero r)))
                          (u32 (serial_num (MessageId_or_zero r))))
             (u32 to) (u32 from_)
             (mkOrigFrom (u32 (of_network_id (OrigFrom_or_zero o)))
                         (u32 (local_id (OrigFrom_or_zero o))))
             (mkOrigFrom (u32 (of_network_id (OrigFrom_or_zero f)))
                         (u32 (local_id (OrigFrom_or_zero f))))
             0 (u32 flags) (u32 (len n)) (u32 (len (str_or_empty data)))
             END_GUARD)
          (pad4 (n ++ [NUL])) (data_pointer data)).
Proof.
  intros Hd Ho Hf Hr Hi. unfold _from_data.
  rewrite (id_pair_MessageId_or_zero i Hi), (id_pair_MessageId_or_zero r Hr),
    (orig_from_pair_OrigFrom_or_zero o Ho),
    (orig_from_pair_OrigFrom_or_zero f Hf).
  cbn [bind]. unfold message_from_parts. cbn [py_len bind].
  rewrite (data_len_of_data data Hd). cbn [bind].
  rewrite !as_c_uint32_int_or_zero. cbn [bind fst snd].
  destruct Hd as [-> | [[| c d] ->]]; reflexivity.
Qed.

Lemma _merge_args_extract (cls : msg_class) (m : Message) :
  well_formed (msg m) ->
  _merge_args cls (extract m) PNone PNone PNone PNone PNone PNone PNone PNone
  = Ok (mkMessage cls (pointy_of m)).
Proof.
  intros Hwf. unfold _merge_args, extract, override. cbn [is_None negb].
  rewrite (_from_data_values (Message_name m) (Message_data m) _ _ _ _ _ _ _
             (Message_data_cases m) (Message_orig_from_cases m)
             (Message_final_to_cases m) (Message_in_reply_to_cases m)
             (Message_id_cases m)).
  cbn [bind]. unfold pointy_of. do 3 f_equal.
  destruct (well_formed_name m Hwf) as [_ Hnl].
  destruct (well_formed_data m Hwf) as (Hdl & _ & _).
  rewrite MessageId_or_zero_Message_id, MessageId_or_zero_Message_in_reply_to,
    OrigFrom_or_zero_Message_orig_from, OrigFrom_or_zero_Message_final_to.
  rewrite Hnl, Hdl. unfold Message_to, Message_from_, Message_flags.
  destruct Hwf as (Hh & _ & _).
  destruct Hh as (_ & Hi1 & Hi2 & Hr1 & Hr2 & Hto & Hfrom & Ho1 & Ho2 & Hf1 &
                  Hf2 & _ & Hfl & Hnr & Hdr & _).
  rewrite (u32_small _ Hi1), (u32_small _ Hi2), (u32_small _ Hr1),
    (u32_small _ Hr2), (u32_small _ Hto), (u32_small _ Hfrom),
    (u32_small _ Ho1), (u32_small _ Ho2), (u32_small _ Hf1),
    (u32_small _ Hf2), (u32_small _ Hfl), (u32_small _ Hnr),
    (u32_small _ Hdr).
  unfold fresh_header.
  destruct (id (hdr (msg m))), (in_reply_to (hdr (msg m))),
    (orig_from (hdr (msg m))), (final_to (hdr (msg m))); reflexivity.
Qed.

Lemma len_pad4_ge (s : bytes) : len s <= len (pad4 s).
Proof. rewrite len_pad4. Z.div_mod_to_equations. lia. Qed.

Lemma pointy_of_same (m : Message) :
  well_formed (msg m) ->
  well_formed (pointy_of m) /\
  _same_message_struct (pointy_of m) (msg m) = true.
Proof.
  intros Hwf.
  destruct (well_formed_name m Hwf) as [Hname Hnl].
  destruct (well_formed_data m Hwf) as (Hdl & Hds & _).
  pose proof (Message_name_nul_free m) as Hnf.
  assert (Hn : struct_name (pointy_of m) = struct_name (msg m)).
  { unfold pointy_of. cbn [struct_name].
    rewrite c_str_pad4_terminated, (c_str_id _ Hnf). exact Hname. }
  assert (Hdata : data_len (hdr (msg m)) <> 0 ->
                  struct_data (pointy_of m)
                  = Some (pad4 (data_string (msg m)))).
  { intros Hnz. unfold pointy_of. cbn [struct_data].
    unfold Message_data in *.
    destruct (Z.eqb_spec (data_len (hdr (msg m))) 0); [ contradiction |].
    cbn [str_or_empty] in Hdl. fold (data_string (msg m)) in *.
    destruct (data_string (msg m)) as [| c d];
      [ unfold len in Hdl; simpl in Hdl; lia | reflexivity ]. }
  assert (Hlen : len (data_string (msg m)) = data_len (hdr (msg m)))
    by (rewrite <- Hds; exact Hdl).
  split.
  - split; [| split ].
    + apply fresh_header_in_range, Hwf.
    + rewrite Hn. apply Hwf.
    + cbn [pointy_of hdr fresh_header data_len].
      destruct (Z.eq_dec (data_len (hdr (msg m))) 0) as [E0 | E0];
        [ left; exact E0 | right ].
      eexists. split; [ apply Hdata; exact E0 |].
      rewrite <- Hlen. apply len_pad4_ge.
  - apply same_struct_iff.
    split; [ reflexivity |]. split; [ exact Hn |].
    unfold data_string at 1. cbn [pointy_of hdr fresh_header data_len].
    destruct (Z.eq_dec (data_len (hdr (msg m))) 0) as [E0 | E0].
    + unfold data_string. rewrite E0, !c_data_as_string_0. reflexivity.
    + rewrite (Hdata E0). cbn [c_data_as_string].
      rewrite <- Hlen, to_nat_len. apply firstn_pad4.
Qed.

(** X8: [Message.from_message(m)] and
    [Message.from_sequence(m.extract())], with nothing overridden, return
    the same thing for a well-formed m: a well-formed "pointy" Message
    that is [==] m and has the same [extract()]. *)
Theorem from_message_same (m : Message) :
  well_formed (msg m) ->
  exists m',
    Message_from_message m PNone PNone PNone PNone PNone PNone PNone PNone
    = Ok m' /\
    Message_from_sequence (extract m) PNone PNone PNone PNone PNone PNone
                          PNone PNone = Ok m' /\
    Message_eq m' m = true /\
    extract m' = extract m /\
    well_formed (msg m') /\
    is_pointy (msg m') = true /\ class_of m' = CMessage.
Proof.
  intros Hwf. exists (mkMessage CMessage (pointy_of m)).
  destruct (pointy_of_same m Hwf) as [Hwp Hsame].
  split; [ apply _merge_args_extract; exact Hwf |].
  split; [ unfold Message_from_sequence; cbn [extract length Nat.eqb negb];
           apply _merge_args_extract; exact Hwf |].
  split; [ exact Hsame |].
  split; [| split; [ exact Hwp | split; reflexivity ] ].
  apply same_struct_iff in Hsame. destruct Hsame as (Hh & Hn & Hd).
  apply extract_of_same; assumption.
Qed.

Lemma from_message_same_witness :
  exists m',
    Message_from_message reply_Fred PNone PNone PNone PNone PNone PNone PNone
                         PNone = Ok m' /\
    Message_from_sequence (extract reply_Fred) PNone PNone PNone PNone PNone
                          PNone PNone PNone = Ok m' /\
    Message_eq m' reply_Fred = true /\
    extract m' = extract reply_Fred /\
    well_formed (msg m') /\
    is_pointy (msg m') = true /\ class_of m' = CMessage.
Proof. exact (from_message_same reply_Fred reply_Fred_well_formed). Defined.

(** ** Which constructors check the name *)

Lemma from_sequence_name_only (n : bytes) :
  ~ In NUL n -> len n < 2 ^ 32 ->
  let m := mkMessage CMessage
             (Pointy (mkHeader START_GUARD unset_id unset_id 0 0
                               unset_orig_from unset_orig_from 0 0 (len n) 0
                               END_GUARD)
                     (pad4 (n ++ [NUL])) None) in
  Message_from_sequence
    [PNone; PNone; PInt 0; PInt 0; PNone; PNone; PInt 0; PStr n; PNone]
    PNone PNone PNone PNone PNone PNone PNone PNone = Ok m /\
  Message_name m = n /\ well_formed (msg m).
Proof.
  intros Hnf Hlen m.
  assert (Hsn : struct_name (msg m) = n).
  { unfold m. cbn [msg struct_name].
    rewrite c_str_pad4_terminated. apply c_str_id, Hnf. }
  split; [| split ].
  - unfold Message_from_sequence, _merge_args, override.
    cbn [length Nat.eqb negb is_None].
    rewrite (_from_data_values n PNone 0 0 PNone PNone PNone 0 PNone)
      by (left; reflexivity).
    cbn [bind]. unfold m. cbn [MessageId_or_zero OrigFrom_or_zero str_or_empty
                                 network_id serial_num of_network_id local_id
                                 data_pointer].
    rewrite (u32_len_small _ Hlen). reflexivity.
  - unfold Message_name. rewrite Hsn. unfold m. cbn [msg hdr name_len].
    rewrite to_nat_len. apply firstn_all.
  - split; [| split; [ rewrite Hsn; reflexivity | left; reflexivity ] ].
    unfold m. cbn [msg hdr].
    unfold header_in_range. cbn.
    pose proof (len_nonneg n). pose proof in_range_START_GUARD.
    pose proof in_range_END_GUARD. unfold is_u32 in *. repeat split; lia.
Qed.

(** X9: only [Message(...)] checks the name.  For a name that does not
    start with [$.] or is shorter than 3, [Message(name)] raises
    ValueError, but [Message.from_sequence] accepts a sequence with that
    name, and the Message it returns is copied by [Message.from_message]
    and survives [to_bytes] and [Message.from_bytes] as any other. *)
Theorem only_init_checks_name (P : platform) (beyond : nat -> ascii)
    (n : bytes) :
  ~ In NUL n -> len n < 2 ^ 32 ->
  startswith n dollar_dot = false \/ len n < 3 ->
  (exists reason,
     Message_init CMessage (PStr n) PNone PNone PNone PNone PNone PNone PNone
                  PNone = Raise (ValueError reason)) /\
  exists m,
    Message_from_sequence
      [PNone; PNone; PInt 0; PInt 0; PNone; PNone; PInt 0; PStr n; PNone]
      PNone PNone PNone PNone PNone PNone PNone PNone = Ok m /\
    Message_name m = n /\
    (exists m1,
       Message_from_message m PNone PNone PNone PNone PNone PNone PNone PNone
       = Ok m1 /\ Message_eq m1 m = true /\ Message_name m1 = n) /\
    (exists m2,
       Message_from_bytes P beyond (to_bytes P m) = Ok m2 /\
       Message_eq m2 m = true /\ Message_name m2 = n).
Proof.
  intros Hnf Hlen Hbad. split.
  - unfold Message_init, py_startswith. cbn [bind].
    destruct (startswith n dollar_dot) eqn:Es; cbn [negb]; [| eauto ].
    destruct Hbad as [Hbad | Hshort]; [ discriminate |].
    destruct (_from_data_no_arguments n) as (s & -> & Hc). cbn [bind].
    rewrite Hc, (u32_len_small _ Hlen).
    destruct (Z.ltb_spec (len n) 3); [ cbn [bind]; eauto | lia ].
  - destruct (from_sequence_name_only n Hnf Hlen) as (Hseq & Hname & Hwf).
    eexists. split; [ exact Hseq |]. split; [ exact Hname |].
    set (m := mkMessage CMessage _) in *.
    assert (Hkeep : forall m', _same_message_struct (msg m') (msg m) = true ->
                               Message_name m' = n).
    { intros m' Hs. apply same_struct_iff in Hs. destruct Hs as (Hh & Hn & Hd).
      rewrite <- Hname.
      pose proof (extract_of_same m' m Hh Hn Hd) as He.
      unfold extract in He. injection He as _ _ _ _ _ _ _ He _. exact He. }
    split.
    + exists (mkMessage CMessage (pointy_of m)).
      destruct (pointy_of_same m Hwf) as [_ Hs].
      split; [ apply _merge_args_extract; exact Hwf |].
      split; [ exact Hs | apply Hkeep; exact Hs ].
    + exists (mkMessage CMessage (entire_of m)).
      destruct (entire_of_same m Hwf) as [_ Hs].
      split; [ apply from_bytes_to_bytes; exact Hwf |].
      split; [ exact Hs | apply Hkeep; exact Hs ].
Qed.

Lemma only_init_checks_name_witness :
  (exists reason,
     Message_init CMessage (PStr (b "Fred")) PNone PNone PNone PNone PNone
                  PNone PNone PNone = Raise (ValueError reason)) /\
  exists m,
    Message_from_sequence
      [PNone; PNone; PInt 0; PInt 0; PNone; PNone; PInt 0; PStr (b "Fred");
       PNone]
      PNone PNone PNone PNone PNone PNone PNone PNone = Ok m /\
    Message_name m = b "Fred" /\
    (exists m1,
       Message_from_message m PNone PNone PNone PNone PNone PNone PNone PNone
       = Ok m1 /\ Message_eq m1 m = true /\ Message_name m1 = b "Fred") /\
    (exists m2,
       Message_from_bytes le32 no_memory (to_bytes le32 m) = Ok m2 /\
       Message_eq m2 m = true /\ Message_name m2 = b "Fred").
Proof.
  apply (only_init_checks_name le32 no_memory (b "Fred")).
  - simpl. intros H. repeat destruct H as [H | H]; try discriminate H; exact H.
  - apply Z.ltb_lt. reflexivity.
  - left. reflexivity.
Defined.

(** ** Pointy structures from bytes *)

Lemma c_str_prefix (s : bytes) : firstn (length (c_str s)) s = c_str s.
Proof.
  induction s as [| c s IH]; simpl; [ reflexivity |].
  destruct (Ascii.eqb c NUL); simpl; [ reflexivity | f_equal; exact IH ].
Qed.

Lemma py_slice_middle (a s c : bytes) :
  py_slice (a ++ s ++ c) (length a) (length a + length s) = s.
Proof.
  unfold py_slice.
  replace (length a + length s - length a)%nat with (length s) by lia.
  apply slice_middle.
Qed.

Lemma _pointy_message_from_bytes_to_bytes (P : platform)
    (beyond : nat -> ascii) (m : Message) :
  well_formed (msg m) ->
  _pointy_message_from_bytes P beyond (to_bytes P m)
  = Pointy (fresh_header (hdr (msg m))) (struct_name (msg m))
           (if data_len (hdr (msg m)) =? 0 then None
            else Some (data_string (msg m))).
Proof.
  intros Hwf.
  destruct (to_bytes_well_formed P m Hwf) as (rn & _ & Hlrn & Hcrn & Hb & _).
  destruct (well_formed_name m Hwf) as [_ Hnl].
  destruct (well_formed_data m Hwf) as (Hdl & Hds & _).
  pose proof (fresh_header_in_range _ (proj1 Hwf)) as Hfr.
  set (h := fresh_header (hdr (msg m))) in *.
  set (hb := header_bytes P h) in *.
  assert (Hlhb : length hb = Z.to_nat (MSG_HEADER_LEN P))
    by (unfold hb; rewrite length_header_bytes; reflexivity).
  assert (Hh : header_of_bytes P
                 (memmove_from beyond (to_bytes P m)
                               (Z.to_nat (MSG_HEADER_LEN P))) = h).
  { rewrite Hb, <- Hlhb, memmove_from_within.
    apply header_of_bytes_exact, Hfr. }
  unfold _pointy_message_from_bytes. cbv zeta. rewrite Hh.
  assert (Hnlh : name_len h = name_len (hdr (msg m))) by reflexivity.
  assert (Hdlh : data_len h = data_len (hdr (msg m))) by reflexivity.
  rewrite Hnlh, Hdlh.
  assert (Hsn : Z.to_nat (name_len (hdr (msg m)))
                = length (struct_name (msg m))).
  { rewrite <- (proj1 (proj2 Hwf)). apply to_nat_len. }
  assert (Hlds : Z.to_nat (data_len (hdr (msg m)))
                 = length (data_string (msg m))).
  { rewrite <- Hdl, Hds. apply to_nat_len. }
  f_equal.
  - rewrite Hb, <- Hlhb, Hsn.
    assert (Hrn : rn = struct_name (msg m) ++
                       skipn (length (struct_name (msg m))) rn).
    { rewrite <- (firstn_skipn (length (struct_name (msg m))) rn) at 1.
      f_equal. rewrite <- Hcrn. apply c_str_prefix. }
    rewrite Hrn at 1.
    rewrite <- app_assoc. apply py_slice_middle.
  - destruct (data_len (hdr (msg m)) =? 0); [ reflexivity |].
    f_equal.
    destruct (pad4_spec (data_string (msg m))) as (k & Hp & _).
    assert (Hslice :
      py_slice (to_bytes P m)
        (Z.to_nat (MSG_HEADER_LEN P) +
         Z.to_nat (calc_padded_name_len (name_len (hdr (msg m)))))
        (Z.to_nat (MSG_HEADER_LEN P) +
         Z.to_nat (calc_padded_name_len (name_len (hdr (msg m)))) +
         Z.to_nat (data_len (hdr (msg m))))
      = data_string (msg m)).
    { rewrite Hb, <- Hlhb, <- Hlrn, Hlds, Hp, <- length_app.
      rewrite (app_assoc hb rn), <- (app_assoc (data_string (msg m))).
      apply py_slice_middle. }
    rewrite Hslice, Hlds, Nat.sub_diag. apply app_nil_r.
Qed.

(** X10: for a well-formed message m,
    [_pointy_message_from_bytes(m.to_bytes())] is a pointy structure whose
    name is the name of m, whose data is [None] or the [data_len] bytes of
    the data of m, and which compares equal to the structure of m and to
    the entire structure [_entire_message_from_bytes] returns for the same
    bytes. *)
Theorem pointy_from_bytes_same (P : platform) (beyond : nat -> ascii)
    (m : Message) :
  well_formed (msg m) ->
  is_pointy (_pointy_message_from_bytes P beyond (to_bytes P m)) = true /\
  struct_name (_pointy_message_from_bytes P beyond (to_bytes P m))
  = struct_name (msg m) /\
  struct_data (_pointy_message_from_bytes P beyond (to_bytes P m))
  = (if data_len (hdr (msg m)) =? 0 then None
     else Some (data_string (msg m))) /\
  hdr (_pointy_message_from_bytes P beyond (to_bytes P m))
  = fresh_header (hdr (msg m)) /\
  _same_message_struct (_pointy_message_from_bytes P beyond (to_bytes P m))
                       (msg m) = true /\
  exists e, _entire_message_from_bytes P beyond (to_bytes P m) = Ok e /\
            _same_message_struct
              (_pointy_message_from_bytes P beyond (to_bytes P m)) e = true.
Proof.
  intros Hwf.
  pose proof (_pointy_message_from_bytes_to_bytes P beyond m Hwf) as Hs.
  set (s := _pointy_message_from_bytes P beyond (to_bytes P m)) in *.
  assert (Hn : struct_name s = struct_name (msg m)).
  { rewrite Hs. cbn [struct_name]. apply c_str_id.
    destruct (well_formed_name m Hwf) as [<- _]. apply Message_name_nul_free. }
  assert (Hd : data_string s = data_string (msg m)).
  { rewrite Hs. unfold data_string at 1. cbn [struct_data hdr fresh_header data_len].
    destruct (Z.eqb_spec (data_len (hdr (msg m))) 0) as [E0 | E0].
    - unfold data_string. rewrite E0, !c_data_as_string_0. reflexivity.
    - cbn [c_data_as_string].
      destruct (well_formed_data m Hwf) as (Hdl & Hds & _).
      rewrite <- Hdl at 1. rewrite Hds, to_nat_len. apply firstn_all. }
  assert (Hsame : _same_message_struct s (msg m) = true).
  { apply same_struct_iff. rewrite Hs at 1. cbn [hdr].
    split; [ reflexivity | split; assumption ]. }
  split; [ rewrite Hs; reflexivity |].
  split; [ exact Hn |].
  split; [ rewrite Hs; reflexivity |].
  split; [ rewrite Hs; reflexivity |].
  split; [ exact Hsame |].
  exists (entire_of m).
  pose proof (from_bytes_to_bytes P beyond m Hwf) as Hfb.
  unfold Message_from_bytes in Hfb.
  destruct (_entire_message_from_bytes P beyond (to_bytes P m)) as [e | x];
    [| discriminate ].
  cbn [bind] in Hfb. assert (He : e = entire_of m) by congruence. subst e.
  split; [ reflexivity |].
  destruct (entire_of_same m Hwf) as [_ Hes].
  apply same_struct_iff in Hsame, Hes. apply same_struct_iff.
  destruct Hsame as (A1 & A2 & A3), Hes as (B1 & B2 & B3).
  repeat split; congruence.
Qed.

Lemma pointy_from_bytes_same_witness :
  is_pointy (_pointy_message_from_bytes le64 no_memory
               (to_bytes le64 request_Fred)) = true /\
  struct_name (_pointy_message_from_bytes le64 no_memory
                 (to_bytes le64 request_Fred))
  = struct_name (msg request_Fred) /\
  struct_data (_pointy_message_from_bytes le64 no_memory
                 (to_bytes le64 request_Fred))
  = (if data_len (hdr (msg request_Fred)) =? 0 then None
     else Some (data_string (msg request_Fred))) /\
  hdr (_pointy_message_from_bytes le64 no_memory (to_bytes le64 request_Fred))
  = fresh_header (hdr (msg request_Fred)) /\
  _same_message_struct
    (_pointy_message_from_bytes le64 no_memory (to_bytes le64 request_Fred))
    (msg request_Fred) = true /\
  exists e,
    _entire_message_from_bytes le64 no_memory (to_bytes le64 request_Fred)
    = Ok e /\
    _same_message_struct
      (_pointy_message_from_bytes le64 no_memory (to_bytes le64 request_Fred))
      e = true.
Proof.
  exact (pointy_from_bytes_same le64 no_memory request_Fred
           request_Fred_well_formed).
Defined.

(** ** cast *)

Lemma _entire_message_from_bytes_to_bytes (P : platform)
    (beyond : nat -> ascii) (m : Message) :
  well_formed (msg m) ->
  _entire_message_from_bytes P beyond (to_bytes P m) = Ok (entire_of m).
Proof.
  intros Hwf. pose proof (from_bytes_to_bytes P beyond m Hwf) as Hfb.
  unfold Message_from_bytes in Hfb.
  destruct (_entire_message_from_bytes P beyond (to_bytes P m)) as [e | x];
    [| discriminate ].
  cbn [bind] in Hfb. congruence.
Qed.

Lemma same_struct_fields (a b : Message) :
  _same_message_struct (msg a) (msg b) = true ->
  equivalent a b = true /\
  Message_id a = Message_id b /\
  Message_in_reply_to a = Message_in_reply_to b /\
  Message_from_ a = Message_from_ b /\
  Message_flags a = Message_flags b /\
  Message_orig_from a = Message_orig_from b /\
  Message_final_to a = Message_final_to b.
Proof.
  intros Hs. apply same_struct_iff in Hs. destruct Hs as (Hh & Hn & Hd).
  pose proof (extract_of_same a b Hh Hn Hd) as He.
  unfold extract in He. injection He as Hi Hr Ht Hf Ho Hft Hg _ _.
  apply fresh_header_eq in Hh.
  split; [ apply equivalent_struct_iff; tauto |].
  repeat split; assumption.
Qed.

Lemma lor_1_of_odd (f : Z) : Z.land f 1 <> 0 -> Z.lor f 1 = f.
Proof.
  intros Hodd. change 1 with (2 ^ 0) in *.
  rewrite land_pow2 in Hodd by lia.
  destruct (Z.testbit f 0) eqn:E0; [| contradiction ].
  apply Z.bits_inj'. intros i Hi.
  rewrite Z.lor_spec, Z.pow2_bits_eqb by lia.
  destruct (Z.eqb_spec 0 i) as [<- |]; [ rewrite E0 | rewrite orb_false_r ];
    reflexivity.
Qed.

Lemma set_want_reply_of_request (cls : msg_class) (m : Message) :
  well_formed (msg m) -> is_request m = true ->
  _same_message_struct
    (msg (set_want_reply true (mkMessage cls (pointy_of m)))) (msg m) = true.
Proof.
  intros Hwf Hreq.
  destruct (pointy_of_same m Hwf) as [_ Hs].
  apply same_struct_iff in Hs. destruct Hs as (Hh & Hn & Hd).
  assert (Hfl : u32 (_set_bit (flags (hdr (msg m))) WANT_A_REPLY)
                = flags (hdr (msg m))).
  { unfold _set_bit. change WANT_A_REPLY with 1.
    unfold is_request in Hreq. change WANT_A_REPLY with 1 in Hreq.
    rewrite lor_1_of_odd.
    - apply u32_small. apply Hwf.
    - intros E. rewrite E in Hreq. discriminate. }
  apply same_struct_iff. unfold set_want_reply, pointy_of in *.
  cbn [msg set_hdr hdr struct_name data_string struct_data fresh_header
       set_flags flags data_len] in *.
  unfold data_string in *. cbn [struct_data hdr data_len] in *.
  split; [| split; assumption ].
  unfold fresh_header at 1. unfold set_flags. cbn [flags]. rewrite Hfl.
  reflexivity.
Qed.

(** X11: [cast()] of a well-formed message returns a Status (a reply
    named [$.KBUS.]...), a Reply (any other reply), a Request (not a reply,
    WANT_A_REPLY set) or an Announcement (anything else).  The result is
    equivalent to the message and keeps its id, in_reply_to, from_ and
    flags; it is [==] the message unless it is an Announcement, whose
    orig_from and final_to are unset. *)
Theorem cast_spec (P : platform) (beyond : nat -> ascii) (m : Message) :
  well_formed (msg m) ->
  exists m',
    cast P beyond m = Ok m' /\
    class_of m' = (if is_reply m then
                     if startswith (struct_name (msg m)) KBUS_prefix
                     then CStatus else CReply
                   else if is_request m then CRequest else CAnnouncement) /\
    equivalent m' m = true /\
    Message_id m' = Message_id m /\
    Message_in_reply_to m' = Message_in_reply_to m /\
    Message_from_ m' = Message_from_ m /\
    Message_flags m' = Message_flags m /\
    (is_reply m = true \/ is_request m = true -> Message_eq m' m = true) /\
    (is_reply m = false -> is_request m = false ->
     Message_orig_from m' = PNone /\ Message_final_to m' = PNone).
Proof.
  intros Hwf.
  destruct (pointy_of_same m Hwf) as [_ Hps].
  destruct (entire_of_same m Hwf) as [_ Hes].
  assert (Hfrom_same : forall m' cls,
            cast P beyond m = Ok m' -> class_of m' = cls ->
            _same_message_struct (msg m') (msg m) = true ->
            (is_reply m = false -> is_request m = false -> False) ->
            exists m'',
              cast P beyond m = Ok m'' /\ class_of m'' = cls /\
              equivalent m'' m = true /\
              Message_id m'' = Message_id m /\
              Message_in_reply_to m'' = Message_in_reply_to m /\
              Message_from_ m'' = Message_from_ m /\
              Message_flags m'' = Message_flags m /\
              (is_reply m = true \/ is_request m = true ->
               Message_eq m'' m = true) /\
              (is_reply m = false -> is_request m = false ->
               Message_orig_from m'' = PNone /\ Message_final_to m'' = PNone)).
  { intros m' cls Hc Hcl Hs Hno. exists m'.
    destruct (same_struct_fields m' m Hs) as (He & Hi & Hr & Hf & Hg & _ & _).
    split; [ exact Hc |]. split; [ exact Hcl |]. split; [ exact He |].
    split; [ exact Hi |]. split; [ exact Hr |]. split; [ exact Hf |].
    split; [ exact Hg |]. split; [ intros _; exact Hs |].
    intros H1 H2. exfalso. exact (Hno H1 H2). }
  destruct (is_reply m) eqn:Erep.
  - destruct (startswith (struct_name (msg m)) KBUS_prefix) eqn:Ek.
    + apply (Hfrom_same (mkMessage CStatus (entire_of m)));
        [ unfold cast; rewrite Erep, Ek | reflexivity | exact Hes
        | discriminate ].
      unfold Status_from_bytes.
      rewrite _entire_message_from_bytes_to_bytes by exact Hwf. reflexivity.
    + apply (Hfrom_same (mkMessage CReply (pointy_of m)));
        [ unfold cast; rewrite Erep, Ek | reflexivity | exact Hps
        | discriminate ].
      unfold Reply_from_message.
      rewrite _merge_args_extract by exact Hwf. cbn [bind].
      unfold require_in_reply_to.
      replace (Message_in_reply_to (mkMessage CReply (pointy_of m)))
        with (Message_in_reply_to m) by reflexivity.
      unfold is_reply in Erep.
      destruct (Message_in_reply_to m); try discriminate; reflexivity.
  - destruct (is_request m) eqn:Ereq.
    + apply (Hfrom_same (set_want_reply true (mkMessage CRequest (pointy_of m))));
        [ unfold cast; rewrite Erep, Ereq | reflexivity
        | apply set_want_reply_of_request; assumption
        | discriminate ].
      unfold Request_from_message.
      rewrite _merge_args_extract by exact Hwf. reflexivity.
    + exists (clear_reply_fields (mkMessage CAnnouncement (pointy_of m))).
      split.
      { unfold cast. rewrite Erep, Ereq. unfold Announcement_from_message.
        rewrite _merge_args_extract by exact Hwf. reflexivity. }
      split; [ reflexivity |].
      apply same_struct_iff in Hps. destruct Hps as (Hh & Hn & Hd).
      split.
      { apply equivalent_struct_iff. unfold data_string in *.
        repeat split; assumption. }
      assert (Hr : Message_in_reply_to m = PNone).
      { unfold is_reply in Erep.
        destruct (Message_in_reply_to_cases m) as [E | [i E]];
          [ exact E | rewrite E in Erep; discriminate ]. }
      split; [ reflexivity |]. split; [ rewrite Hr; reflexivity |].
      split; [ reflexivity |]. split; [ reflexivity |].
      split; [ intros [E | E]; discriminate |].
      intros _ _. split; reflexivity.
Qed.

Lemma cast_spec_witness :
  exists m',
    cast le32 no_memory reply_Fred = Ok m' /\
    class_of m' = (if is_reply reply_Fred then
                     if startswith (struct_name (msg reply_Fred)) KBUS_prefix
                     then CStatus else CReply
                   else if is_request reply_Fred then CRequest
                        else CAnnouncement) /\
    equivalent m' reply_Fred = true /\
    Message_id m' = Message_id reply_Fred /\
    Message_in_reply_to m' = Message_in_reply_to reply_Fred /\
    Message_from_ m' = Message_from_ reply_Fred /\
    Message_flags m' = Message_flags reply_Fred /\
    (is_reply reply_Fred = true \/ is_request reply_Fred = true ->
     Message_eq m' reply_Fred = true) /\
    (is_reply reply_Fred = false -> is_request reply_Fred = false ->
     Message_orig_from m' = PNone /\ Message_final_to m' = PNone).
Proof. exact (cast_spec le32 no_memory reply_Fred reply_Fred_well_formed). Defined.

(** ** stateful_request *)

Lemma Request_init_fields (name data : pyval) (to_id : Z)
    (from_id ft flags id : pyval) (r : Message) :
  is_u32 to_id ->
  ft = PNone \/
  (exists o, ft = POrigFrom o /\ is_u32 (of_network_id o) /\
             is_u32 (local_id o)) ->
  Request_init name data (PInt to_id) from_id ft flags id = Ok r ->
  class_of r = CRequest /\ is_request r = true /\
  Message_in_reply_to r = PNone /\ Message_orig_from r = PNone /\
  Message_to r = to_id /\
  final_to (hdr (msg r)) = OrigFrom_or_zero ft.
Proof.
  intros Hto Hft H. unfold Request_init in H. inv_bind H.
  inversion H; subst r; clear H.
  pose proof (set_want_reply_true_flags x) as Hflag.
  apply Message_init_Ok in E.
  destruct E as (n & -> & _ & Hfd & Hc & _).
  apply _from_data_Ok in Hfd.
  destruct Hfd as (n' & ip & rp & op & fp & _ & _ & Hrp & Hop & Hfp & _ & Hmsg).
  destruct x as [cls s]. cbn [msg class_of] in *. subst s cls.
  inversion Hrp; subst rp. inversion Hop; subst op.
  split; [ reflexivity |].
  split.
  { unfold is_request. unfold Message_flags in Hflag. rewrite Hflag.
    reflexivity. }
  split; [ reflexivity |]. split; [ reflexivity |].
  split.
  { unfold Message_to, set_want_reply. cbn [msg set_hdr hdr set_flags to].
    cbn [stored_int]. apply u32_small, Hto. }
  unfold set_want_reply. cbn [msg set_hdr hdr set_flags final_to].
  destruct Hft as [-> | (o & -> & Ho1 & Ho2)].
  - inversion Hfp; subst fp. reflexivity.
  - inversion Hfp; subst fp. cbn [fst snd OrigFrom_or_zero].
    rewrite (u32_small _ Ho1), (u32_small _ Ho2). destruct o; reflexivity.
Qed.

Lemma Message_orig_from_in_range (m : Message) :
  header_in_range (hdr (msg m)) ->
  Message_orig_from m = PNone \/
  (exists o, Message_orig_from m = POrigFrom o /\ is_u32 (of_network_id o) /\
             is_u32 (local_id o)).
Proof.
  intros (_ & _ & _ & _ & _ & _ & _ & H1 & H2 & _).
  unfold Message_orig_from. destruct (_ && _); eauto.
Qed.

Lemma Message_final_to_in_range (m : Message) :
  header_in_range (hdr (msg m)) ->
  Message_final_to m = PNone \/
  (exists o, Message_final_to m = POrigFrom o /\ is_u32 (of_network_id o) /\
             is_u32 (local_id o)).
Proof.
  intros (_ & _ & _ & _ & _ & _ & _ & _ & _ & H1 & H2 & _).
  unfold Message_final_to. destruct (_ && _); eauto.
Qed.

(** X12: [stateful_request(earlier, name, ...)] raises its own ValueError
    exactly when [earlier] is neither a reply nor a stateful request.
    Otherwise it is [Request(name, ...)], and when that succeeds the
    result is a Request with WANT_A_REPLY set and in_reply_to and
    orig_from unset, whose [to] and [final_to] are the [from_] and
    [orig_from] of an earlier reply, or the [to] and [final_to] of an
    earlier stateful request; made from a stateful request it is a
    stateful request again. *)
Theorem stateful_request_spec (earlier : Message)
    (name data from_ flags id : pyval) :
  header_in_range (hdr (msg earlier)) ->
  (stateful_request earlier name data from_ flags id
   = NotReplyNorStatefulRequest <->
   is_reply earlier = false /\ is_stateful_request earlier = false) /\
  (forall r,
     stateful_request earlier name data from_ flags id = FromRequest (Ok r) ->
     class_of r = CRequest /\ is_request r = true /\
     Message_in_reply_to r = PNone /\ Message_orig_from r = PNone /\
     Message_to r = (if is_reply earlier then Message_from_ earlier
                     else Message_to earlier) /\
     Message_final_to r = (if is_reply earlier then Message_orig_from earlier
                           else Message_final_to earlier) /\
     (is_reply earlier = false -> is_stateful_request r = true)).
Proof.
  intros Hr. unfold stateful_request. split.
  - destruct (is_reply earlier);
      [ split; [ discriminate | intros [E _]; discriminate ] |].
    destruct (is_stateful_request earlier);
      [ split; [ discriminate | intros [_ E]; discriminate ] |].
    split; auto.
  - intros r H.
    pose proof Hr as (_ & _ & _ & _ & _ & Hto & Hfrom & _).
    destruct (is_reply earlier) eqn:Erep.
    + assert (Hreq : Request_init name data (PInt (Message_from_ earlier))
                       from_ (Message_orig_from earlier) flags id = Ok r)
        by congruence.
      apply Request_init_fields in Hreq;
        [| exact Hfrom | apply Message_orig_from_in_range; exact Hr ].
      destruct Hreq as (Hc & Hq & Hi & Ho & Ht & Hf).
      repeat (split; [ assumption |]).
      split; [| discriminate ].
      rewrite OrigFrom_or_zero_Message_orig_from in Hf.
      unfold Message_final_to, Message_orig_from. rewrite Hf. reflexivity.
    + destruct (is_stateful_request earlier) eqn:Esr; [| discriminate ].
      assert (Hreq : Request_init name data (PInt (Message_to earlier))
                       from_ (Message_final_to earlier) flags id = Ok r)
        by congruence.
      apply Request_init_fields in Hreq;
        [| exact Hto | apply Message_final_to_in_range; exact Hr ].
      destruct Hreq as (Hc & Hq & Hi & Ho & Ht & Hf).
      repeat (split; [ assumption |]).
      split.
      * rewrite OrigFrom_or_zero_Message_final_to in Hf.
        unfold Message_final_to. rewrite Hf. reflexivity.
      * intros _. unfold is_stateful_request in *.
        unfold is_request in Hq. rewrite Hq, Ht.
        apply andb_true_iff in Esr. destruct Esr as [_ Esr]. exact Esr.
Qed.

Lemma reply_Fred_in_range : header_in_range (hdr (msg reply_Fred)).
Proof. exact (proj1 reply_Fred_well_formed). Defined.

Lemma stateful_request_spec_witness :
  exists r,
    stateful_request reply_Fred (PStr (b "$.SomethingElse")) PNone PNone PNone
                     PNone = FromRequest (Ok r) /\
    Message_to r = Message_from_ reply_Fred /\
    Message_final_to r = Message_orig_from reply_Fred.
Proof.
  eexists. split; [ reflexivity |].
  destruct (proj2 (stateful_request_spec reply_Fred
                     (PStr (b "$.SomethingElse")) PNone PNone PNone PNone
                     reply_Fred_in_range) _ eq_refl)
    as (_ & _ & _ & _ & Ht & Hf & _).
  split; [ exact Ht | exact Hf ].
Defined.

(** ** Replier bind events *)

Lemma byte_val_range (c : ascii) : 0 <= byte_val c < 256.
Proof.
  unfold byte_val. pose proof (N_ascii_bounded c). lia.
Qed.

Lemma u32_of_bytes_range (P : platform) (s : bytes) : is_u32 (u32_of_bytes P s).
Proof.
  unfold is_u32, u32_of_bytes. change (2 ^ 32) with 4294967296.
  destruct s as [| c0 [| c1 [| c2 [| c3 [| c4 s]]]]]; try lia.
  pose proof (byte_val_range c0). pose proof (byte_val_range c1).
  pose proof (byte_val_range c2). pose proof (byte_val_range c3).
  destruct (big_endian P); lia.
Qed.

Lemma word_at_range (P : platform) (buf : bytes) (off : nat) :
  is_u32 (word_at P buf off).
Proof. apply u32_of_bytes_range. Qed.

Lemma length__ReplierBindEventHeader_bytes (P : platform) (i bnd n : Z) :
  length (_ReplierBindEventHeader_bytes P i bnd n) = 12%nat.
Proof.
  unfold _ReplierBindEventHeader_bytes.
  rewrite !length_app, !length_u32_bytes. reflexivity.
Qed.

(** X13: [split_replier_bind_event_data] undoes the layout of a replier
    bind event: from the three words [is_bind], [binder] and [len(name)]
    followed by the name (and by anything else) it returns
    [(is_bind, binder, name)].  On any string at all it returns two
    32-bit numbers and a name that is a piece of the string starting at
    its byte 12, cut short where the string ends. *)
Theorem split_replier_bind_event_data_spec (P : platform)
    (beyond : nat -> ascii) (is_bind binder : Z) (name rest : bytes) :
  is_u32 is_bind -> is_u32 binder -> len name < 2 ^ 32 ->
  split_replier_bind_event_data P beyond
    (_ReplierBindEventHeader_bytes P is_bind binder (len name) ++ name ++ rest)
  = (is_bind, binder, name) /\
  (forall data,
     is_u32 (fst (fst (split_replier_bind_event_data P beyond data))) /\
     is_u32 (snd (fst (split_replier_bind_event_data P beyond data))) /\
     exists after,
       skipn 12 data
       = snd (split_replier_bind_event_data P beyond data) ++ after).
Proof.
  intros Hi Hb Hn. split.
  - unfold split_replier_bind_event_data. cbv zeta.
    assert (Hname : is_u32 (len name)) by (split; [ apply len_nonneg | exact Hn ]).
    assert (Hm : memmove_from beyond
                   (_ReplierBindEventHeader_bytes P is_bind binder (len name)
                    ++ name ++ rest) 12
                 = _ReplierBindEventHeader_bytes P is_bind binder (len name)).
    { rewrite <- (length__ReplierBindEventHeader_bytes P is_bind binder
                    (len name)).
      apply memmove_from_within. }
    rewrite !Hm.
    assert (Hw0 : word_at P (_ReplierBindEventHeader_bytes P is_bind binder
                               (len name)) 0 = is_bind).
    { unfold _ReplierBindEventHeader_bytes. apply word_at_here, Hi. }
    assert (Hw4 : word_at P (_ReplierBindEventHeader_bytes P is_bind binder
                               (len name)) 4 = binder).
    { unfold _ReplierBindEventHeader_bytes. rewrite word_at_next.
      apply word_at_here, Hb. }
    assert (Hw8 : word_at P (_ReplierBindEventHeader_bytes P is_bind binder
                               (len name)) 8 = len name).
    { unfold _ReplierBindEventHeader_bytes. rewrite !word_at_next.
      rewrite <- (app_nil_r (u32_bytes P (len name))).
      apply word_at_here, Hname. }
    rewrite Hw0, Hw4, Hw8, to_nat_len.
    rewrite <- (length__ReplierBindEventHeader_bytes P is_bind binder (len name)).
    rewrite py_slice_middle. reflexivity.
  - intros data. unfold split_replier_bind_event_data. cbv zeta.
    cbn [fst snd].
    split; [ apply word_at_range |]. split; [ apply word_at_range |].
    unfold py_slice. eexists. symmetry. apply firstn_skipn.
Qed.

Lemma split_replier_bind_event_data_spec_witness :
  split_replier_bind_event_data le32 no_memory
    (_ReplierBindEventHeader_bytes le32 1 27 (len (b "$.Fred")) ++
     b "$.Fred" ++ [NUL; NUL])
  = (1, 27, b "$.Fred").
Proof.
  apply (split_replier_bind_event_data_spec le32 no_memory 1 27 (b "$.Fred")
           [NUL; NUL]);
    unfold is_u32; try split; first [ apply Z.leb_le | apply Z.ltb_lt ];
    reflexivity.
Defined.

(** ** Printable forms *)

Lemma join_cons_cons (sep w w' : bytes) (rest : list bytes) :
  join sep (w :: w' :: rest) = w ++ sep ++ join sep (w' :: rest).
Proof. reflexivity. Qed.

Lemma join_nil_cons (w : bytes) (rest : list bytes) :
  join [] (w :: rest) = w ++ join [] rest.
Proof.
  destruct rest as [| w' rest]; [ simpl; symmetry; apply app_nil_r |].
  reflexivity.
Qed.

Lemma hex_digit_inj (x y : Z) :
  0 <= x < 16 -> 0 <= y < 16 -> hex_digit x = hex_digit y -> x = y.
Proof.
  intros Hx Hy.
  assert (Hx' : x = 0 \/ x = 1 \/ x = 2 \/ x = 3 \/ x = 4 \/ x = 5 \/ x = 6 \/
                x = 7 \/ x = 8 \/ x = 9 \/ x = 10 \/ x = 11 \/ x = 12 \/
                x = 13 \/ x = 14 \/ x = 15) by lia.
  assert (Hy' : y = 0 \/ y = 1 \/ y = 2 \/ y = 3 \/ y = 4 \/ y = 5 \/ y = 6 \/
                y = 7 \/ y = 8 \/ y = 9 \/ y = 10 \/ y = 11 \/ y = 12 \/
                y = 13 \/ y = 14 \/ y = 15) by lia.
  clear Hx Hy.
  repeat (destruct Hx' as [-> | Hx']); try subst x;
    repeat (destruct Hy' as [-> | Hy']); try subst y;
    intros H; first [ reflexivity | cbv in H; discriminate H ].
Qed.

Lemma byte_val_inj (c d : ascii) : byte_val c = byte_val d -> c = d.
Proof.
  unfold byte_val. intros H. apply N2Z.inj in H.
  rewrite <- (ascii_N_embedding c), <- (ascii_N_embedding d), H. reflexivity.
Qed.

Lemma format_02x_inj (c d : ascii) : format_02x c = format_02x d -> c = d.
Proof.
  unfold format_02x. intros H. injection H as Hhi Hlo.
  pose proof (byte_val_range c) as Hc. pose proof (byte_val_range d) as Hd.
  apply hex_digit_inj in Hhi; [| Z.div_mod_to_equations; lia ..].
  apply hex_digit_inj in Hlo; [| Z.div_mod_to_equations; lia ..].
  apply byte_val_inj. Z.div_mod_to_equations. lia.
Qed.

Lemma length_hexify_cons (c : ascii) (s : bytes) :
  length (hexify (c :: s)) = (3 * length s + 2)%nat.
Proof.
  revert c. induction s as [| d s IH]; intros c; [ reflexivity |].
  unfold hexify in *. cbn [map] in *. rewrite join_cons_cons.
  rewrite !length_app, IH. cbn [length format_02x]. lia.
Qed.

Lemma byte_val_hex_digit (v : Z) :
  0 <= v < 16 ->
  byte_val (hex_digit v) = (if v <? 10 then 48 else 87) + v.
Proof.
  intros Hv.
  assert (Hv' : v = 0 \/ v = 1 \/ v = 2 \/ v = 3 \/ v = 4 \/ v = 5 \/ v = 6 \/
                v = 7 \/ v = 8 \/ v = 9 \/ v = 10 \/ v = 11 \/ v = 12 \/
                v = 13 \/ v = 14 \/ v = 15) by lia.
  repeat (destruct Hv' as [-> | Hv']); try subst v; reflexivity.
Qed.

(** X14: [hexify] writes two hex digits for each byte, with single spaces
    between them.  The digits of a byte are the characters [0]-[9]
    (codes 48 to 57) and [a]-[f] (codes 97 to 102) for its high and then
    its low four bits; the text of a longer string is the text of its
    first byte, a space, and the text of the rest.  So the result is
    [3*len(data) - 1] long for a non-empty string and empty for the empty
    one, and different strings give different results. *)
Theorem hexify_spec (data : bytes) :
  length (hexify data) = (3 * length data - 1)%nat /\
  (hexify data = [] <-> data = []) /\
  (forall other, hexify data = hexify other -> data = other) /\
  hexify [] = [] /\
  (forall c, exists hi lo,
     hexify [c] = [hi; lo] /\
     byte_val hi = (if byte_val c / 16 <? 10 then 48 else 87)
                   + byte_val c / 16 /\
     byte_val lo = (if byte_val c mod 16 <? 10 then 48 else 87)
                   + byte_val c mod 16) /\
  (forall c d rest,
     hexify (c :: d :: rest) = hexify [c] ++ " "%char :: hexify (d :: rest)).
Proof.
  assert (Hlen : forall s, length (hexify s) = (3 * length s - 1)%nat).
  { intros [| c s]; [ reflexivity |]. rewrite length_hexify_cons.
    cbn [length]. lia. }
  split; [ apply Hlen |]. split; [| split; [| split; [ reflexivity | split ] ] ].
  - split; [| intros ->; reflexivity ].
    intros H. apply (f_equal (@length ascii)) in H. rewrite Hlen in H.
    destruct data; [ reflexivity | cbn [length] in H; lia ].
  - induction data as [| c s IH]; intros other H.
    + apply (f_equal (@length ascii)) in H. rewrite !Hlen in H.
      destruct other; [ reflexivity | cbn [length] in H; lia ].
    + destruct other as [| d t].
      { apply (f_equal (@length ascii)) in H. rewrite !Hlen in H.
        cbn [length] in H. lia. }
      assert (Hl : length s = length t).
      { apply (f_equal (@length ascii)) in H.
        rewrite !length_hexify_cons in H. lia. }
      destruct s as [| c' s], t as [| d' t]; try discriminate Hl.
      * unfold hexify in H. cbn [map join] in H.
        apply format_02x_inj in H. congruence.
      * unfold hexify in H, IH. cbn [map] in H, IH.
        rewrite !join_cons_cons in H.
        unfold format_02x at 1 3 in H. cbn [app] in H.
        injection H as Hhi Hlo Hrest.
        assert (Hcd : c = d)
          by (apply format_02x_inj; unfold format_02x; congruence).
        rewrite (IH (d' :: t) Hrest), Hcd. reflexivity.
  - intros c. pose proof (byte_val_range c) as Hc.
    exists (hex_digit (byte_val c / 16)), (hex_digit (byte_val c mod 16)).
    split; [ reflexivity |].
    split; apply byte_val_hex_digit; Z.div_mod_to_equations; lia.
  - intros c d rest. unfold hexify. cbn [map]. rewrite join_cons_cons.
    reflexivity.
Qed.

Lemma hex_digit_pretty (x : Z) : char_in (hex_digit x) pretty = true.
Proof.
  destruct (Z_lt_le_dec x 0) as [Hneg | Hpos].
  - destruct x as [| p | p]; try lia. reflexivity.
  - destruct (Z_lt_le_dec x 16) as [Hlt | Hge].
    + assert (Hx' : x = 0 \/ x = 1 \/ x = 2 \/ x = 3 \/ x = 4 \/ x = 5 \/
                    x = 6 \/ x = 7 \/ x = 8 \/ x = 9 \/ x = 10 \/ x = 11 \/
                    x = 12 \/ x = 13 \/ x = 14 \/ x = 15) by lia.
      repeat (destruct Hx' as [-> | Hx']); try subst x; reflexivity.
    + unfold hex_digit. rewrite nth_overflow; [ reflexivity |].
      cbn [length list_ascii_of_string]. lia.
Qed.

Lemma hexdata_cons (c : ascii) (s : bytes) :
  hexdata (c :: s)
  = (if char_in c pretty then [c]
     else list_ascii_of_string "\x" ++ format_02x c) ++ hexdata s.
Proof. unfold hexdata. cbn [map]. apply join_nil_cons. Qed.

Lemma hexdata_all_pretty (s : bytes) :
  forallb (fun ch => char_in ch pretty) (hexdata s) = true.
Proof.
  induction s as [| c s IH]; [ reflexivity |].
  rewrite hexdata_cons, forallb_app, IH, andb_true_r.
  destruct (char_in c pretty) eqn:Ec.
  - cbn [forallb]. rewrite Ec. reflexivity.
  - unfold format_02x. cbn [list_ascii_of_string app forallb].
    rewrite !hex_digit_pretty. reflexivity.
Qed.

Lemma hexdata_of_pretty (s : bytes) :
  forallb (fun ch => char_in ch pretty) s = true -> hexdata s = s.
Proof.
  induction s as [| c s IH]; [ reflexivity |].
  cbn [forallb]. intros H. apply andb_true_iff in H. destruct H as [Hc Hs].
  rewrite hexdata_cons, Hc, (IH Hs). reflexivity.
Qed.

Lemma char_in_pretty (c : ascii) :
  char_in c pretty = (33 <=? byte_val c) && (byte_val c <=? 126).
Proof. destruct c as [[] [] [] [] [] [] [] []]; reflexivity. Qed.

(** X15: [hexdata] returns a string of letters, digits and punctuation
    only.  A byte with a code from 33 to 126 (the letters, digits and
    punctuation) stands for itself; any other byte becomes the four
    characters [\xNN], a backslash, an [x] and its two lower-case hex
    digits, high four bits first; the text of a string is the text of its
    bytes, one after the other.  So [hexdata] returns its argument
    unchanged exactly when the argument is already such a string, and
    applying it twice is the same as applying it once. *)
Theorem hexdata_spec (data : bytes) :
  forallb (fun ch => char_in ch pretty) (hexdata data) = true /\
  (hexdata data = data <->
   forallb (fun ch => char_in ch pretty) data = true) /\
  hexdata (hexdata data) = hexdata data /\
  (length data <= length (hexdata data) <= 4 * length data)%nat /\
  hexdata [] = [] /\
  (forall c, char_in c pretty = (33 <=? byte_val c) && (byte_val c <=? 126)) /\
  (forall c rest,
     (33 <=? byte_val c) && (byte_val c <=? 126) = true ->
     hexdata (c :: rest) = c :: hexdata rest) /\
  (forall c rest,
     (33 <=? byte_val c) && (byte_val c <=? 126) = false ->
     exists hi lo,
       hexdata (c :: rest)
       = "092"%char :: "x"%char :: hi :: lo :: hexdata rest /\
       byte_val hi = (if byte_val c / 16 <? 10 then 48 else 87)
                     + byte_val c / 16 /\
       byte_val lo = (if byte_val c mod 16 <? 10 then 48 else 87)
                     + byte_val c mod 16).
Proof.
  split; [ apply hexdata_all_pretty |].
  split; [| split; [| split; [| split; [ reflexivity |
    split; [ apply char_in_pretty | split ] ] ] ] ].
  - split; [| apply hexdata_of_pretty ].
    intros H. rewrite <- H. apply hexdata_all_pretty.
  - apply hexdata_of_pretty, hexdata_all_pretty.
  - induction data as [| c s IH]; [ simpl; lia |].
    rewrite hexdata_cons, length_app. cbn [length].
    destruct (char_in c pretty); cbn [length list_ascii_of_string app format_02x];
      lia.
  - intros c rest Hc. rewrite hexdata_cons, char_in_pretty, Hc. reflexivity.
  - intros c rest Hc. pose proof (byte_val_range c) as Hr.
    exists (hex_digit (byte_val c / 16)), (hex_digit (byte_val c mod 16)).
    split; [ rewrite hexdata_cons, char_in_pretty, Hc; reflexivity |].
    split; apply byte_val_hex_digit; Z.div_mod_to_equations; lia.
Qed.

Lemma land_known_flags (flags : Z) :
  Z.land flags 0x30F = 0 <->
  Z.land flags WANT_A_REPLY = 0 /\ Z.land flags WANT_YOU_TO_REPLY = 0 /\
  Z.land flags SYNTHETIC = 0 /\ Z.land flags URGENT = 0 /\
  Z.land flags ALL_OR_FAIL = 0 /\ Z.land flags ALL_OR_WAIT = 0.
Proof.
  change 0x30F with
    (Z.lor WANT_A_REPLY
       (Z.lor WANT_YOU_TO_REPLY
          (Z.lor SYNTHETIC (Z.lor URGENT (Z.lor ALL_OR_FAIL ALL_OR_WAIT))))).
  rewrite !Z.land_lor_distr_r, !Z.lor_eq_0_iff. reflexivity.
Qed.

(** X16: the text of the flags depends on the six known flag bits only
    (bits 0 to 3, 8 and 9), and it is empty exactly when none of them is
    set. *)
Theorem flag_text_spec (flags : Z) :
  _flag_text (Z.land flags 0x30F) = _flag_text flags /\
  (_flag_text flags = [] <-> Z.land flags 0x30F = 0).
Proof.
  split.
  - assert (H : forall B, Z.land 0x30F B = B ->
                          Z.land (Z.land flags 0x30F) B = Z.land flags B).
    { intros B HB. rewrite <- Z.land_assoc, HB. reflexivity. }
    unfold _flag_text, known_flag_words.
    rewrite !H by reflexivity. reflexivity.
  - rewrite land_known_flags. unfold _flag_text, known_flag_words.
    destruct (Z.eqb_spec (Z.land flags WANT_A_REPLY) 0) as [E1 | E1];
      destruct (Z.eqb_spec (Z.land flags WANT_YOU_TO_REPLY) 0) as [E2 | E2];
      destruct (Z.eqb_spec (Z.land flags SYNTHETIC) 0) as [E3 | E3];
      destruct (Z.eqb_spec (Z.land flags URGENT) 0) as [E4 | E4];
      destruct (Z.eqb_spec (Z.land flags ALL_OR_FAIL) 0) as [E5 | E5];
      destruct (Z.eqb_spec (Z.land flags ALL_OR_WAIT) 0) as [E6 | E6];
      cbn; (split; [ intros H; try discriminate H; tauto | tauto ]).
Qed.

(** ** What the constructor stores *)

Lemma id_pair_Ok (v : pyval) (p : Z * Z) :
  id_pair v = Ok p ->
  p = (network_id (MessageId_or_zero v), serial_num (MessageId_or_zero v)).
Proof.
  destruct v as [| z | [| c s] | x | x]; unfold id_pair; cbn [truthy];
    try (intros H; inversion H; reflexivity); try discriminate.
  destruct (z =? 0); cbn [negb]; intros H; inversion H; reflexivity.
Qed.

Lemma orig_from_pair_Ok (v : pyval) (p : Z * Z) :
  orig_from_pair v = Ok p ->
  p = (of_network_id (OrigFrom_or_zero v), local_id (OrigFrom_or_zero v)).
Proof.
  destruct v as [| z | [| c s] | x | x]; unfold orig_from_pair; cbn [truthy];
    try (intros H; inversion H; reflexivity); try discriminate.
  destruct (z =? 0); cbn [negb]; intros H; inversion H; reflexivity.
Qed.

(** X19: what [Message(name, ...)] stores can be read back.  For a name
    without NUL bytes and a name and data short enough for their length
    fields, the new Message is a well-formed pointy message of the class
    asked for; its [name] is the name given, its [data] the data given
    ([None] for any false value), and [to], [from_], [flags], [id],
    [in_reply_to], [orig_from] and [final_to] hold the values given,
    reduced modulo 2^32, with 0 for [None]. *)
Theorem Message_init_fields (cls : msg_class) (n : bytes)
    (data to_arg from_arg o f r flags_arg i : pyval) (m : Message) :
  Message_init cls (PStr n) data to_arg from_arg o f r flags_arg i = Ok m ->
  ~ In NUL n -> len n < 2 ^ 32 -> len (str_or_empty data) < 2 ^ 32 ->
  class_of m = cls /\ is_pointy (msg m) = true /\ well_formed (msg m) /\
  Message_name m = n /\
  Message_data m = (if truthy data then data else PNone) /\
  Message_to m = stored_int to_arg /\
  Message_from_ m = stored_int from_arg /\
  Message_flags m = stored_int flags_arg /\
  id (hdr (msg m))
  = mkMessageId (u32 (network_id (MessageId_or_zero i)))
                (u32 (serial_num (MessageId_or_zero i))) /\
  in_reply_to (hdr (msg m))
  = mkMessageId (u32 (network_id (MessageId_or_zero r)))
                (u32 (serial_num (MessageId_or_zero r))) /\
  orig_from (hdr (msg m))
  = mkOrigFrom (u32 (of_network_id (OrigFrom_or_zero o)))
               (u32 (local_id (OrigFrom_or_zero o))) /\
  final_to (hdr (msg m))
  = mkOrigFrom (u32 (of_network_id (OrigFrom_or_zero f)))
               (u32 (local_id (OrigFrom_or_zero f))) /\
  extra (hdr (msg m)) = 0.
Proof.
  intros H Hnf Hln Hld.
  destruct (Message_init_well_formed _ _ _ _ _ _ _ _ _ _ _ H Hnf Hln Hld)
    as (Hwf & _ & _).
  apply Message_init_Ok in H.
  destruct H as (n' & En & _ & Hd & Hc & _). inversion En; subst n'; clear En.
  apply _from_data_Ok in Hd.
  destruct Hd as (n' & ip & rp & op & fp & En & Hip & Hrp & Hop & Hfp & Hdat &
                  Hm).
  inversion En; subst n'; clear En.
  apply id_pair_Ok in Hip, Hrp. apply orig_from_pair_Ok in Hop, Hfp.
  subst ip rp op fp.
  split; [ exact Hc |]. split; [ rewrite Hm; reflexivity |].
  split; [ exact Hwf |].
  unfold Message_name, Message_data, Message_to, Message_from_, Message_flags.
  rewrite Hm.
  cbn [hdr name_len data_len struct_name struct_data to from_ flags id
       in_reply_to orig_from final_to extra fst snd].
  split.
  { rewrite c_str_pad4_terminated, (c_str_id n Hnf), (u32_len_small _ Hln),
      to_nat_len, firstn_all. reflexivity. }
  split; [ apply stored_data_string; assumption |].
  repeat split; reflexivity.
Qed.

Lemma Message_init_fields_witness :
  Message_name request_Fred = b "$.Fred" /\
  Message_data request_Fred = PStr (b "1234") /\
  Message_to request_Fred = 99.
Proof.
  destruct (Message_init_fields CMessage (b "$.Fred") (PStr (b "1234"))
              (PInt 99) (PInt 27) PNone PNone PNone (PInt 3)
              (PMessageId (mkMessageId 0 132)) request_Fred eq_refl)
    as (_ & _ & _ & Hn & Hd & Ht & _).
  - simpl. intros H. repeat destruct H as [H | H]; try discriminate H; exact H.
  - apply Z.ltb_lt. reflexivity.
  - apply Z.ltb_lt. reflexivity.
  - split; [ exact Hn |]. split; [ exact Hd | exact Ht ].
Defined.

(** ** The layout of the bytes *)

(** X20: the bytes of a well-formed message are, in this order, the
    header with fresh guards and a zero [extra], the name followed by 1
    to 4 NUL bytes, the data followed by 0 to 3 NUL bytes, and the end
    guard; the name with its padding and the data with its padding are
    each a multiple of 4 long. *)
Theorem to_bytes_layout (P : platform) (m : Message) :
  well_formed (msg m) ->
  exists k1 k2,
    to_bytes P m
    = header_bytes P (fresh_header (hdr (msg m))) ++
      Message_name m ++ zeros k1 ++
      data_string (msg m) ++ zeros k2 ++
      u32_bytes P END_GUARD /\
    (1 <= k1 <= 4)%nat /\ (k2 <= 3)%nat /\
    (len (Message_name m) + Z.of_nat k1) mod 4 = 0 /\
    (len (data_string (msg m)) + Z.of_nat k2) mod 4 = 0 /\
    len (header_bytes P (fresh_header (hdr (msg m)))) = MSG_HEADER_LEN P.
Proof.
  intros Hwf.
  destruct (to_bytes_well_formed P m Hwf) as (rn & Hent & Hlrn & _ & Hb & _).
  destruct (well_formed_name m Hwf) as [_ Hnl].
  pose proof (Message_name_nul_free m) as Hnf.
  destruct (c_char_array_store_name _ Hnf) as [Hstore _]. cbv zeta in Hstore.
  assert (Hrn : rn = Message_name m ++
                     zeros (length (pad4 (Message_name m ++ [NUL])) -
                            length (Message_name m))).
  { rewrite <- Hstore. unfold entire_of, _entire_message_from_parts in Hent.
    cbv zeta in Hent. injection Hent. intros. symmetry. assumption. }
  destruct (pad4_spec (data_string (msg m))) as (k2 & Hp & Hk2).
  exists (length (pad4 (Message_name m ++ [NUL])) - length (Message_name m))%nat,
         k2.
  pose proof (len_nonneg (Message_name m)) as Hn0.
  pose proof (len_nonneg (data_string (msg m))) as Hd0.
  assert (Hsize : Z.of_nat (length (pad4 (Message_name m ++ [NUL])))
                  = calc_padded_name_len (len (Message_name m))).
  { rewrite length_pad4_terminated.
    pose proof (calc_padded_name_len_nonneg _ Hn0). lia. }
  unfold calc_padded_name_len in Hsize. unfold len in *.
  split.
  { rewrite Hb, Hrn, Hp, <- !app_assoc. reflexivity. }
  split; [ Z.div_mod_to_equations; lia |].
  split; [ Z.div_mod_to_equations; lia |].
  split; [ Z.div_mod_to_equations; lia |].
  split; [ Z.div_mod_to_equations; lia |].
  rewrite length_header_bytes. pose proof (MSG_HEADER_LEN_pos P). lia.
Qed.

Lemma to_bytes_layout_witness :
  exists k1 k2,
    to_bytes le32 request_Fred
    = header_bytes le32 (fresh_header (hdr (msg request_Fred))) ++
      Message_name request_Fred ++ zeros k1 ++
      data_string (msg request_Fred) ++ zeros k2 ++
      u32_bytes le32 END_GUARD /\
    (1 <= k1 <= 4)%nat /\ (k2 <= 3)%nat /\
    (len (Message_name request_Fred) + Z.of_nat k1) mod 4 = 0 /\
    (len (data_string (msg request_Fred)) + Z.of_nat k2) mod 4 = 0 /\
    len (header_bytes le32 (fresh_header (hdr (msg request_Fred))))
    = MSG_HEADER_LEN le32.
Proof. exact (to_bytes_layout le32 request_Fred request_Fred_well_formed). Defined.

(** ** Messages decoded from any string *)

Lemma length_memmove_from (beyond : nat -> ascii) (data : bytes) (n : nat) :
  length (memmove_from beyond data n) = n.
Proof.
  unfold memmove_from. rewrite length_firstn, length_app, length_map,
    length_seq. lia.
Qed.

Lemma memmove_from_enough (beyond : nat -> ascii) (data : bytes) (n : nat) :
  (n <= length data)%nat -> memmove_from beyond data n = firstn n data.
Proof.
  intros H. unfold memmove_from.
  replace (n - length data)%nat with 0%nat by lia.
  cbn [seq map]. rewrite app_nil_r. reflexivity.
Qed.

Lemma firstn_seq_le (j start n : nat) :
  (j <= n)%nat -> firstn j (seq start n) = seq start j.
Proof.
  revert start n. induction j as [| j IH]; intros start n H; [ reflexivity |].
  destruct n as [| n]; [ lia |].
  cbn [seq firstn]. f_equal. apply IH. lia.
Qed.

Lemma firstn_memmove_from (beyond : nat -> ascii) (data : bytes) (k n : nat) :
  (k <= n)%nat ->
  firstn k (memmove_from beyond data n) = memmove_from beyond data k.
Proof.
  intros Hkn. unfold memmove_from. rewrite firstn_firstn.
  replace (Nat.min k n) with k by lia.
  destruct (Nat.le_gt_cases k (length data)) as [Hk | Hk].
  - rewrite !firstn_app.
    replace (k - length data)%nat with 0%nat by lia.
    rewrite !firstn_0. reflexivity.
  - rewrite !firstn_app. f_equal.
    rewrite !firstn_map, !firstn_seq_le by lia.
    reflexivity.
Qed.

Lemma word_at_firstn (P : platform) (buf : bytes) (n off : nat) :
  (off + 4 <= n)%nat -> word_at P (firstn n buf) off = word_at P buf off.
Proof.
  intros H. unfold word_at.
  rewrite skipn_firstn_comm, firstn_firstn.
  replace (Nat.min 4 (n - off)) with 4%nat by lia. reflexivity.
Qed.

Lemma header_of_bytes_firstn (P : platform) (buf : bytes) :
  header_of_bytes P (firstn (Z.to_nat (MSG_HEADER_LEN P)) buf)
  = header_of_bytes P buf.
Proof.
  unfold header_of_bytes, MSG_HEADER_LEN, end_guard_offset.
  rewrite Nat2Z.id.
  rewrite !word_at_firstn by lia. reflexivity.
Qed.

Lemma header_of_bytes_in_range (P : platform) (buf : bytes) :
  header_in_range (header_of_bytes P buf).
Proof.
  unfold header_in_range, header_of_bytes. cbn.
  repeat split; apply word_at_range.
Qed.

Lemma MSG_HEADER_LEN_le_bytes_read (P : platform) (h : header) :
  (Z.to_nat (MSG_HEADER_LEN P) <= bytes_read P h)%nat.
Proof. unfold bytes_read, sizeof_entire. lia. Qed.

Lemma _entire_message_from_bytes_decoded (P : platform)
    (beyond : nat -> ascii) (data : bytes) :
  MSG_HEADER_LEN P <= len data ->
  _entire_message_from_bytes P beyond data
  = if negb (u32_of_bytes P (firstn 4 data) =? START_GUARD)
    then Raise (ValueError NoStartGuard)
    else Ok (decoded_struct P beyond data).
Proof.
  intros Hlen. unfold _entire_message_from_bytes.
  destruct (Z.ltb_spec (len data) (MSG_HEADER_LEN P)) as [Hlt | _]; [ lia |].
  pose proof (MSG_HEADER_LEN_at_least_4 P) as H4.
  rewrite struct_unpack_L_firstn_4 by lia. cbn [bind].
  destruct (negb (u32_of_bytes P (firstn 4 data) =? START_GUARD));
    [ reflexivity |].
  cbv zeta. unfold decoded_struct. cbv zeta.
  fold (bytes_read P (header_of_bytes P
          (memmove_from beyond data (Z.to_nat (MSG_HEADER_LEN P))))).
  set (h := header_of_bytes P
              (memmove_from beyond data (Z.to_nat (MSG_HEADER_LEN P)))).
  assert (Hh : header_of_bytes P (memmove_from beyond data (bytes_read P h))
               = h).
  { rewrite <- header_of_bytes_firstn.
    rewrite firstn_memmove_from by apply MSG_HEADER_LEN_le_bytes_read.
    reflexivity. }
  rewrite Hh. reflexivity.
Qed.

Lemma Message_from_bytes_Ok (P : platform) (beyond : nat -> ascii)
    (data : bytes) (m : Message) :
  Message_from_bytes P beyond data = Ok m ->
  MSG_HEADER_LEN P <= len data /\
  u32_of_bytes P (firstn 4 data) = START_GUARD /\
  m = mkMessage CMessage (decoded_struct P beyond data).
Proof.
  intros H. unfold Message_from_bytes in H. inv_bind H.
  destruct (Z.lt_ge_cases (len data) (MSG_HEADER_LEN P)) as [Hlt | Hge].
  - rewrite (proj1 (_entire_message_from_bytes_cases P beyond data) Hlt) in E.
    discriminate.
  - rewrite (_entire_message_from_bytes_decoded P beyond data Hge) in E.
    destruct (Z.eqb_spec (u32_of_bytes P (firstn 4 data)) START_GUARD)
      as [Hg | Hg]; cbn [negb] in E; [| discriminate ].
    split; [ exact Hge |]. split; [ exact Hg |]. congruence.
Qed.

Lemma len_Message_data (m : Message) :
  is_u32 (data_len (hdr (msg m))) ->
  len (str_or_empty (Message_data m)) <= data_len (hdr (msg m)).
Proof.
  intros [H0 H1]. unfold Message_data.
  destruct (data_len (hdr (msg m)) =? 0); [ exact H0 |].
  cbn [str_or_empty]. unfold c_data_as_string.
  destruct (struct_data (msg m)); [ apply len_firstn_le; exact H0 | exact H0 ].
Qed.

Lemma as_extracted_ok (m : Message) :
  header_in_range (hdr (msg m)) -> Message_data m <> PStr [] ->
  well_formed (msg (as_extracted m)) /\
  extract (as_extracted m) = extract m.
Proof.
  intros Hr Hd.
  pose proof (Message_name_nul_free m) as Hnf.
  pose proof Hr as (Hsg & Hi1 & Hi2 & Hr1 & Hr2 & Hto & Hfrom & Ho1 & Ho2 &
                    Hf1 & Hf2 & Hex & Hfl & Hnl & Hdl & Heg).
  destruct (len_Message_name m Hnl) as [_ Hnlt].
  pose proof (len_Message_data m Hdl) as Hdle.
  pose proof (len_nonneg (Message_name m)) as Hn0.
  pose proof (len_nonneg (str_or_empty (Message_data m))) as Hd0.
  assert (Hname : Message_name (as_extracted m) = Message_name m).
  { unfold Message_name at 1. cbn [as_extracted msg hdr name_len struct_name].
    rewrite (c_str_id _ Hnf), to_nat_len. apply firstn_all. }
  assert (Hdata : Message_data (as_extracted m) = Message_data m).
  { unfold Message_data at 1. cbn [as_extracted msg hdr data_len struct_data].
    destruct (Message_data_cases m) as [E | [d E]]; rewrite E in *.
    - reflexivity.
    - cbn [str_or_empty c_data_as_string].
      destruct d as [| c d]; [ contradiction Hd; reflexivity |].
      rewrite to_nat_len, firstn_all. reflexivity. }
  split.
  - split; [| split ].
    + unfold as_extracted. cbn [msg hdr]. unfold header_in_range.
      cbn [start_guard id in_reply_to to from_ orig_from final_to extra flags
           name_len data_len end_guard].
      repeat match goal with |- _ /\ _ => split end; try assumption;
        try apply in_range_START_GUARD; try apply in_range_END_GUARD;
        unfold is_u32 in *; lia.
    + cbn [as_extracted msg hdr name_len struct_name].
      rewrite (c_str_id _ Hnf). reflexivity.
    + cbn [as_extracted msg hdr data_len struct_data].
      destruct (Message_data_cases m) as [E | [d E]]; rewrite E.
      * left. reflexivity.
      * right. exists d. split; [ reflexivity | cbn [str_or_empty]; lia ].
  - unfold extract. rewrite Hname, Hdata. reflexivity.
Qed.

Lemma calc_padded_data_len_ge (n : Z) : n <= calc_padded_data_len n.
Proof. unfold calc_padded_data_len. Z.div_mod_to_equations. lia. Qed.

Lemma calc_padded_name_len_mono (a c : Z) :
  a <= c -> calc_padded_name_len a <= calc_padded_name_len c.
Proof. unfold calc_padded_name_len. intros H. Z.div_mod_to_equations. lia. Qed.

(** The parts of a decoded structure. *)
Lemma decoded_struct_parts (P : platform) (beyond : nat -> ascii)
    (data : bytes) :
  exists h rn rd g,
    decoded_struct P beyond data = Entire h rn rd g /\
    h = header_of_bytes P
          (memmove_from beyond data (Z.to_nat (MSG_HEADER_LEN P))) /\
    header_in_range h /\
    length rn = Z.to_nat (calc_padded_name_len (name_len h)) /\
    length rd = Z.to_nat (calc_padded_data_len (data_len h)) /\
    is_u32 g.
Proof.
  unfold decoded_struct. cbv zeta.
  set (h := header_of_bytes P
              (memmove_from beyond data (Z.to_nat (MSG_HEADER_LEN P)))).
  eexists h, _, _, _. split; [ reflexivity |]. split; [ reflexivity |].
  split; [ apply header_of_bytes_in_range |].
  split; [| split; [| apply word_at_range ] ];
    rewrite length_firstn, length_skipn, length_memmove_from;
    unfold bytes_read, sizeof_entire; lia.
Qed.

Lemma decoded_struct_data (P : platform) (beyond : nat -> ascii)
    (data : bytes) (cls : msg_class) :
  Message_data (mkMessage cls (decoded_struct P beyond data)) <> PStr [] /\
  len (str_or_empty
         (Message_data (mkMessage cls (decoded_struct P beyond data))))
  = data_len (hdr (decoded_struct P beyond data)).
Proof.
  destruct (decoded_struct_parts P beyond data)
    as (h & rn & rd & g & -> & _ & Hr & _ & Hlrd & _).
  unfold Message_data. cbn [msg hdr struct_data].
  assert (Hdl : is_u32 (data_len h)) by apply Hr.
  pose proof (calc_padded_data_len_ge (data_len h)) as Hge.
  destruct (Z.eqb_spec (data_len h) 0) as [E0 | E0];
    [ split; [ discriminate | rewrite E0; reflexivity ] |].
  cbn [c_data_as_string str_or_empty].
  assert (Hl : len (firstn (Z.to_nat (data_len h))
                      (firstn (Z.to_nat (data_len h)) rd)) = data_len h).
  { unfold len, is_u32 in *. rewrite !length_firstn. lia. }
  split; [| exact Hl ].
  intros H. injection H as H. rewrite H in Hl. unfold len in Hl.
  cbn [length] in Hl. lia.
Qed.

(** X17: a Message that [Message.from_bytes] decodes from any string
    has all its header fields in range and the start guard in place; its
    name is at most [name_len] long and its data exactly [data_len].  Its
    [to_bytes()] has the length calculated from the name and data as
    they are read, which is at most [total_length()], and decoding those
    bytes again gives a well-formed message with the same [extract()]
    and the same bytes. *)
Theorem decoded_message_normalises (P : platform) (beyond beyond2 : nat -> ascii)
    (data : bytes) (m : Message) :
  Message_from_bytes P beyond data = Ok m ->
  header_in_range (hdr (msg m)) /\
  start_guard (hdr (msg m)) = START_GUARD /\
  is_pointy (msg m) = false /\
  len (Message_name m) <= name_len (hdr (msg m)) /\
  len (str_or_empty (Message_data m)) = data_len (hdr (msg m)) /\
  len (to_bytes P m)
  = calc_entire_message_len P (len (Message_name m)) (data_len (hdr (msg m))) /\
  len (to_bytes P m) <= total_length P m /\
  exists m2,
    Message_from_bytes P beyond2 (to_bytes P m) = Ok m2 /\
    extract m2 = extract m /\
    well_formed (msg m2) /\
    to_bytes P m2 = to_bytes P m.
Proof.
  intros H. apply Message_from_bytes_Ok in H. destruct H as (Hlen & Hg & ->).
  destruct (decoded_struct_data P beyond data CMessage) as [Hne Hdl].
  destruct (decoded_struct_parts P beyond data)
    as (h & rn & rd & g & Hs & Hh & Hr & Hlrn & Hlrd & Hgr).
  change (data_len (hdr (decoded_struct P beyond data)))
    with (data_len (hdr (msg (mkMessage CMessage
                                (decoded_struct P beyond data))))) in Hdl.
  assert (Hhdr : hdr (msg (mkMessage CMessage (decoded_struct P beyond data)))
                 = h) by (cbn [msg]; rewrite Hs; reflexivity).
  assert (Hpty : is_pointy (msg (mkMessage CMessage
                                   (decoded_struct P beyond data))) = false)
    by (cbn [msg]; rewrite Hs; reflexivity).
  remember (mkMessage CMessage (decoded_struct P beyond data)) as m eqn:Em.
  clear Em Hs.
  assert (Hrange : header_in_range (hdr (msg m))) by (rewrite Hhdr; exact Hr).
  destruct (as_extracted_ok m Hrange Hne) as [Hwf Hex].
  destruct (len_Message_name m (proj1 (proj2 (proj2 (proj2 (proj2 (proj2
              (proj2 (proj2 (proj2 (proj2 (proj2 (proj2 (proj2 (proj2
              Hrange))))))))))))))) as [Hnle _].
  assert (Hbytes : to_bytes P m = to_bytes P (as_extracted m))
    by (symmetry; apply to_bytes_of_extract; exact Hex).
  destruct (to_bytes_well_formed P (as_extracted m) Hwf)
    as (_ & _ & _ & _ & _ & Htl).
  assert (Hlb : len (to_bytes P m)
                = calc_entire_message_len P (len (Message_name m))
                                          (data_len (hdr (msg m)))).
  { rewrite Hbytes, Htl, <- Hdl. reflexivity. }
  split; [ exact Hrange |].
  split.
  { rewrite Hhdr, Hh. unfold header_of_bytes. cbn [start_guard].
    unfold word_at. rewrite skipn_0.
    pose proof (MSG_HEADER_LEN_at_least_4 P) as H4.
    rewrite firstn_memmove_from by lia.
    rewrite memmove_from_enough by (unfold len in Hlen; lia).
    exact Hg. }
  split; [ exact Hpty |].
  split; [ exact Hnle |].
  split; [ exact Hdl |].
  split; [ exact Hlb |].
  split.
  { rewrite Hlb. unfold total_length, calc_entire_message_len.
    pose proof (calc_padded_name_len_mono _ _ Hnle). lia. }
  exists (mkMessage CMessage (entire_of (as_extracted m))).
  rewrite Hbytes.
  split; [ apply from_bytes_to_bytes; exact Hwf |].
  destruct (entire_of_same (as_extracted m) Hwf) as [Hwe Hsame].
  assert (He : extract (mkMessage CMessage (entire_of (as_extracted m)))
               = extract m).
  { rewrite <- Hex. apply same_struct_iff in Hsame.
    destruct Hsame as (A1 & A2 & A3). apply extract_of_same; assumption. }
  split; [ exact He |]. split; [ exact Hwe |].
  rewrite <- Hbytes. apply to_bytes_of_extract. exact He.
Qed.

Lemma decoded_message_normalises_witness :
  exists m,
    Message_from_bytes le32 no_memory bytes_without_end_guards = Ok m /\
    len (to_bytes le32 m) <= total_length le32 m.
Proof.
  eexists. split; [ reflexivity |].
  apply (decoded_message_normalises le32 no_memory no_memory
           bytes_without_end_guards _ eq_refl).
Defined.

Lemma slice_of_firstn (l : bytes) (n off k : nat) :
  (off + k <= n)%nat ->
  firstn k (skipn off (firstn n l)) = firstn k (skipn off l).
Proof.
  intros H. rewrite skipn_firstn_comm, firstn_firstn.
  replace (Nat.min k (n - off)) with k by lia. reflexivity.
Qed.

Lemma memmove_from_prefix (beyond beyond2 : nat -> ascii) (data extra : bytes)
    (k n : nat) :
  (k <= n)%nat ->
  memmove_from beyond2 (memmove_from beyond data n ++ extra) k
  = memmove_from beyond data k.
Proof.
  intros H.
  rewrite memmove_from_enough
    by (rewrite length_app, length_memmove_from; lia).
  rewrite firstn_app, length_memmove_from.
  replace (k - n)%nat with 0%nat by lia.
  rewrite firstn_0, app_nil_r. apply firstn_memmove_from. exact H.
Qed.

(** The number of bytes of the structure that hold the message. *)
Lemma decoded_struct_prefix (P : platform) (beyond beyond2 : nat -> ascii)
    (data extra : bytes) :
  let h := header_of_bytes P
             (memmove_from beyond data (Z.to_nat (MSG_HEADER_LEN P))) in
  let n := (Z.to_nat (MSG_HEADER_LEN P) +
            Z.to_nat (calc_padded_name_len (name_len h)) +
            Z.to_nat (calc_padded_data_len (data_len h)) + 4)%nat in
  decoded_struct P beyond2 (memmove_from beyond data n ++ extra)
  = decoded_struct P beyond data.
Proof.
  intros h n. unfold decoded_struct. cbv zeta.
  rewrite (memmove_from_prefix beyond beyond2 data extra
             (Z.to_nat (MSG_HEADER_LEN P)) n) by (unfold n; lia).
  fold h.
  set (pn := Z.to_nat (calc_padded_name_len (name_len h))) in *.
  set (pd := Z.to_nat (calc_padded_data_len (data_len h))) in *.
  set (hl := Z.to_nat (MSG_HEADER_LEN P)) in *.
  assert (Hn : (n <= bytes_read P h)%nat).
  { unfold n, bytes_read, sizeof_entire. fold pn pd hl. lia. }
  set (buf := memmove_from beyond data (bytes_read P h)).
  set (buf2 := memmove_from beyond2 (memmove_from beyond data n ++ extra)
                            (bytes_read P h)).
  assert (Hpre : firstn n buf2 = firstn n buf).
  { unfold buf, buf2. rewrite !firstn_memmove_from by exact Hn.
    apply memmove_from_prefix. lia. }
  rewrite <- (slice_of_firstn buf2 n hl pn) by (unfold n; lia).
  rewrite <- (slice_of_firstn buf2 n (hl + pn) pd) by (unfold n; lia).
  rewrite <- (word_at_firstn P buf2 n (hl + pn + pd)) by (unfold n; lia).
  rewrite Hpre.
  rewrite (slice_of_firstn buf n hl pn) by (unfold n; lia).
  rewrite (slice_of_firstn buf n (hl + pn) pd) by (unfold n; lia).
  rewrite (word_at_firstn P buf n (hl + pn + pd)) by (unfold n; lia).
  reflexivity.
Qed.

(** X18: the Message that [Message.from_bytes] returns is determined by
    the first [total_length()] bytes that are copied from the string: if
    the string is at least that long nothing else matters, and bytes
    after them are ignored.  The copy itself is of the whole structure,
    which is [total_length()] bytes where pointers are 4 bytes wide and
    up to 7 bytes more where they are 8 bytes wide. *)
Theorem from_bytes_uses_total_length (P : platform) (beyond : nat -> ascii)
    (data : bytes) (m : Message) :
  Message_from_bytes P beyond data = Ok m ->
  (forall beyond2 extra,
     Message_from_bytes P beyond2
       (memmove_from beyond data (Z.to_nat (total_length P m)) ++ extra)
     = Ok m) /\
  (total_length P m <= len data ->
   forall beyond2, Message_from_bytes P beyond2 data = Ok m) /\
  total_length P m <= Z.of_nat (bytes_read P (hdr (msg m)))
                   < total_length P m + 8 /\
  (bits64 P = false ->
   Z.of_nat (bytes_read P (hdr (msg m))) = total_length P m).
Proof.
  intros H. apply Message_from_bytes_Ok in H. destruct H as (Hlen & Hg & ->).
  destruct (decoded_struct_parts P beyond data)
    as (h & rn & rd & g & Hs & Hh & Hr & _).
  destruct (header_in_range_lengths h Hr) as [Hn0 Hd0].
  pose proof (calc_padded_name_len_nonneg _ Hn0) as Hpn.
  pose proof (calc_padded_data_len_nonneg _ Hd0) as Hpd.
  pose proof (MSG_HEADER_LEN_at_least_4 P) as H4.
  assert (Htl : total_length P (mkMessage CMessage (decoded_struct P beyond data))
                = MSG_HEADER_LEN P + calc_padded_name_len (name_len h) +
                  calc_padded_data_len (data_len h) + 4).
  { unfold total_length, calc_entire_message_len. cbn [msg]. rewrite Hs.
    reflexivity. }
  assert (Hnat : Z.to_nat (total_length P
                    (mkMessage CMessage (decoded_struct P beyond data)))
                 = (Z.to_nat (MSG_HEADER_LEN P) +
                    Z.to_nat (calc_padded_name_len (name_len h)) +
                    Z.to_nat (calc_padded_data_len (data_len h)) + 4)%nat).
  { rewrite Htl. lia. }
  assert (Hfirst : forall beyond2 extra,
     Message_from_bytes P beyond2
       (memmove_from beyond data
          (Z.to_nat (total_length P
                       (mkMessage CMessage (decoded_struct P beyond data))))
        ++ extra)
     = Ok (mkMessage CMessage (decoded_struct P beyond data))).
  { intros beyond2 extra. rewrite Hnat.
    pose proof (decoded_struct_prefix P beyond beyond2 data extra) as Hp.
    cbv zeta in Hp. rewrite <- Hh in Hp.
    set (n := (Z.to_nat (MSG_HEADER_LEN P) +
               Z.to_nat (calc_padded_name_len (name_len h)) +
               Z.to_nat (calc_padded_data_len (data_len h)) + 4)%nat) in *.
    unfold Message_from_bytes.
    rewrite _entire_message_from_bytes_decoded
      by (unfold len; rewrite length_app, length_memmove_from; unfold n; lia).
    assert (H4b : firstn 4 (memmove_from beyond data n ++ extra)
                  = firstn 4 data).
    { rewrite <- (memmove_from_enough beyond2)
        by (rewrite length_app, length_memmove_from; unfold n; lia).
      rewrite memmove_from_prefix by (unfold n; lia).
      apply memmove_from_enough. unfold len in Hlen. lia. }
    rewrite H4b, Hg, Z.eqb_refl. cbn [negb bind]. rewrite Hp. reflexivity. }
  split; [ exact Hfirst |].
  split.
  - intros Hlong beyond2.
    specialize (Hfirst beyond2
                  (skipn (Z.to_nat (total_length P
                            (mkMessage CMessage (decoded_struct P beyond data))))
                         data)).
    rewrite memmove_from_enough in Hfirst by (unfold len in Hlong; lia).
    rewrite firstn_skipn in Hfirst. exact Hfirst.
  - rewrite Htl. cbn [msg]. rewrite Hs. cbn [hdr].
    unfold bytes_read, sizeof_entire, tail_pad.
    split.
    + destruct (bits64 P); [| lia ].
      match goal with |- context [((8 - ?u mod 8) mod 8)%nat] =>
        pose proof (Nat.mod_upper_bound (8 - u mod 8) 8 ltac:(lia)) end.
      lia.
    + intros ->. lia.
Qed.

Lemma from_bytes_uses_total_length_witness :
  exists m,
    Message_from_bytes le32 no_memory bytes_without_end_guards = Ok m /\
    Z.of_nat (bytes_read le32 (hdr (msg m))) = total_length le32 m.
Proof.
  eexists. split; [ reflexivity |].
  apply (from_bytes_uses_total_length le32 no_memory bytes_without_end_guards
           _ eq_refl).
  reflexivity.
Defined.

(** ** Which strings are decoded *)





